(** * sensei-raw-ctl: the SteelSeries Sensei Raw control utility

    A shallow embedding of [sensei-raw-ctl.c] and of the handlers of
    [sensei-raw-ctl-gui.c] that run the utility, read its output and move
    the polling scale.

    The program talks to libusb and to the C library.  libusb is an
    interface ([LibUSB]) over an abstract world; every call the program
    makes is also recorded, with its arguments and its result, in a log kept
    in the program state, so that statements about which calls happen, how
    often and in which order are statements about that log.  [exit] and a
    failed [assert] are outcomes of the program monad [M]. *)

From Stdlib Require Import ZArith QArith Lqa List String Ascii Bool Lia.
Import ListNotations.
Local Open Scope string_scope.
Local Open Scope Z_scope.

(** ** C library: characters and strings *)

Module Libc.

Definition code (c : ascii) : Z := Z.of_N (N_of_ascii c).

Definition isdigit (c : ascii) : bool := (48 <=? code c) && (code c <=? 57).

(** [isspace] in the C locale: space, and the controls \t \n \v \f \r. *)
Definition isspace (c : ascii) : bool :=
  (code c =? 32) || ((9 <=? code c) && (code c <=? 13)).

Definition isupper (c : ascii) : bool := (65 <=? code c) && (code c <=? 90).

Definition tolower (c : ascii) : Z := if isupper c then code c + 32 else code c.

(** [strcmp]: the difference of the first pair of bytes that differ, the end
    of a string counting as the byte 0. *)
Fixpoint strcmp (a b : string) : Z :=
  match a, b with
  | EmptyString, EmptyString => 0
  | EmptyString, String y _ => 0 - code y
  | String x _, EmptyString => code x
  | String x a', String y b' =>
      if code x =? code y then strcmp a' b' else code x - code y
  end.

(** [strcasecmp]: as [strcmp], on the bytes folded to lower case. *)
Fixpoint strcasecmp (a b : string) : Z :=
  match a, b with
  | EmptyString, EmptyString => 0
  | EmptyString, String y _ => 0 - tolower y
  | String x _, EmptyString => tolower x
  | String x a', String y b' =>
      if tolower x =? tolower y then strcasecmp a' b' else tolower x - tolower y
  end.

(** [long] is 64 bits wide (LP64). *)
Definition LONG_MAX : Z := 2 ^ 63 - 1.
Definition LONG_MIN : Z := - 2 ^ 63.

(** [int] is 32 bits wide; the conversion from [long] wraps. *)
Definition int_of_long (x : Z) : Z := (x + 2 ^ 31) mod 2 ^ 32 - 2 ^ 31.

(** Conversion to [unsigned char]. *)
Definition uchar (x : Z) : Z := x mod 256.

Fixpoint skip_space (s : string) : string :=
  match s with
  | String c r => if isspace c then skip_space r else s
  | EmptyString => s
  end.

(** The longest run of decimal digits at the head of [s], accumulated into
    [acc]; returns the value and what follows the digits. *)
Fixpoint scan_digits (s : string) (acc : Z) : Z * string :=
  match s with
  | String c r =>
      if isdigit c then scan_digits r (10 * acc + (code c - 48)) else (acc, s)
  | EmptyString => (acc, s)
  end.

Definition saturate (v : Z) : Z :=
  if v >? LONG_MAX then LONG_MAX else if v <? LONG_MIN then LONG_MIN else v.

(** [strtol (str, &end, 10)]: white space, an optional sign, decimal digits.
    Returns the value and the text [end] points at.  Without a digit no
    conversion is performed: the value is 0 and [end] is [str].  A value out
    of range is replaced by [LONG_MAX] or [LONG_MIN]. *)
Definition strtol10 (str : string) : Z * string :=
  let s := skip_space str in
  let '(neg, body) :=
    match s with
    | String c r =>
        if (c =? "-")%char then (true, r)
        else if (c =? "+")%char then (false, r)
        else (false, s)
    | EmptyString => (false, s)
    end in
  match body with
  | String c _ =>
      if isdigit c then
        let '(v, rest) := scan_digits body 0 in
        (saturate (if neg then - v else v), rest)
      else (0, str)
  | EmptyString => (0, str)
  end.

(** [printf ("%d", n)]: the decimal digits of [n], most significant first,
    after a minus sign when [n] is negative. *)
Definition digit_char (d : Z) : ascii := ascii_of_N (Z.to_N (48 + d)).

Fixpoint digits_fuel (fuel : nat) (n : Z) (acc : string) : string :=
  match fuel with
  | O => acc
  | S fuel' =>
      let acc' := String (digit_char (n mod 10)) acc in
      if n <? 10 then acc' else digits_fuel fuel' (n / 10) acc'
  end.

Definition digits (n : Z) : string :=
  digits_fuel (S (Z.to_nat (Z.log2 n))) n "".

Definition string_of_int (n : Z) : string :=
  if n <? 0 then String "-"%char (digits (- n)) else digits n.

Definition EXIT_SUCCESS : Z := 0.
Definition EXIT_FAILURE : Z := 1.

End Libc.

Import Libc.

(** ** libusb

    Devices and handles are opaque to the program; a handle is identified
    with the device it was opened on.  [None] stands for [NULL]. *)

Definition libusb_device := nat.
Definition libusb_device_handle := nat.

Record libusb_device_descriptor := mk_descriptor { idVendor : Z; idProduct : Z }.

Definition LIBUSB_ERROR_NOT_SUPPORTED : Z := -12.
Definition LIBUSB_ENDPOINT_IN : Z := 0x80.
Definition LIBUSB_ENDPOINT_OUT : Z := 0x00.
Definition LIBUSB_REQUEST_TYPE_CLASS : Z := 0x20.
Definition LIBUSB_RECIPIENT_INTERFACE : Z := 0x01.

(** What the library and the devices behind it answer.  Every operation may
    depend on and change the world [W].
    - [w_get_device_list]: [None] when the count returned is negative,
      otherwise the devices listed;
    - [w_get_device_descriptor]: [None] when the call returns non-zero;
    - [w_open]: the error code; 0 means the handle was stored;
    - [w_control_transfer]: the value returned and the contents of the data
      buffer after the call. *)
Class UsbWorld (W : Type) := {
  w_init : W -> Z * W;
  w_exit : W -> W;
  w_get_device_list : W -> option (list libusb_device) * W;
  w_free_device_list : list libusb_device -> Z -> W -> W;
  w_get_device_descriptor :
    libusb_device -> W -> option libusb_device_descriptor * W;
  w_open : libusb_device -> W -> Z * W;
  w_close : libusb_device_handle -> W -> W;
  w_kernel_driver_active : libusb_device_handle -> Z -> W -> Z * W;
  w_detach_kernel_driver : libusb_device_handle -> Z -> W -> Z * W;
  w_attach_kernel_driver : libusb_device_handle -> Z -> W -> Z * W;
  w_claim_interface : libusb_device_handle -> Z -> W -> Z * W;
  w_release_interface : libusb_device_handle -> Z -> W -> Z * W;
  w_control_transfer :
    libusb_device_handle -> Z -> Z -> Z -> Z -> list Z -> Z -> Z ->
    W -> (Z * list Z) * W;
  w_error_name : Z -> string
}.

(** A call of the library as the program made it: arguments, then result. *)
Inductive usb_call : Type :=
| Call_init (r : Z)
| Call_exit
| Call_get_device_list (r : option (list libusb_device))
| Call_free_device_list (l : list libusb_device) (unref : Z)
| Call_get_device_descriptor
    (d : libusb_device) (r : option libusb_device_descriptor)
| Call_open (d : libusb_device) (r : Z)
| Call_close (h : libusb_device_handle)
| Call_kernel_driver_active (h : libusb_device_handle) (iface r : Z)
| Call_detach_kernel_driver (h : libusb_device_handle) (iface r : Z)
| Call_attach_kernel_driver (h : libusb_device_handle) (iface r : Z)
| Call_claim_interface (h : libusb_device_handle) (iface r : Z)
| Call_release_interface (h : libusb_device_handle) (iface r : Z)
| Call_control_transfer
    (h : libusb_device_handle) (bmRequestType bRequest wValue wIndex : Z)
    (data : list Z) (wLength timeout : Z) (r : Z) (data' : list Z).

(** ** Program state and the program monad *)

Record state (W : Type) := mk_state {
  world : W;
  calls : list usb_call;
  stdout : string;
  stderr : string
}.
Arguments mk_state {W}.
Arguments world {W}.
Arguments calls {W}.
Arguments stdout {W}.
Arguments stderr {W}.

(** How a computation ends: with a value, in [exit (status)], or in
    [abort ()] after a failed [assert]. *)
Inductive outcome (A : Type) : Type :=
| Ret (a : A)
| Exited (status : Z)
| Aborted.
Arguments Ret {A}.
Arguments Exited {A}.
Arguments Aborted {A}.

Definition M (W A : Type) : Type := state W -> outcome A * state W.

Definition ret {W A} (a : A) : M W A := fun st => (Ret a, st).

Definition bind {W A B} (c : M W A) (k : A -> M W B) : M W B :=
  fun st =>
    match c st with
    | (Ret a, st') => k a st'
    | (Exited n, st') => (Exited n, st')
    | (Aborted, st') => (Aborted, st')
    end.

Definition exit {W A} (status : Z) : M W A := fun st => (Exited status, st).
Definition abort {W A} : M W A := fun st => (Aborted, st).

Declare Scope prog_scope.
Delimit Scope prog_scope with prog.
Notation "x <- c ;; k" := (bind c (fun x => k))
  (at level 61, c at next level, right associativity) : prog_scope.
Notation "' p <- c ;; k" := (bind c (fun p => k))
  (at level 61, p pattern, c at next level, right associativity) : prog_scope.
Notation "c ;; k" := (bind c (fun _ => k))
  (at level 61, right associativity) : prog_scope.
Local Open Scope prog_scope.

Definition printf {W} (s : string) : M W unit :=
  fun st => (Ret tt, mk_state (world st) (calls st) (stdout st ++ s) (stderr st)).

(** [fprintf (stderr, ...)]. *)
Definition eprintf {W} (s : string) : M W unit :=
  fun st => (Ret tt, mk_state (world st) (calls st) (stdout st) (stderr st ++ s)).

(** [assert (b)]. *)
Definition assert {W} (b : bool) : M W unit := if b then ret tt else abort.

Section LibUSB.

Context {W : Type} {U : UsbWorld W}.

(** A library call: ask the world, log the call. *)
Definition call {A} (f : W -> A * W) (ev : A -> usb_call) : M W A :=
  fun st =>
    let '(a, w') := f (world st) in
    (Ret a, mk_state w' (calls st ++ [ev a]) (stdout st) (stderr st)).

Definition call_void (f : W -> W) (ev : usb_call) : M W unit :=
  call (fun w => (tt, f w)) (fun _ => ev).

Definition libusb_init : M W Z := call w_init Call_init.
Definition libusb_exit : M W unit := call_void w_exit Call_exit.
Definition libusb_get_device_list : M W (option (list libusb_device)) :=
  call w_get_device_list Call_get_device_list.
Definition libusb_free_device_list (l : list libusb_device) (unref : Z)
  : M W unit :=
  call_void (w_free_device_list l unref) (Call_free_device_list l unref).
Definition libusb_get_device_descriptor (d : libusb_device)
  : M W (option libusb_device_descriptor) :=
  call (w_get_device_descriptor d) (Call_get_device_descriptor d).
Definition libusb_open (d : libusb_device) : M W Z :=
  call (w_open d) (Call_open d).
Definition libusb_close (h : libusb_device_handle) : M W unit :=
  call_void (w_close h) (Call_close h).
Definition libusb_kernel_driver_active (h : libusb_device_handle) (iface : Z)
  : M W Z :=
  call (w_kernel_driver_active h iface) (Call_kernel_driver_active h iface).
Definition libusb_detach_kernel_driver (h : libusb_device_handle) (iface : Z)
  : M W Z :=
  call (w_detach_kernel_driver h iface) (Call_detach_kernel_driver h iface).
Definition libusb_attach_kernel_driver (h : libusb_device_handle) (iface : Z)
  : M W Z :=
  call (w_attach_kernel_driver h iface) (Call_attach_kernel_driver h iface).
Definition libusb_claim_interface (h : libusb_device_handle) (iface : Z)
  : M W Z :=
  call (w_claim_interface h iface) (Call_claim_interface h iface).
Definition libusb_release_interface (h : libusb_device_handle) (iface : Z)
  : M W Z :=
  call (w_release_interface h iface) (Call_release_interface h iface).
Definition libusb_control_transfer (h : libusb_device_handle)
    (bmRequestType bRequest wValue wIndex : Z) (data : list Z)
    (wLength timeout : Z) : M W (Z * list Z) :=
  call (w_control_transfer h bmRequestType bRequest wValue wIndex data
          wLength timeout)
       (fun r => Call_control_transfer h bmRequestType bRequest wValue wIndex
                   data wLength timeout (fst r) (snd r)).
Definition libusb_error_name (e : Z) : string := w_error_name e.

End LibUSB.

(** ** Utilities *)

Section Utilities.

Context {W : Type} {U : UsbWorld W}.

(** The loop of [find_device] over the device list: the first device whose
    descriptor can be read and carries the given ids. *)
Fixpoint find_device_scan (vendor product : Z) (list : list libusb_device)
  : M W (option libusb_device) :=
  match list with
  | [] => ret None
  | device :: rest =>
      desc <- libusb_get_device_descriptor device ;;
      match desc with
      | None => find_device_scan vendor product rest
      | Some desc =>
          if (idVendor desc =? vendor) && (idProduct desc =? product)
          then ret (Some device)
          else find_device_scan vendor product rest
      end
  end.

(** Search for a device with given vendor and product ID.  [error] is the
    value [*error] has on entry (the caller passes a valid pointer); the
    second component of the result is its value on return. *)
Definition find_device (vendor product : Z) (error : Z)
  : M W (option libusb_device_handle * Z) :=
  list <- libusb_get_device_list ;;
  match list with
  | None => ret (None, error)
  | Some list =>
      found <- find_device_scan vendor product list ;;
      '(handle, err) <-
        match found with
        | Some found =>
            err <- libusb_open found ;;
            ret (if err =? 0 then Some found else None, err)
        | None => ret (None, 0)
        end ;;
      libusb_free_device_list list 1 ;;
      ret (handle, if err =? 0 then error else err)
  end.

(** The [while (n_products--)] loop of [find_device_list]; [err] is the
    local of that name. *)
Fixpoint find_device_list_loop (vendor : Z) (products : list Z) (err : Z)
  : M W (option libusb_device_handle * Z) :=
  match products with
  | [] => ret (None, err)
  | product :: products' =>
      '(handle, err) <- find_device vendor product err ;;
      match handle with
      | Some h => ret (Some h, err)
      | None =>
          if err =? 0 then find_device_list_loop vendor products' err
          else ret (None, err)
      end
  end.

(** Search for a device under various product ID's.  [error] and the
    result are as for [find_device]. *)
Definition find_device_list (vendor : Z) (products : list Z) (error : Z)
  : M W (option libusb_device_handle * Z) :=
  '(handle, err) <- find_device_list_loop vendor products 0 ;;
  match handle with
  | Some h => ret (Some h, error)
  | None => ret (None, if err =? 0 then error else err)
  end.

End Utilities.

(** ** Device configuration *)

Definition USB_VENDOR_STEELSERIES : Z := 0x1038.
Definition USB_PRODUCT_STEELSERIES_SENSEI_RAW : Z := 0x1369.
Definition USB_PRODUCT_STEELSERIES_COD_BO2 : Z := 0x136f.

Definition USB_GET_REPORT : Z := 0x01.
Definition USB_SET_REPORT : Z := 0x09.

Definition SENSEI_CTL_IFACE : Z := 0.

Definition SENSEI_CPI_MIN : Z := 0x01.
Definition SENSEI_CPI_MAX : Z := 0x3f.
Definition SENSEI_CPI_STEP : Z := 90.

(** Backlight pulsation. *)
Inductive sensei_pulsation : Type :=
| PULSATION_STEADY
| PULSATION_SLOW
| PULSATION_MEDIUM
| PULSATION_FAST.

(** Device mode. *)
Inductive sensei_mode : Type :=
| MODE_LEGACY
| MODE_NORMAL.

(** Backlight intensity. *)
Inductive sensei_intensity : Type :=
| INTENSITY_OFF
| INTENSITY_LOW
| INTENSITY_MEDIUM
| INTENSITY_HIGH.

(** Polling frequency. *)
Inductive sensei_polling : Type :=
| POLLING_1000_HZ
| POLLING_500_HZ
| POLLING_250_HZ
| POLLING_125_HZ.

(** The integer value of each enumerator: the first is given as 1, each
    following one is one more than its predecessor. *)
Definition pulsation_value (p : sensei_pulsation) : Z :=
  match p with
  | PULSATION_STEADY => 1
  | PULSATION_SLOW => 1 + 1
  | PULSATION_MEDIUM => 1 + 1 + 1
  | PULSATION_FAST => 1 + 1 + 1 + 1
  end.

Definition mode_value (m : sensei_mode) : Z :=
  match m with
  | MODE_LEGACY => 1
  | MODE_NORMAL => 1 + 1
  end.

Definition intensity_value (i : sensei_intensity) : Z :=
  match i with
  | INTENSITY_OFF => 1
  | INTENSITY_LOW => 1 + 1
  | INTENSITY_MEDIUM => 1 + 1 + 1
  | INTENSITY_HIGH => 1 + 1 + 1 + 1
  end.

Definition polling_value (p : sensei_polling) : Z :=
  match p with
  | POLLING_1000_HZ => 1
  | POLLING_500_HZ => 1 + 1
  | POLLING_250_HZ => 1 + 1 + 1
  | POLLING_125_HZ => 1 + 1 + 1 + 1
  end.

(** All enumerators of each type, in declaration order. *)
Definition all_pulsations : list sensei_pulsation :=
  [PULSATION_STEADY; PULSATION_SLOW; PULSATION_MEDIUM; PULSATION_FAST].
Definition all_modes : list sensei_mode := [MODE_LEGACY; MODE_NORMAL].
Definition all_intensities : list sensei_intensity :=
  [INTENSITY_OFF; INTENSITY_LOW; INTENSITY_MEDIUM; INTENSITY_HIGH].
Definition all_pollings : list sensei_polling :=
  [POLLING_1000_HZ; POLLING_500_HZ; POLLING_250_HZ; POLLING_125_HZ].

(** The enumerator a [switch] over the enumerated type selects for an
    integer, [None] for the [default] label. *)
Definition pulsation_of_int (v : Z) : option sensei_pulsation :=
  find (fun p => v =? pulsation_value p) all_pulsations.
Definition intensity_of_int (v : Z) : option sensei_intensity :=
  find (fun i => v =? intensity_value i) all_intensities.
Definition polling_of_int (v : Z) : option sensei_polling :=
  find (fun p => v =? polling_value p) all_pollings.

(** Overall device configuration.  A member of enumerated type holds an
    integer, which need not be the value of an enumerator. *)
Record sensei_config := mk_config {
  mode : Z;
  cpi_off : Z;
  cpi_on : Z;
  pulsation : Z;
  intensity : Z;
  polling : Z
}.

(** [unsigned char a[n] = { ... }]: the initialisers converted to
    [unsigned char], the remaining elements zero. *)
Definition uchar_array (n : nat) (init : list Z) : list Z :=
  (map uchar init ++ repeat 0 (n - List.length init)%nat)%list.

(** The line feed written [\n] in the source. *)
Definition LF : string := String (ascii_of_nat 10) EmptyString.

(** The [getopt_long] interface: an entry of the table of long options. *)
Inductive has_arg_kind : Type :=
| no_argument
| required_argument.

Record long_option := mk_long_option {
  lo_name : string;
  lo_has_arg : has_arg_kind;
  lo_val : ascii
}.

Section Device.

Context {W : Type} {U : UsbWorld W}.

(** [getopt_long (argc, argv, optstring, longopts, NULL)] called until it
    returns -1: the characters it returns one after the other, each with
    the value of [optarg] at that point, and the value of [optind] after
    the last call.  (What it prints itself before returning ['?'] is not
    part of the model; the program exits at once on ['?'].) *)
Variable getopt_long :
  list string -> string -> list long_option -> list (ascii * string) * Z.

(** From [config.h]. *)
Variable PROJECT_NAME : string.
Variable PROJECT_VERSION : string.

(** The indeterminate initial contents of the automatic variables
    [data] of [sensei_load_config] and [config] of [apply_options]. *)
Variable data_uninit : list Z.
Variable config_uninit : sensei_config.

(** Send a command to the mouse via SET_REPORT. *)
Definition sensei_send_command (device : libusb_device_handle)
    (data : list Z) (length : Z) : M W Z :=
  '(result, _) <-
    libusb_control_transfer device
      (Z.lor (Z.lor LIBUSB_ENDPOINT_OUT LIBUSB_REQUEST_TYPE_CLASS)
             LIBUSB_RECIPIENT_INTERFACE)
      USB_SET_REPORT 0x0200 0x0000 data length 0 ;;
  ret (if result <? 0 then result else 0).

(** Set the operating mode of the mouse. *)
Definition sensei_set_mode (device : libusb_device_handle) (mode : Z) : M W Z :=
  let cmd := uchar_array 32 [0x02; 0x00; mode] in
  sensei_send_command device cmd 32.

(** Set backlight intensity. *)
Definition sensei_set_intensity (device : libusb_device_handle) (intensity : Z)
  : M W Z :=
  let cmd := uchar_array 32 [0x05; 0x01; intensity] in
  sensei_send_command device cmd 32.

(** Set pulsation speed. *)
Definition sensei_set_pulsation (device : libusb_device_handle) (pulsation : Z)
  : M W Z :=
  let cmd := uchar_array 32 [0x07; 0x01; pulsation] in
  sensei_send_command device cmd 32.

(** Set sensitivity in CPI.  The assertion is compiled in. *)
Definition sensei_set_cpi (device : libusb_device_handle) (cpi : Z)
    (led_status : bool) : M W Z :=
  assert ((cpi >=? SENSEI_CPI_MIN) && (cpi <=? SENSEI_CPI_MAX)) ;;
  let cmd := uchar_array 32 [0x03; if led_status then 2 else 1; cpi] in
  sensei_send_command device cmd 32.

(** Set the polling frequency. *)
Definition sensei_set_polling (device : libusb_device_handle) (polling : Z)
  : M W Z :=
  let cmd := uchar_array 32 [0x04; 0x00; polling] in
  sensei_send_command device cmd 32.

(** Save the current configuration to ROM. *)
Definition sensei_save_to_rom (device : libusb_device_handle) : M W Z :=
  let cmd := uchar_array 32 [0x09; 0x00; 0x00] in
  sensei_send_command device cmd 32.

(** Read device configuration.  Returns the status and [*config]. *)
Definition sensei_load_config (device : libusb_device_handle)
    (config : sensei_config) : M W (Z * sensei_config) :=
  '(result, data) <-
    libusb_control_transfer device
      (Z.lor (Z.lor LIBUSB_ENDPOINT_IN LIBUSB_REQUEST_TYPE_CLASS)
             LIBUSB_RECIPIENT_INTERFACE)
      USB_GET_REPORT 0x0300 0x0000 data_uninit 256 0 ;;
  if result <? 0 then ret (result, config)
  else
    ret (0, {| mode := mode config;
               cpi_off := nth 107 data 0;
               cpi_on := nth 108 data 0;
               pulsation := nth 103 data 0;
               intensity := nth 102 data 0;
               polling := nth 128 data 0 |}).

(** ** Control utility *)

Definition sensei_display_config (config : sensei_config) : M W unit :=
  printf "Backlight intensity: " ;;
  match intensity_of_int (intensity config) with
  | Some INTENSITY_OFF => printf ("off" ++ LF)
  | Some INTENSITY_LOW => printf ("low" ++ LF)
  | Some INTENSITY_MEDIUM => printf ("medium" ++ LF)
  | Some INTENSITY_HIGH => printf ("high" ++ LF)
  | None => printf ("unknown" ++ LF)
  end ;;
  printf "Backlight pulsation: " ;;
  match pulsation_of_int (pulsation config) with
  | Some PULSATION_STEADY => printf ("steady" ++ LF)
  | Some PULSATION_SLOW => printf ("slow" ++ LF)
  | Some PULSATION_MEDIUM => printf ("medium" ++ LF)
  | Some PULSATION_FAST => printf ("fast" ++ LF)
  | None => printf ("unknown" ++ LF)
  end ;;
  printf ("Speed in CPI (LED is off): "
          ++ string_of_int (90 * cpi_off config) ++ LF) ;;
  printf ("Speed in CPI (LED is on): "
          ++ string_of_int (90 * cpi_on config) ++ LF) ;;
  printf "Polling frequency: " ;;
  match polling_of_int (polling config) with
  | Some POLLING_1000_HZ => printf ("1000Hz" ++ LF)
  | Some POLLING_500_HZ => printf ("500Hz" ++ LF)
  | Some POLLING_250_HZ => printf ("250Hz" ++ LF)
  | Some POLLING_125_HZ => printf ("125Hz" ++ LF)
  | None => printf ("unknown" ++ LF)
  end.

Record options := mk_options {
  show_config : bool;
  save_to_rom : bool;
  set_pulsation : bool;
  set_mode : bool;
  set_intensity : bool;
  set_polling : bool;
  set_cpi_off : bool;
  set_cpi_on : bool
}.

Definition show_usage (program_name : string) : M W unit :=
  printf ("Usage: " ++ program_name ++ " [OPTION]..." ++ LF) ;;
  printf ("Configure SteelSeries Sensei Raw devices." ++ LF ++ LF) ;;
  printf ("  -h, --help      Show this help" ++ LF) ;;
  printf ("  --version       Show program version and exit" ++ LF) ;;
  printf ("  --show          Show current mouse settings and exit" ++ LF) ;;
  printf ("  --mode X        Set the mode of the mouse"
          ++ " (can be either 'legacy' or 'normal')" ++ LF) ;;
  printf ("  --polling X     Set polling to X Hz (1000, 500, 250, 125)" ++ LF) ;;
  printf ("  --cpi-on X      Set CPI with the LED on to X" ++ LF) ;;
  printf ("  --cpi-off X     Set CPI with the LED off to X" ++ LF) ;;
  printf ("  --pulsation X   Set the pulsation mode"
          ++ " (steady, slow, medium, fast)" ++ LF) ;;
  printf ("  --intensity X   Set the backlight intensity"
          ++ " (off, low, medium, high)" ++ LF) ;;
  printf ("  --save          Save the current configuration to ROM" ++ LF) ;;
  printf LF.

Definition encode_cpi (str : string) : M W Z :=
  let '(cpi, end_) := strtol10 str in
  if match str with EmptyString => true | _ => false end
     || match end_ with EmptyString => false | _ => true end
     || (cpi <? 0)
  then
    eprintf ("Error: invalid CPI value" ++ LF) ;;
    exit EXIT_FAILURE
  else
    let cpi := Z.quot cpi SENSEI_CPI_STEP in
    cpi <-
      (if cpi <? 1 then
         eprintf ("Notice: CPI too low, using "
                  ++ string_of_int (SENSEI_CPI_MIN * SENSEI_CPI_STEP) ++ LF) ;;
         ret 1
       else ret cpi) ;;
    cpi <-
      (if cpi >? SENSEI_CPI_MAX then
         eprintf ("Notice: CPI too high, using "
                  ++ string_of_int (SENSEI_CPI_MAX * SENSEI_CPI_STEP) ++ LF) ;;
         ret SENSEI_CPI_MAX
       else ret cpi) ;;
    ret (int_of_long cpi).

Definition long_opts : list long_option :=
  [ mk_long_option "help" no_argument "h";
    mk_long_option "version" no_argument "V";
    mk_long_option "show" no_argument "s";
    mk_long_option "save" no_argument "S";
    mk_long_option "mode" required_argument "m";
    mk_long_option "polling" required_argument "p";
    mk_long_option "cpi-on" required_argument "c";
    mk_long_option "cpi-off" required_argument "C";
    mk_long_option "pulsation" required_argument "P";
    mk_long_option "intensity" required_argument "i" ].

Definition with_mode (c : sensei_config) (v : Z) : sensei_config :=
  mk_config v (cpi_off c) (cpi_on c) (pulsation c) (intensity c) (polling c).
Definition with_cpi_off (c : sensei_config) (v : Z) : sensei_config :=
  mk_config (mode c) v (cpi_on c) (pulsation c) (intensity c) (polling c).
Definition with_cpi_on (c : sensei_config) (v : Z) : sensei_config :=
  mk_config (mode c) (cpi_off c) v (pulsation c) (intensity c) (polling c).
Definition with_pulsation (c : sensei_config) (v : Z) : sensei_config :=
  mk_config (mode c) (cpi_off c) (cpi_on c) v (intensity c) (polling c).
Definition with_intensity (c : sensei_config) (v : Z) : sensei_config :=
  mk_config (mode c) (cpi_off c) (cpi_on c) (pulsation c) v (polling c).
Definition with_polling (c : sensei_config) (v : Z) : sensei_config :=
  mk_config (mode c) (cpi_off c) (cpi_on c) (pulsation c) (intensity c) v.

Definition with_show_config (o : options) : options :=
  mk_options true (save_to_rom o) (set_pulsation o) (set_mode o)
    (set_intensity o) (set_polling o) (set_cpi_off o) (set_cpi_on o).
Definition with_save_to_rom (o : options) : options :=
  mk_options (show_config o) true (set_pulsation o) (set_mode o)
    (set_intensity o) (set_polling o) (set_cpi_off o) (set_cpi_on o).
Definition with_set_pulsation (o : options) : options :=
  mk_options (show_config o) (save_to_rom o) true (set_mode o)
    (set_intensity o) (set_polling o) (set_cpi_off o) (set_cpi_on o).
Definition with_set_mode (o : options) : options :=
  mk_options (show_config o) (save_to_rom o) (set_pulsation o) true
    (set_intensity o) (set_polling o) (set_cpi_off o) (set_cpi_on o).
Definition with_set_intensity (o : options) : options :=
  mk_options (show_config o) (save_to_rom o) (set_pulsation o) (set_mode o)
    true (set_polling o) (set_cpi_off o) (set_cpi_on o).
Definition with_set_polling (o : options) : options :=
  mk_options (show_config o) (save_to_rom o) (set_pulsation o) (set_mode o)
    (set_intensity o) true (set_cpi_off o) (set_cpi_on o).
Definition with_set_cpi_off (o : options) : options :=
  mk_options (show_config o) (save_to_rom o) (set_pulsation o) (set_mode o)
    (set_intensity o) (set_polling o) true (set_cpi_on o).
Definition with_set_cpi_on (o : options) : options :=
  mk_options (show_config o) (save_to_rom o) (set_pulsation o) (set_mode o)
    (set_intensity o) (set_polling o) (set_cpi_off o) true.

(** The body of the [switch (c)] of [parse_options], for one result of
    [getopt_long]. *)
Definition parse_option (argv0 : string) (c : ascii) (optarg : string)
    (opts : options) (new_config : sensei_config)
  : M W (options * sensei_config) :=
  match c with
  | "h"%char => show_usage argv0 ;; exit EXIT_SUCCESS
  | "V"%char =>
      printf (PROJECT_NAME ++ " " ++ PROJECT_VERSION ++ LF) ;;
      exit EXIT_SUCCESS
  | "s"%char => ret (with_show_config opts, new_config)
  | "S"%char => ret (with_save_to_rom opts, new_config)
  | "m"%char =>
      new_config <-
        (if strcasecmp optarg "legacy" =? 0
         then ret (with_mode new_config (mode_value MODE_LEGACY))
         else if strcasecmp optarg "normal" =? 0
         then ret (with_mode new_config (mode_value MODE_NORMAL))
         else
           eprintf ("Error: invalid mode: " ++ optarg ++ LF) ;;
           exit EXIT_FAILURE) ;;
      ret (with_set_mode opts, new_config)
  | "p"%char =>
      new_config <-
        (if strcmp optarg "1000" =? 0
         then ret (with_polling new_config (polling_value POLLING_1000_HZ))
         else if strcmp optarg "500" =? 0
         then ret (with_polling new_config (polling_value POLLING_500_HZ))
         else if strcmp optarg "250" =? 0
         then ret (with_polling new_config (polling_value POLLING_250_HZ))
         else if strcmp optarg "125" =? 0
         then ret (with_polling new_config (polling_value POLLING_125_HZ))
         else
           eprintf ("Error: invalid polling frequency: " ++ optarg ++ LF) ;;
           exit EXIT_FAILURE) ;;
      ret (with_set_polling opts, new_config)
  | "c"%char =>
      cpi <- encode_cpi optarg ;;
      ret (with_set_cpi_on opts, with_cpi_on new_config cpi)
  | "C"%char =>
      cpi <- encode_cpi optarg ;;
      ret (with_set_cpi_off opts, with_cpi_off new_config cpi)
  | "P"%char =>
      new_config <-
        (if strcasecmp optarg "steady" =? 0
         then ret (with_pulsation new_config (pulsation_value PULSATION_STEADY))
         else if strcasecmp optarg "slow" =? 0
         then ret (with_pulsation new_config (pulsation_value PULSATION_SLOW))
         else if strcasecmp optarg "medium" =? 0
         then ret (with_pulsation new_config (pulsation_value PULSATION_MEDIUM))
         else if strcasecmp optarg "fast" =? 0
         then ret (with_pulsation new_config (pulsation_value PULSATION_FAST))
         else
           eprintf ("Error: invalid backlight pulsation: " ++ optarg ++ LF) ;;
           exit EXIT_FAILURE) ;;
      ret (with_set_pulsation opts, new_config)
  | "i"%char =>
      new_config <-
        (if strcasecmp optarg "off" =? 0
         then ret (with_intensity new_config (intensity_value INTENSITY_OFF))
         else if strcasecmp optarg "low" =? 0
         then ret (with_intensity new_config (intensity_value INTENSITY_LOW))
         else if strcasecmp optarg "medium" =? 0
         then ret (with_intensity new_config (intensity_value INTENSITY_MEDIUM))
         else if strcasecmp optarg "high" =? 0
         then ret (with_intensity new_config (intensity_value INTENSITY_HIGH))
         else
           eprintf ("Error: invalid backlight intensity: " ++ optarg ++ LF) ;;
           exit EXIT_FAILURE) ;;
      ret (with_set_intensity opts, new_config)
  | "?"%char => exit EXIT_FAILURE
  | _ => ret (opts, new_config)
  end.

(** The [while ((c = getopt_long (...)) != -1)] loop. *)
Fixpoint parse_loop (argv0 : string) (results : list (ascii * string))
    (opts : options) (new_config : sensei_config)
  : M W (options * sensei_config) :=
  match results with
  | [] => ret (opts, new_config)
  | (c, optarg) :: results' =>
      '(opts, new_config) <- parse_option argv0 c optarg opts new_config ;;
      parse_loop argv0 results' opts new_config
  end.

(** [opts] and [new_config] are the values of [*options] and
    [*new_config] on entry; the result is their values on return. *)
Definition parse_options (argv : list string)
    (opts : options) (new_config : sensei_config)
  : M W (options * sensei_config) :=
  let argc := Z.of_nat (List.length argv) in
  let argv0 := hd "" argv in
  (if argc =? 1 then show_usage argv0 ;; exit EXIT_FAILURE else ret tt) ;;
  let '(results, optind) := getopt_long argv "h" long_opts in
  '(opts, new_config) <- parse_loop argv0 results opts new_config ;;
  (if optind <? argc then
     eprintf ("Error: extra parameters" ++ LF) ;;
     exit EXIT_FAILURE
   else ret tt) ;;
  ret (opts, new_config).

Definition apply_options (device : libusb_device_handle)
    (opts : options) (new_config : sensei_config) : M W Z :=
  if show_config opts then
    let config := config_uninit in
    '(result, config) <- sensei_load_config device config ;;
    if negb (result =? 0) then ret result
    else
      sensei_display_config config ;;
      ret 0
  else
    result <- (if set_mode opts
               then sensei_set_mode device (mode new_config) else ret 0) ;;
    if negb (result =? 0) then ret result else
    result <- (if set_polling opts
               then sensei_set_polling device (polling new_config) else ret 0) ;;
    if negb (result =? 0) then ret result else
    result <- (if set_intensity opts
               then sensei_set_intensity device (intensity new_config)
               else ret 0) ;;
    if negb (result =? 0) then ret result else
    result <- (if set_pulsation opts
               then sensei_set_pulsation device (pulsation new_config)
               else ret 0) ;;
    if negb (result =? 0) then ret result else
    result <- (if set_cpi_off opts
               then sensei_set_cpi device (cpi_off new_config) false
               else ret 0) ;;
    if negb (result =? 0) then ret result else
    result <- (if set_cpi_on opts
               then sensei_set_cpi device (cpi_on new_config) true
               else ret 0) ;;
    if negb (result =? 0) then ret result else
    result <- (if save_to_rom opts
               then sensei_save_to_rom device else ret 0) ;;
    if negb (result =? 0) then ret result else
    ret 0.

(** [ERROR (label, ...)]: print the message, set [status] to 1, go to the
    label.  The labels of [main] are the continuations [main_error_4] to
    [main_error_0] below, which take the locals that are live there. *)
Definition ERROR {A} (message : string) (label : Z -> M W A) : M W A :=
  eprintf ("Error: " ++ message) ;;
  label 1.

Definition main_error_0 (status : Z) : M W Z := ret status.

Definition main_error_1 (status : Z) : M W Z :=
  libusb_exit ;;
  main_error_0 status.

Definition main_error_2 (device : libusb_device_handle) (status : Z) : M W Z :=
  libusb_close device ;;
  main_error_1 status.

Definition main_error_3 (device : libusb_device_handle)
    (reattach_driver : bool) (status : Z) : M W Z :=
  if reattach_driver then
    result <- libusb_attach_kernel_driver device SENSEI_CTL_IFACE ;;
    if negb (result =? 0) then
      ERROR ("couldn't reattach kernel driver: "
             ++ libusb_error_name result ++ LF)
            (main_error_2 device)
    else main_error_2 device status
  else main_error_2 device status.

Definition main_error_4 (device : libusb_device_handle)
    (reattach_driver : bool) (status : Z) : M W Z :=
  result <- libusb_release_interface device SENSEI_CTL_IFACE ;;
  if negb (result =? 0) then
    ERROR ("couldn't release interface: " ++ libusb_error_name result ++ LF)
          (main_error_3 device reattach_driver)
  else main_error_3 device reattach_driver status.

(** [main] from the call of [libusb_claim_interface] on. *)
Definition main_claim (device : libusb_device_handle) (reattach_driver : bool)
    (opts : options) (new_config : sensei_config) (status : Z) : M W Z :=
  result <- libusb_claim_interface device SENSEI_CTL_IFACE ;;
  if negb (result =? 0) then
    ERROR ("couldn't claim interface: " ++ libusb_error_name result ++ LF)
          (main_error_3 device reattach_driver)
  else
    result <- apply_options device opts new_config ;;
    if negb (result =? 0) then
      ERROR ("operation failed: " ++ libusb_error_name result ++ LF)
            (main_error_4 device reattach_driver)
    else main_error_4 device reattach_driver status.

(** [main] from the declaration of [reattach_driver] on: the device is
    open. *)
Definition main_driver (device : libusb_device_handle)
    (opts : options) (new_config : sensei_config) (status : Z) : M W Z :=
  let reattach_driver := false in
  result <- libusb_kernel_driver_active device SENSEI_CTL_IFACE ;;
  if (result =? 0) || (result =? LIBUSB_ERROR_NOT_SUPPORTED) then
    main_claim device reattach_driver opts new_config status
  else if result =? 1 then
    let reattach_driver := true in
    result <- libusb_detach_kernel_driver device SENSEI_CTL_IFACE ;;
    if negb (result =? 0) then
      ERROR ("couldn't detach kernel driver: "
             ++ libusb_error_name result ++ LF)
            (main_error_2 device)
    else main_claim device reattach_driver opts new_config status
  else
    ERROR ("coudn't detect kernel driver presence: "
           ++ libusb_error_name result ++ LF)
          (main_error_2 device).

Definition products : list Z :=
  [USB_PRODUCT_STEELSERIES_SENSEI_RAW; USB_PRODUCT_STEELSERIES_COD_BO2].

(** [main] after [parse_options]. *)
Definition main_usb (opts : options) (new_config : sensei_config) : M W Z :=
  let status := 0 in
  result <- libusb_init ;;
  if negb (result =? 0) then
    ERROR ("libusb initialisation failed: " ++ libusb_error_name result ++ LF)
          main_error_0
  else
    let result := 0 in
    '(device, result) <-
      find_device_list USB_VENDOR_STEELSERIES products result ;;
    match device with
    | None =>
        if negb (result =? 0) then
          ERROR ("couldn't open device: " ++ libusb_error_name result ++ LF)
                main_error_1
        else
          ERROR ("no suitable device found" ++ LF) main_error_1
    | Some device => main_driver device opts new_config status
    end.

Definition main (argv : list string) : M W Z :=
  let opts := mk_options false false false false false false false false in
  let new_config := mk_config 0 0 0 0 0 0 in
  '(opts, new_config) <- parse_options argv opts new_config ;;
  main_usb opts new_config.

End Device.

(** The exit status of the process: the value [main] returns or the argument
    of [exit]; none when the process is killed by [abort]. *)
Definition exit_status (o : outcome Z) : option Z :=
  match o with
  | Ret status => Some status
  | Exited status => Some status
  | Aborted => None
  end.

(** ** A world for running the program

    A bus whose answers do not change: the devices listed, their
    descriptors, and the status each operation returns.  The status of a
    host-to-device transfer may depend on the data sent.  The world itself
    is the number of library calls made so far. *)
Module Static.

Record bus := mk_bus {
  init_status : Z;
  devices : option (list libusb_device);
  descriptor : libusb_device -> option libusb_device_descriptor;
  open_status : libusb_device -> Z;
  driver_active : Z;
  detach_status : Z;
  attach_status : Z;
  claim_status : Z;
  release_status : Z;
  set_report : list Z -> Z;
  get_report : Z * list Z
}.

(** The names libusb gives its status codes. *)
Definition error_name (e : Z) : string :=
  match e with
  | 0 => "LIBUSB_SUCCESS"
  | -1 => "LIBUSB_ERROR_IO"
  | -2 => "LIBUSB_ERROR_INVALID_PARAM"
  | -3 => "LIBUSB_ERROR_ACCESS"
  | -4 => "LIBUSB_ERROR_NO_DEVICE"
  | -5 => "LIBUSB_ERROR_NOT_FOUND"
  | -6 => "LIBUSB_ERROR_BUSY"
  | -7 => "LIBUSB_ERROR_TIMEOUT"
  | -8 => "LIBUSB_ERROR_OVERFLOW"
  | -9 => "LIBUSB_ERROR_PIPE"
  | -10 => "LIBUSB_ERROR_INTERRUPTED"
  | -11 => "LIBUSB_ERROR_NO_MEM"
  | -12 => "LIBUSB_ERROR_NOT_SUPPORTED"
  | -99 => "LIBUSB_ERROR_OTHER"
  | _ => "**UNKNOWN**"
  end.

Definition control_transfer (b : bus) (bmRequestType : Z) (data : list Z)
  : Z * list Z :=
  if Z.testbit bmRequestType 7 then get_report b else (set_report b data, data).

Definition usb (b : bus) : UsbWorld nat := {|
  w_init n := (init_status b, S n);
  w_exit n := S n;
  w_get_device_list n := (devices b, S n);
  w_free_device_list _ _ n := S n;
  w_get_device_descriptor d n := (descriptor b d, S n);
  w_open d n := (open_status b d, S n);
  w_close _ n := S n;
  w_kernel_driver_active _ _ n := (driver_active b, S n);
  w_detach_kernel_driver _ _ n := (detach_status b, S n);
  w_attach_kernel_driver _ _ n := (attach_status b, S n);
  w_claim_interface _ _ n := (claim_status b, S n);
  w_release_interface _ _ n := (release_status b, S n);
  w_control_transfer _ bmRequestType _ _ _ data _ _ n :=
    (control_transfer b bmRequestType data, S n);
  w_error_name := error_name
|}.

(** The state a process starts in. *)
Definition start : state nat := mk_state O [] "" "".

End Static.

(** A [getopt_long] for running the program on the command lines the GUI
    builds: options are [--name] with a name of the table, the argument of
    an option that requires one is the next element, [-h] is the only short
    option, and scanning stops at [--] or at the first element that is not
    an option.  [optind] counts the elements consumed. *)
Module Getopt.

Definition lookup (name : string) (longopts : list long_option)
  : option long_option :=
  find (fun o => String.eqb (lo_name o) name) longopts.

Fixpoint scan (args : list string) (longopts : list long_option) (optind : Z)
  : list (ascii * string) * Z :=
  match args with
  | [] => ([], optind)
  | a :: rest =>
      if String.eqb a "--" then ([], optind + 1)
      else if String.eqb a "-h" then
        let '(rs, i) := scan rest longopts (optind + 1) in
        (("h"%char, "") :: rs, i)
      else if String.prefix "--" a then
        match lookup (substring 2 (String.length a - 2) a) longopts with
        | Some o =>
            match lo_has_arg o, rest with
            | no_argument, _ =>
                let '(rs, i) := scan rest longopts (optind + 1) in
                ((lo_val o, "") :: rs, i)
            | required_argument, optarg :: rest' =>
                let '(rs, i) := scan rest' longopts (optind + 2) in
                ((lo_val o, optarg) :: rs, i)
            | required_argument, [] => ([("?"%char, "")], optind + 1)
            end
        | None =>
            let '(rs, i) := scan rest longopts (optind + 1) in
            (("?"%char, "") :: rs, i)
        end
      else if String.prefix "-" a && negb (String.eqb a "-") then
        let '(rs, i) := scan rest longopts (optind + 1) in
        (("?"%char, "") :: rs, i)
      else ([], optind)
  end.

Definition getopt_long (argv : list string) (optstring : string)
    (longopts : list long_option) : list (ascii * string) * Z :=
  scan (tl argv) longopts 1.

End Getopt.

(** The command lines of the GUI, as the utility receives them from
    [pkexec]: the program path, then the arguments. *)
Section GUI.

(** [PROJECT_INSTALL_BINDIR "/" PROJECT_NAME], from [config.h]. *)
Variable program : string.

Definition argv_load_configuration : list string := [program; "--show"].

Definition argv_on_set_mode_normal : list string :=
  [program; "--mode"; "normal"].

Definition argv_on_set_mode_legacy : list string :=
  [program; "--mode"; "compat"].

End GUI.

(** ** Buses and requests for concrete runs *)
Module Example.

(** A status report with intensity 3, pulsation 2, CPI-off 5, CPI-on 10 and
    polling 1 at their offsets, zero elsewhere. *)
Definition report : list Z :=
  (repeat 0 102 ++ [3; 2] ++ repeat 0 3 ++ [5; 10] ++ repeat 0 19 ++ [1]
   ++ repeat 0 127)%list.

(** Device 2 is the mouse, under its second product id. *)
Definition mouse (d : libusb_device) : option libusb_device_descriptor :=
  if Nat.eqb d 2
  then Some (mk_descriptor USB_VENDOR_STEELSERIES USB_PRODUCT_STEELSERIES_COD_BO2)
  else Some (mk_descriptor 0x1d6b 0x0002).

(** Everything succeeds; a kernel driver is bound to the interface. *)
Definition healthy : Static.bus :=
  Static.mk_bus 0 (Some [1; 2; 3]%nat) mouse (fun _ => 0) 1 0 0 0 0
    (fun _ => 32) (256, report).

(** The polling command (opcode 4) fails. *)
Definition polling_fails : Static.bus :=
  Static.mk_bus 0 (Some [1; 2; 3]%nat) mouse (fun _ => 0) 1 0 0 0 0
    (fun data => if hd 0 data =? 0x04 then -1 else 32) (256, report).

(** Every write fails, and so does the release of the interface. *)
Definition write_and_release_fail : Static.bus :=
  Static.mk_bus 0 (Some [1; 2; 3]%nat) mouse (fun _ => 0) 0 0 0 0 (-4)
    (fun _ => -1) (256, report).

(** The mouse cannot be opened. *)
Definition no_access : Static.bus :=
  Static.mk_bus 0 (Some [1; 2; 3]%nat) mouse (fun _ => -3) 1 0 0 0 0
    (fun _ => 32) (256, report).

(** The driver cannot be detached. *)
Definition detach_fails : Static.bus :=
  Static.mk_bus 0 (Some [1; 2; 3]%nat) mouse (fun _ => 0) 1 (-6) 0 0 0
    (fun _ => 32) (256, report).

(** Every field and save-to-ROM. *)
Definition full_request : options :=
  mk_options false true true true true true true true.
Definition full_config : sensei_config := mk_config 2 5 20 3 4 2.

(** The command line [--mode normal]. *)
Definition argv_mode_normal : list string :=
  ["sensei-raw-ctl"; "--mode"; "normal"].

(** [--show] together with every other flag. *)
Definition show_and_all : options :=
  mk_options true true true true true true true true.

End Example.

(** ** Observations on the log of calls *)

(** The data of a host-to-device control transfer (bit 7 of
    [bmRequestType] clear); [None] for any other call. *)
Definition command_of (c : usb_call) : option (list Z) :=
  match c with
  | Call_control_transfer _ bmRequestType _ _ _ data _ _ _ _ =>
      if Z.testbit bmRequestType 7 then None else Some data
  | _ => None
  end.

(** The commands sent to the device in a log, in order. *)
Definition commands_sent (cs : list usb_call) : list (list Z) :=
  flat_map (fun c => match command_of c with Some d => [d] | None => [] end) cs.

(** The computation [c], run from [st], makes exactly one library call: the
    SET_REPORT transfer of the [wLength] bytes [data] to [device], and
    returns the status of the transfer if it is negative, 0 otherwise. *)
Definition sends {W} (c : M W Z) (st : state W)
    (device : libusb_device_handle) (data : list Z) (wLength : Z) : Prop :=
  exists r data',
    c st = (Ret (if r <? 0 then r else 0),
            mk_state (world (snd (c st)))
              (calls st ++ [Call_control_transfer device 0x21 USB_SET_REPORT
                              0x0200 0 data wLength 0 r data'])
              (stdout st) (stderr st)).

(** The status a call returned; 0 for a call without a status. *)
Definition status_of (c : usb_call) : Z :=
  match c with
  | Call_init r | Call_open _ r
  | Call_kernel_driver_active _ _ r | Call_detach_kernel_driver _ _ r
  | Call_attach_kernel_driver _ _ r | Call_claim_interface _ _ r
  | Call_release_interface _ _ r
  | Call_control_transfer _ _ _ _ _ _ _ _ r _ => r
  | _ => 0
  end.

(** ** The write order of the specification

    The commands for the requested fields in the order mode, polling,
    intensity, pulsation, CPI-off, CPI-on, then save-to-ROM. *)
Definition requested_writes (opts : options) (new_config : sensei_config)
  : list (list Z) :=
  ((if set_mode opts
    then [uchar_array 32 [0x02; 0x00; mode new_config]] else []) ++
   (if set_polling opts
    then [uchar_array 32 [0x04; 0x00; polling new_config]] else []) ++
   (if set_intensity opts
    then [uchar_array 32 [0x05; 0x01; intensity new_config]] else []) ++
   (if set_pulsation opts
    then [uchar_array 32 [0x07; 0x01; pulsation new_config]] else []) ++
   (if set_cpi_off opts
    then [uchar_array 32 [0x03; 1; cpi_off new_config]] else []) ++
   (if set_cpi_on opts
    then [uchar_array 32 [0x03; 2; cpi_on new_config]] else []) ++
   (if save_to_rom opts
    then [uchar_array 32 [0x09; 0x00; 0x00]] else []))%list.

(** [write_run device cmds done r]: the calls [done] are SET_REPORT
    transfers of the commands [cmds] to [device], one after the other in
    that order, up to and including the first whose status is negative; [r]
    is that status, or 0 when all of [cmds] were sent without one. *)
Inductive write_run (device : libusb_device_handle)
  : list (list Z) -> list usb_call -> Z -> Prop :=
| write_run_nil : write_run device [] [] 0
| write_run_fail cmd cmds r data' :
    r < 0 ->
    write_run device (cmd :: cmds)
      [Call_control_transfer device 0x21 USB_SET_REPORT 0x0200 0 cmd 32 0
         r data'] r
| write_run_ok cmd cmds r data' done res :
    0 <= r ->
    write_run device cmds done res ->
    write_run device (cmd :: cmds)
      (Call_control_transfer device 0x21 USB_SET_REPORT 0x0200 0 cmd 32 0
         r data' :: done) res.

(** Send the commands in order, stopping at the first that fails. *)
Fixpoint write_sequence {W} {U : UsbWorld W} (device : libusb_device_handle)
    (cmds : list (list Z)) : M W Z :=
  match cmds with
  | [] => ret 0
  | cmd :: cmds' =>
      result <- sensei_send_command device cmd 32 ;;
      if negb (result =? 0) then ret result else write_sequence device cmds'
  end.

(** ** The text protocol of [--show]

    One line per field: a label, a colon and a space, the value.  The value
    of an enumerated field is the word for its code, or [unknown]. *)
Definition report_line (label value : string) : string :=
  label ++ ": " ++ value ++ LF.

Definition intensity_text (v : Z) : string :=
  if v =? 1 then "off" else if v =? 2 then "low"
  else if v =? 3 then "medium" else if v =? 4 then "high" else "unknown".

Definition pulsation_text (v : Z) : string :=
  if v =? 1 then "steady" else if v =? 2 then "slow"
  else if v =? 3 then "medium" else if v =? 4 then "fast" else "unknown".

Definition polling_text (v : Z) : string :=
  if v =? 1 then "1000Hz" else if v =? 2 then "500Hz"
  else if v =? 3 then "250Hz" else if v =? 4 then "125Hz" else "unknown".

Definition report_text (config : sensei_config) : string :=
  report_line "Backlight intensity" (intensity_text (intensity config))
  ++ report_line "Backlight pulsation" (pulsation_text (pulsation config))
  ++ report_line "Speed in CPI (LED is off)"
       (string_of_int (90 * cpi_off config))
  ++ report_line "Speed in CPI (LED is on)"
       (string_of_int (90 * cpi_on config))
  ++ report_line "Polling frequency" (polling_text (polling config)).

(** The line [ERROR] prints for a failed step: nothing when the status is
    0 (or the step was not run), otherwise [Error: <what>: <name of the
    status>]. *)
Definition failure_line {W} {U : UsbWorld W} (what : string) (failed : bool)
    (status : Z) : string :=
  if failed then "Error: " ++ what ++ ": " ++ libusb_error_name status ++ LF
  else "".

Definition is_control_transfer (c : usb_call) : Prop :=
  match c with
  | Call_control_transfer _ _ _ _ _ _ _ _ _ _ => True
  | _ => False
  end.

(** A call made between the claim of the interface and the reattach of
    the driver: a control transfer or the release of the interface. *)
Definition is_session_call (c : usb_call) : Prop :=
  match c with
  | Call_control_transfer _ _ _ _ _ _ _ _ _ _ => True
  | Call_release_interface _ _ _ => True
  | _ => False
  end.

(** ** Discovery, on a bus that does not change

    [desc] gives the descriptor read from each device.  A device has the
    ids when its descriptor can be read and carries them; the target of the
    discovery is the first device of the list with the first product id
    that any listed device has. *)
Definition has_ids (desc : libusb_device -> option libusb_device_descriptor)
    (vendor product : Z) (d : libusb_device) : bool :=
  match desc d with
  | Some ds => (idVendor ds =? vendor) && (idProduct ds =? product)
  | None => false
  end.

Fixpoint discovery_target
    (desc : libusb_device -> option libusb_device_descriptor)
    (vendor : Z) (products : list Z) (devs : list libusb_device)
  : option libusb_device :=
  match products with
  | [] => None
  | product :: products' =>
      match find (has_ids desc vendor product) devs with
      | Some d => Some d
      | None => discovery_target desc vendor products' devs
      end
  end.

(** The devices the program tried to open, with the status of each
    attempt. *)
Definition opens (cs : list usb_call) : list (libusb_device * Z) :=
  flat_map (fun c => match c with Call_open d r => [(d, r)] | _ => [] end) cs.

(** ** Strings of the command line

    A C string holds no NUL character.  Two strings are equal but for the
    case of their letters when their lower-case foldings are equal. *)
Fixpoint no_nul (s : string) : bool :=
  match s with
  | EmptyString => true
  | String c r => negb (code c =? 0) && no_nul r
  end.

Fixpoint lowercase (s : string) : list Z :=
  match s with
  | EmptyString => []
  | String c r => tolower c :: lowercase r
  end.

(** The CPI steps of a request are steps of the device. *)
Definition cpi_in_range (opts : options) (new_config : sensei_config) : Prop :=
  (set_cpi_off opts = true -> 1 <= cpi_off new_config <= 63) /\
  (set_cpi_on opts = true -> 1 <= cpi_on new_config <= 63).

(** A call made by the discovery. *)
Definition is_discovery_call (c : usb_call) : Prop :=
  match c with
  | Call_get_device_list _ | Call_free_device_list _ _
  | Call_get_device_descriptor _ _ | Call_open _ _ => True
  | _ => False
  end.

(** The status an operation made of the transfers [ops] returns: that of
    the last transfer when it is negative, otherwise 0. *)
Definition failing_status (ops : list usb_call) : Z :=
  let r := status_of (last ops Call_exit) in
  if r <? 0 then r else 0.

(** A call made before the interface is claimed: initialisation, discovery,
    the query for a kernel driver and its detach. *)
Definition is_setup_call (c : usb_call) : Prop :=
  match c with
  | Call_init _ | Call_get_device_list _ | Call_free_device_list _ _
  | Call_get_device_descriptor _ _ | Call_open _ _
  | Call_kernel_driver_active _ _ _ | Call_detach_kernel_driver _ _ _ => True
  | _ => False
  end.

Definition is_claim (c : usb_call) : Prop :=
  match c with
  | Call_claim_interface _ _ _ => True
  | _ => False
  end.

(** ** Requests and commands of the protocol *)

(** A call made on the open device [d], [libusb_close] apart. *)
Definition uses_handle (d : libusb_device_handle) (c : usb_call) : Prop :=
  match c with
  | Call_kernel_driver_active h _ _ | Call_detach_kernel_driver h _ _
  | Call_attach_kernel_driver h _ _ | Call_claim_interface h _ _
  | Call_release_interface h _ _
  | Call_control_transfer h _ _ _ _ _ _ _ _ _ => h = d
  | _ => False
  end.

(** A command of the protocol: 32 bytes, of which the first is the opcode
    of a field, the second the sub-selector that goes with it, the third a
    value of the field (the value of an enumerator, or a CPI step from
    [SENSEI_CPI_MIN] to [SENSEI_CPI_MAX]), the others zero. *)
Definition well_formed_command (cmd : list Z) : bool :=
  match cmd with
  | op :: sub :: value :: padding =>
      Nat.eqb (List.length padding) 29 && forallb (Z.eqb 0) padding &&
      (((op =? 0x02) && (sub =? 0x00)
        && existsb (fun m => value =? mode_value m) all_modes)
       || ((op =? 0x03) && ((sub =? 1) || (sub =? 2))
           && (SENSEI_CPI_MIN <=? value) && (value <=? SENSEI_CPI_MAX))
       || ((op =? 0x04) && (sub =? 0x00)
           && existsb (fun p => value =? polling_value p) all_pollings)
       || ((op =? 0x05) && (sub =? 0x01)
           && existsb (fun i => value =? intensity_value i) all_intensities)
       || ((op =? 0x07) && (sub =? 0x01)
           && existsb (fun p => value =? pulsation_value p) all_pulsations)
       || ((op =? 0x09) && (sub =? 0x00) && (value =? 0x00)))
  | _ => false
  end.

(** The call sends no command, or a command of the protocol. *)
Definition sends_well_formed (c : usb_call) : Prop :=
  match command_of c with
  | Some cmd => well_formed_command cmd = true
  | None => True
  end.

(** Every field a request asks to write holds a value of the field. *)
Definition request_valid (opts : options) (new_config : sensei_config) : Prop :=
  (set_mode opts = true -> In (mode new_config) (map mode_value all_modes)) /\
  (set_polling opts = true ->
   In (polling new_config) (map polling_value all_pollings)) /\
  (set_intensity opts = true ->
   In (intensity new_config) (map intensity_value all_intensities)) /\
  (set_pulsation opts = true ->
   In (pulsation new_config) (map pulsation_value all_pulsations)) /\
  (set_cpi_off opts = true -> 1 <= cpi_off new_config <= 63) /\
  (set_cpi_on opts = true -> 1 <= cpi_on new_config <= 63).

(** The devices opened with success. *)
Definition opened (cs : list usb_call) : list libusb_device_handle :=
  map fst (filter (fun p => snd p =? 0) (opens cs)).

(** The handles closed. *)
Definition closed (cs : list usb_call) : list libusb_device_handle :=
  flat_map (fun c => match c with Call_close h => [h] | _ => [] end) cs.

(** ** The discovery as a protocol

    What the discovery is doing, as far as the log of its calls tells:
    nothing; going through the device list it obtained, [candidate] being
    the device whose descriptor it has just read and found to carry the
    vendor id and an accepted product id; or done with a device it tried to
    open, the list still to be freed. *)
Inductive discovery_phase : Type :=
| Idle
| Scanning (l : list libusb_device) (candidate : option libusb_device)
| Opened (l : list libusb_device).

(** The phase after one more call; [None] when the call is not allowed in
    the phase: a list is asked for only when none is held; a descriptor is
    read only from a device of the list held, and before any device is
    opened; a device is opened only right after its descriptor was read and
    found to match; the list freed is the list held, and its devices are
    unreferenced. *)
Definition discovery_step (vendor : Z) (products : list Z)
    (s : option discovery_phase) (c : usb_call) : option discovery_phase :=
  match s, c with
  | Some Idle, Call_get_device_list None => Some Idle
  | Some Idle, Call_get_device_list (Some l) => Some (Scanning l None)
  | Some (Scanning l _), Call_get_device_descriptor d r =>
      if existsb (Nat.eqb d) l then
        match r with
        | Some ds =>
            if (idVendor ds =? vendor)
               && existsb (Z.eqb (idProduct ds)) products
            then Some (Scanning l (Some d))
            else Some (Scanning l None)
        | None => Some (Scanning l None)
        end
      else None
  | Some (Scanning l (Some d)), Call_open d' _ =>
      if Nat.eqb d' d then Some (Opened l) else None
  | Some (Scanning l _), Call_free_device_list l' unref
  | Some (Opened l), Call_free_device_list l' unref =>
      if list_eq_dec Nat.eq_dec l' l
      then if unref =? 1 then Some Idle else None
      else None
  | _, _ => None
  end.

(** The calls follow the protocol and leave no list held. *)
Definition discovery_ok (vendor : Z) (products : list Z) (cs : list usb_call)
  : bool :=
  match fold_left (discovery_step vendor products) cs (Some Idle) with
  | Some Idle => true
  | _ => false
  end.

(** ** Texts given for a CPI value *)

(** No character of the string is a decimal digit. *)
Fixpoint no_digit (s : string) : bool :=
  match s with
  | EmptyString => true
  | String c r => negb (isdigit c) && no_digit r
  end.

(** Every character of the string is white space. *)
Fixpoint all_space (s : string) : bool :=
  match s with
  | EmptyString => true
  | String c r => isspace c && all_space r
  end.

(** What [encode_cpi] does with a text it does not accept: it prints the
    error and exits with the failure status. *)
Definition cpi_rejected {W} (st : state W) : outcome Z * state W :=
  (Exited EXIT_FAILURE,
   mk_state (world st) (calls st) (stdout st)
     (stderr st ++ ("Error: invalid CPI value" ++ LF))).

(** ** Texts of the command line *)

(** What [show_usage] prints. *)
Definition usage_text (program_name : string) : string :=
  "Usage: " ++ program_name ++ " [OPTION]..." ++ LF
  ++ "Configure SteelSeries Sensei Raw devices." ++ LF ++ LF
  ++ "  -h, --help      Show this help" ++ LF
  ++ "  --version       Show program version and exit" ++ LF
  ++ "  --show          Show current mouse settings and exit" ++ LF
  ++ "  --mode X        Set the mode of the mouse (can be either 'legacy' or 'normal')" ++ LF
  ++ "  --polling X     Set polling to X Hz (1000, 500, 250, 125)" ++ LF
  ++ "  --cpi-on X      Set CPI with the LED on to X" ++ LF
  ++ "  --cpi-off X     Set CPI with the LED off to X" ++ LF
  ++ "  --pulsation X   Set the pulsation mode (steady, slow, medium, fast)" ++ LF
  ++ "  --intensity X   Set the backlight intensity (off, low, medium, high)" ++ LF
  ++ "  --save          Save the current configuration to ROM" ++ LF
  ++ LF.

(** The state after [text] was written to the standard output, or to the
    standard error stream. *)
Definition printed {W} (st : state W) (text : string) : state W :=
  mk_state (world st) (calls st) (stdout st ++ text) (stderr st).

Definition complained {W} (st : state W) (text : string) : state W :=
  mk_state (world st) (calls st) (stdout st) (stderr st ++ text).

(** The words of the enumerated options with the values they stand for,
    in the order in which [parse_options] compares them. *)
Definition polling_words : list (string * Z) :=
  [("1000", polling_value POLLING_1000_HZ);
   ("500", polling_value POLLING_500_HZ);
   ("250", polling_value POLLING_250_HZ);
   ("125", polling_value POLLING_125_HZ)].

Definition pulsation_words : list (string * Z) :=
  [("steady", pulsation_value PULSATION_STEADY);
   ("slow", pulsation_value PULSATION_SLOW);
   ("medium", pulsation_value PULSATION_MEDIUM);
   ("fast", pulsation_value PULSATION_FAST)].

Definition intensity_words : list (string * Z) :=
  [("off", intensity_value INTENSITY_OFF);
   ("low", intensity_value INTENSITY_LOW);
   ("medium", intensity_value INTENSITY_MEDIUM);
   ("high", intensity_value INTENSITY_HIGH)].

(** ** The GUI: [sensei-raw-ctl-gui.c]

    The GUI runs the utility through [pkexec] and reads what it prints.
    GLib and GTK+ are an interface ([GtkWorld]) over an abstract world, as
    libusb is for the utility, and every call the GUI makes is recorded in
    a log.  Widgets are named as [gtk_builder_get_object] names them. *)

(** [strstr]: the text from the first occurrence of [needle] on, [None]
    for [NULL]. *)
Fixpoint strstr (haystack needle : string) : option string :=
  if String.prefix needle haystack then Some haystack
  else
    match haystack with
    | String _ rest => strstr rest needle
    | EmptyString => None
    end.

(** [g_ascii_strtoll (nptr, &end, 10)] behaves as [strtoll] in the C
    locale; [gint64] is as wide as [long]. *)
Definition g_ascii_strtoll (nptr : string) : Z * string := strtol10 nptr.

(** What [g_spawn_sync] reports: its failure with the message of the
    error, or the standard output and error of the child and its wait
    status: [Some n] when the child exited with the status [n]
    ([WIFEXITED], [WEXITSTATUS]), [None] when it ended otherwise. *)
Inductive spawn_result : Type :=
| Spawn_error (message : string)
| Spawn_done (out err : string) (status : option Z).

(** A call of GLib or GTK+ as the GUI made it.
    - [Gtk_range_set_value]: the integer the GUI passes, which the call
      converts to a double;
    - [Gtk_range_get_value]: the value of the range as
      [g_strdup_printf ("%.0f", ...)] formats it;
    - [Gtk_dialog_run]: the modal dialog of [fatal], with its secondary
      text;
    - [Gtk_adjustment_get_value], [Gtk_adjustment_set_value]: the
      adjustment is that of the range named ([gtk_range_get_adjustment]);
      a [gdouble] that is a number is a rational. *)
Inductive gtk_call : Type :=
| G_spawn_sync (argv : list string) (r : spawn_result)
| Gtk_notebook_set_current_page (page : Z)
| Gtk_combo_box_set_active (combo : string) (index : Z)
| Gtk_combo_box_get_active (combo : string) (r : Z)
| Gtk_range_set_value (scale : string) (value : Z)
| Gtk_range_get_value (scale : string) (text : string)
| Gtk_adjustment_get_value (range : string) (r : Q)
| Gtk_adjustment_set_value (range : string) (value : Q)
| Gtk_dialog_run (message : string)
| Gtk_main_quit.

(** What the libraries answer, and how a call that returns nothing
    changes the world. *)
Class GtkWorld (G : Type) := {
  w_spawn_sync : list string -> G -> spawn_result * G;
  w_combo_box_get_active : string -> G -> Z * G;
  w_range_get_value : string -> G -> string * G;
  w_adjustment_get_value : string -> G -> Q * G;
  w_gtk : gtk_call -> G -> G
}.

Record gui (G : Type) := mk_gui {
  gtk_world : G;
  gtk_calls : list gtk_call
}.
Arguments mk_gui {G}.
Arguments gtk_world {G}.
Arguments gtk_calls {G}.

(** The monad of the GUI; [Aborted] is a failed [g_assert]. *)
Definition Gui (G A : Type) : Type := gui G -> outcome A * gui G.

Definition gret {G A} (a : A) : Gui G A := fun g => (Ret a, g).

Definition gbind {G A B} (c : Gui G A) (k : A -> Gui G B) : Gui G B :=
  fun g =>
    match c g with
    | (Ret a, g') => k a g'
    | (Exited n, g') => (Exited n, g')
    | (Aborted, g') => (Aborted, g')
    end.

Definition g_assert {G} (b : bool) : Gui G unit :=
  fun g => if b then (Ret tt, g) else (Aborted, g).

Definition g_assert_not_reached {G A} : Gui G A := fun g => (Aborted, g).

Declare Scope gui_scope.
Delimit Scope gui_scope with gui.
Notation "x <- c ;; k" := (gbind c (fun x => k))
  (at level 61, c at next level, right associativity) : gui_scope.
Notation "' p <- c ;; k" := (gbind c (fun p => k))
  (at level 61, p pattern, c at next level, right associativity) : gui_scope.
Notation "c ;; k" := (gbind c (fun _ => k))
  (at level 61, right associativity) : gui_scope.

(** To translate combo box entries into sensei-raw-ctl arguments. *)
Definition pulsation_list : list string := ["steady"; "slow"; "medium"; "fast"].
Definition intensity_list : list string := ["off"; "low"; "medium"; "high"].

(** GtkNotebook pages within the UI. *)
Definition PAGE_PROBING : Z := 0.
Definition PAGE_NO_DEVICE : Z := 1.
Definition PAGE_SETTINGS : Z := 2.
Definition PAGE_COUNT : Z := 3.

(** [GtkScrollType], from [gtkenums.h]. *)
Inductive GtkScrollType : Type :=
| GTK_SCROLL_NONE
| GTK_SCROLL_JUMP
| GTK_SCROLL_STEP_BACKWARD
| GTK_SCROLL_STEP_FORWARD
| GTK_SCROLL_PAGE_BACKWARD
| GTK_SCROLL_PAGE_FORWARD
| GTK_SCROLL_STEP_UP
| GTK_SCROLL_STEP_DOWN
| GTK_SCROLL_PAGE_UP
| GTK_SCROLL_PAGE_DOWN
| GTK_SCROLL_STEP_LEFT
| GTK_SCROLL_STEP_RIGHT
| GTK_SCROLL_PAGE_LEFT
| GTK_SCROLL_PAGE_RIGHT
| GTK_SCROLL_START
| GTK_SCROLL_END.

(** sensei-raw-ctl output values. *)
Definition OUT_INTENSITY : Z := 0.
Definition OUT_PULSATION : Z := 1.
Definition OUT_CPI_LED_OFF : Z := 2.
Definition OUT_CPI_LED_ON : Z := 3.
Definition OUT_POLLING : Z := 4.
Definition OUT_COUNT : Z := 5.

Section Interface.

Local Open Scope gui_scope.

Context {G : Type} {T : GtkWorld G}.

(** [PROJECT_INSTALL_BINDIR "/" PROJECT_NAME], from [config.h]. *)
Variable program : string.

(** [g_regex_new (pattern, G_REGEX_MULTILINE, 0, NULL)], [g_regex_match]
    and the loop over [g_match_info_matches], [g_match_info_fetch (info, 0)]
    and [g_match_info_next]: the texts matched in the subject, one after
    the other. *)
Variable g_regex_match_all : string -> string -> list string.

(** The translation of a message, [_("...")]. *)
Variable gettext : string -> string.

(** A call that returns a value: ask the world, log the call. *)
Definition gtk_ask {A} (f : G -> A * G) (ev : A -> gtk_call) : Gui G A :=
  fun g =>
    let '(a, w') := f (gtk_world g) in
    (Ret a, mk_gui w' (gtk_calls g ++ [ev a])).

(** A call that returns nothing. *)
Definition gtk_do (c : gtk_call) : Gui G unit :=
  fun g => (Ret tt, mk_gui (w_gtk c (gtk_world g)) (gtk_calls g ++ [c])).

Definition g_spawn_sync (argv : list string) : Gui G spawn_result :=
  gtk_ask (w_spawn_sync argv) (G_spawn_sync argv).
Definition gtk_combo_box_get_active (combo : string) : Gui G Z :=
  gtk_ask (w_combo_box_get_active combo) (Gtk_combo_box_get_active combo).
Definition gtk_range_get_value (scale : string) : Gui G string :=
  gtk_ask (w_range_get_value scale) (Gtk_range_get_value scale).
Definition gtk_adjustment_get_value (range : string) : Gui G Q :=
  gtk_ask (w_adjustment_get_value range) (Gtk_adjustment_get_value range).

Definition fatal (message : string) : Gui G unit :=
  gtk_do (Gtk_dialog_run message) ;;
  gtk_do Gtk_main_quit.

Definition set_page (page : Z) : Gui G unit :=
  gtk_do (Gtk_notebook_set_current_page page).

(** Returns whether the utility ran and exited with the status 0, and in
    that case [*out]. *)
Definition spawn_ctl (argv : list string) : Gui G (bool * string) :=
  r <- g_spawn_sync argv ;;
  match r with
  | Spawn_error message =>
      fatal message ;;
      gret (false, "")
  | Spawn_done out err status =>
      if match status with Some n => n =? 0 | None => false end
      then gret (true, out)
      else
        (match strstr err "no suitable device" with
         | Some _ => set_page PAGE_NO_DEVICE
         | None => fatal err
         end) ;;
        gret (false, "")
  end.

(** The loop of [set_combo] from the index [i] on. *)
Fixpoint set_combo_scan (list : list string) (word : string) (i : Z)
  : option Z :=
  match list with
  | [] => None
  | entry :: rest =>
      if strcmp word entry =? 0 then Some i
      else set_combo_scan rest word (i + 1)
  end.

Definition set_combo (combo : string) (list : list string) (word : string)
  : Gui G bool :=
  match set_combo_scan list word 0 with
  | Some i =>
      gtk_do (Gtk_combo_box_set_active combo i) ;;
      gret true
  | None => gret false
  end.

Definition set_scale (scale : string) (word follows : string) : Gui G bool :=
  let '(value, end_) := g_ascii_strtoll word in
  if negb (strcmp end_ follows =? 0) then gret false
  else
    gtk_do (Gtk_range_set_value scale value) ;;
    gret true.

(** The [while (g_match_info_matches (info))] loop of
    [load_configuration] over the matches left; [line] is the local of
    that name.  Returns whether the loop ran to its end (and not to the
    label [out]) and the value of [line]. *)
Fixpoint load_configuration_loop (words : list string) (line : Z)
  : Gui G (bool * Z) :=
  match words with
  | [] => gret (true, line)
  | word :: rest =>
      let label := line in
      let line := line + 1 in
      ok <-
        (if label =? OUT_INTENSITY then
           set_combo "intensity_combo" intensity_list word
         else if label =? OUT_PULSATION then
           set_combo "pulsation_combo" pulsation_list word
         else if label =? OUT_CPI_LED_OFF then
           set_scale "cpi_off_scale" word ""
         else if label =? OUT_CPI_LED_ON then
           set_scale "cpi_on_scale" word ""
         else if label =? OUT_POLLING then
           set_scale "polling_scale" word "Hz"
         else gret true) ;;
      if ok then load_configuration_loop rest line
      else gret (false, line)
  end.

Definition load_configuration : Gui G unit :=
  let argv := ["pkexec"; program; "--show"] in
  '(spawned, out) <- spawn_ctl argv ;;
  if negb spawned then gret tt
  else
    let words := g_regex_match_all "(?<=: ).*$" out in
    '(finished, line) <- load_configuration_loop words 0 ;;
    (if finished then set_page PAGE_SETTINGS else gret tt) ;;
    if negb (line =? OUT_COUNT) then fatal (gettext "Internal error")
    else gret tt.

Definition retry_load : Gui G unit :=
  set_page PAGE_PROBING ;;
  load_configuration.

Definition save_configuration : Gui G unit :=
  polling <- gtk_range_get_value "polling_scale" ;;
  cpi_on <- gtk_range_get_value "cpi_on_scale" ;;
  cpi_off <- gtk_range_get_value "cpi_off_scale" ;;
  active <- gtk_combo_box_get_active "pulsation_combo" ;;
  g_assert ((active >=? 0)
            && (active <? Z.of_nat (List.length pulsation_list))) ;;
  let pulsation := nth (Z.to_nat active) pulsation_list "" in
  active <- gtk_combo_box_get_active "intensity_combo" ;;
  g_assert ((active >=? 0)
            && (active <? Z.of_nat (List.length intensity_list))) ;;
  let intensity := nth (Z.to_nat active) intensity_list "" in
  let argv :=
    ["pkexec"; program;
     "--polling"; polling; "--cpi-on"; cpi_on; "--cpi-off"; cpi_off;
     "--pulsation"; pulsation; "--intensity"; intensity; "--save"] in
  spawn_ctl argv ;;
  gret tt.

Definition on_set_mode_normal : Gui G unit :=
  let argv := ["pkexec"; program; "--mode"; "normal"] in
  spawn_ctl argv ;;
  gret tt.

Definition on_set_mode_legacy : Gui G unit :=
  let argv := ["pkexec"; program; "--mode"; "compat"] in
  spawn_ctl argv ;;
  gret tt.

(** [steps] of [on_change_value], and [steps[i]]. *)
Definition steps : list Z := [125; 250; 500; 1000].

Definition steps_nth (i : Z) : Z := nth (Z.to_nat i) steps 0.

(** [value < x] and [x >= value] for a [gdouble] and a [gint]. *)
Definition lt_gint (value : Q) (x : Z) : bool :=
  negb (Qle_bool (inject_Z x) value).

Definition ge_gint (x : Z) (value : Q) : bool := Qle_bool value (inject_Z x).

(** The three [for] loops of [on_change_value] from the index [i] on, with
    [n] rounds left; each returns [value] as the loop leaves it. *)
Fixpoint jump_loop (n : nat) (i : Z) (value : Q) : Q :=
  match n with
  | O => value
  | S n' =>
      if (i =? Z.of_nat (List.length steps) - 1)
         || lt_gint value ((steps_nth i + steps_nth (i + 1)) ÷ 2)
      then inject_Z (steps_nth i)
      else jump_loop n' (i + 1) value
  end.

Fixpoint backward_loop (n : nat) (i : Z) (value : Q) : Q :=
  match n with
  | O => value
  | S n' =>
      if ge_gint (steps_nth (i + 1)) value then inject_Z (steps_nth i)
      else backward_loop n' (i + 1) value
  end.

Fixpoint forward_loop (n : nat) (i : Z) (value : Q) : Q :=
  match n with
  | O => value
  | S n' =>
      if lt_gint value (steps_nth i) then inject_Z (steps_nth i)
      else forward_loop n' (i + 1) value
  end.

(** The handler of [change-value] of the polling scale; [range] is the
    scale the signal comes from. *)
Definition on_change_value (range : string) (scroll : GtkScrollType)
    (value : Q) : Gui G bool :=
  let n := List.length steps in
  value <-
    match scroll with
    | GTK_SCROLL_NONE | GTK_SCROLL_JUMP => gret (jump_loop n 0 value)
    | GTK_SCROLL_STEP_BACKWARD | GTK_SCROLL_PAGE_BACKWARD =>
        value <- gtk_adjustment_get_value range ;;
        gret (backward_loop (n - 1) 0 value)
    | GTK_SCROLL_STEP_FORWARD | GTK_SCROLL_PAGE_FORWARD =>
        value <- gtk_adjustment_get_value range ;;
        gret (forward_loop n 0 value)
    | GTK_SCROLL_START => gret (inject_Z (steps_nth 0))
    | GTK_SCROLL_END => gret (inject_Z (steps_nth (Z.of_nat n - 1)))
    | _ => g_assert_not_reached
    end ;;
  gtk_do (Gtk_adjustment_set_value range value) ;;
  gret true.

(** The main loop delivering [change-value] signals of [range] one after
    the other, each with its scroll type and the value it proposes. *)
Fixpoint change_value_signals (range : string)
    (signals : list (GtkScrollType * Q)) : Gui G unit :=
  match signals with
  | [] => gret tt
  | (scroll, value) :: rest =>
      on_change_value range scroll value ;;
      change_value_signals range rest
  end.

End Interface.

(** Whether [load_configuration] takes [word] as the value of the line
    numbered [label]: an entry of the list of the combo box, or a number
    followed by what is to follow it; lines after the fifth are not looked
    at. *)
Definition value_accepted (label : Z) (word : string) : bool :=
  if label =? OUT_INTENSITY then
    match set_combo_scan intensity_list word 0 with
    | Some _ => true
    | None => false
    end
  else if label =? OUT_PULSATION then
    match set_combo_scan pulsation_list word 0 with
    | Some _ => true
    | None => false
    end
  else if (label =? OUT_CPI_LED_OFF) || (label =? OUT_CPI_LED_ON) then
    strcmp (snd (g_ascii_strtoll word)) "" =? 0
  else if label =? OUT_POLLING then
    strcmp (snd (g_ascii_strtoll word)) "Hz" =? 0
  else true.

(** The number of the first line whose value is not taken, counting the
    first of [words] as the line [line]. *)
Fixpoint first_rejected (words : list string) (line : Z) : option Z :=
  match words with
  | [] => None
  | word :: rest =>
      if value_accepted line word then first_rejected rest (line + 1)
      else Some line
  end.

(** The call [load_configuration] makes for a value it takes. *)
Definition value_calls (label : Z) (word : string) : list gtk_call :=
  let combo name list :=
    match set_combo_scan list word 0 with
    | Some i => [Gtk_combo_box_set_active name i]
    | None => []
    end in
  let scale name follows :=
    if strcmp (snd (g_ascii_strtoll word)) follows =? 0
    then [Gtk_range_set_value name (fst (g_ascii_strtoll word))]
    else [] in
  if label =? OUT_INTENSITY then combo "intensity_combo" intensity_list
  else if label =? OUT_PULSATION then combo "pulsation_combo" pulsation_list
  else if label =? OUT_CPI_LED_OFF then scale "cpi_off_scale" ""
  else if label =? OUT_CPI_LED_ON then scale "cpi_on_scale" ""
  else if label =? OUT_POLLING then scale "polling_scale" "Hz"
  else [].

(** The calls of the loop of [load_configuration]: those for the values
    before the first that is not taken. *)
Fixpoint loop_calls (words : list string) (line : Z) : list gtk_call :=
  match words with
  | [] => []
  | word :: rest =>
      if value_accepted line word
      then (value_calls line word ++ loop_calls rest (line + 1))%list
      else []
  end.

(** The state of the GUI after the calls [cs], none of which returns a
    value. *)
Definition gtk_after {G} {T : GtkWorld G} (g : gui G) (cs : list gtk_call)
  : gui G :=
  mk_gui (fold_left (fun w c => w_gtk c w) cs (gtk_world g))
    (gtk_calls g ++ cs).

(** A call that sets a combo box or a range. *)
Definition is_setter (c : gtk_call) : Prop :=
  match c with
  | Gtk_combo_box_set_active _ _ | Gtk_range_set_value _ _ => True
  | _ => False
  end.

(** The text [--show] prints for a polling value, as a number of Hz. *)
Definition polling_hz (v : Z) : Z :=
  if v =? 1 then 1000 else if v =? 2 then 500
  else if v =? 3 then 250 else 125.

(** The values the regular expression is to find in the report of
    [--show]: what follows the label of each line. *)
Definition report_values (config : sensei_config) : list string :=
  [intensity_text (intensity config);
   pulsation_text (pulsation config);
   string_of_int (90 * cpi_off config);
   string_of_int (90 * cpi_on config);
   polling_text (polling config)].

(** What the regular expression of [load_configuration] matches in a text
    made of lines: in each line that holds a colon followed by a space,
    what follows the first of them; and, when that is not empty and ends
    with a colon and a space itself, the empty text at the end of the
    line. *)
Fixpoint after_colon_space (line : string) : option string :=
  match line with
  | String c rest =>
      match rest with
      | String c' rest' =>
          if ((c =? ":") && (c' =? " "))%char then Some rest'
          else after_colon_space rest
      | EmptyString => None
      end
  | EmptyString => None
  end.

(** The lines of a text; a line ends at a line feed or at the end. *)
Fixpoint split_lines (s : string) : list string :=
  match s with
  | EmptyString => [""]
  | String c rest =>
      if (c =? "010")%char then "" :: split_lines rest
      else
        match split_lines rest with
        | line :: lines => String c line :: lines
        | [] => [String c ""]
        end
  end.

(** The text ends with a colon and a space. *)
Fixpoint ends_colon_space (s : string) : bool :=
  match s with
  | String c rest =>
      match rest with
      | String c' EmptyString => ((c =? ":") && (c' =? " "))%char
      | _ => ends_colon_space rest
      end
  | EmptyString => false
  end.

Definition field_values (pattern subject : string) : list string :=
  flat_map (fun line => match after_colon_space line with
                        | Some v => if ends_colon_space v then [v; ""] else [v]
                        | None => []
                        end)
    (split_lines subject).

(** The GUI after it asked for the value of the adjustment of [range]. *)
Definition asked {G} {T : GtkWorld G} (range : string) (g : gui G) : gui G :=
  mk_gui (snd (w_adjustment_get_value range (gtk_world g)))
    (gtk_calls g
     ++ [Gtk_adjustment_get_value range
           (fst (w_adjustment_get_value range (gtk_world g)))]).

(** One of the four polling frequencies, as a [gdouble]. *)
Definition is_frequency (v : Q) : Prop :=
  exists s, In s steps /\ v = inject_Z s.

(** The scroll types for which [on_change_value] has a case. *)
Definition scroll_handled (scroll : GtkScrollType) : bool :=
  match scroll with
  | GTK_SCROLL_NONE | GTK_SCROLL_JUMP
  | GTK_SCROLL_STEP_BACKWARD | GTK_SCROLL_PAGE_BACKWARD
  | GTK_SCROLL_STEP_FORWARD | GTK_SCROLL_PAGE_FORWARD
  | GTK_SCROLL_START | GTK_SCROLL_END => true
  | _ => false
  end.

(** A call that sets an adjustment sets it to a polling frequency. *)
Definition sets_frequency (c : gtk_call) : Prop :=
  match c with
  | Gtk_adjustment_set_value _ v => is_frequency v
  | _ => True
  end.

(** The CPI step [encode_cpi] makes of a CPI that is not negative. *)
Definition cpi_step (c : Z) : Z := Z.max 1 (Z.min 63 (c / 90)).

(** A GTK+ whose answers do not change: the child always ends the same
    way, and each widget always holds the same value.  The world itself is
    the number of calls made so far. *)
Module StaticGtk.

Record desk := mk_desk {
  child : list string -> spawn_result;
  combo_active : string -> Z;
  range_text : string -> string;
  adjustment_value : string -> Q
}.

Definition gtk (d : desk) : GtkWorld nat := {|
  w_spawn_sync argv n := (child d argv, S n);
  w_combo_box_get_active combo n := (combo_active d combo, S n);
  w_range_get_value scale n := (range_text d scale, S n);
  w_adjustment_get_value range n := (adjustment_value d range, S n);
  w_gtk _ n := S n
|}.

Definition start : gui nat := mk_gui O [].

End StaticGtk.

(** A GTK+ with one adjustment, which holds the value last set.  The
    world itself is that value. *)
Module LiveGtk.

Definition gtk (d : StaticGtk.desk) : GtkWorld Q := {|
  w_spawn_sync argv v := (StaticGtk.child d argv, v);
  w_combo_box_get_active combo v := (StaticGtk.combo_active d combo, v);
  w_range_get_value scale v := (StaticGtk.range_text d scale, v);
  w_adjustment_get_value _ v := (v, v);
  w_gtk c v :=
    match c with
    | Gtk_adjustment_set_value _ x => x
    | _ => v
    end
|}.

Definition start (v : Q) : gui Q := mk_gui v [].

End LiveGtk.

(** ** More buses and desks for concrete runs *)
Module Scenario.


(** No device is connected. *)
Definition empty : Static.bus :=
  Static.mk_bus 0 (Some []) Example.mouse (fun _ => 0) 0 0 0 0 0
    (fun _ => 32) (256, Example.report).

(** The interface is busy: it cannot be claimed. *)
Definition busy : Static.bus :=
  Static.mk_bus 0 (Some [1; 2; 3]%nat) Example.mouse (fun _ => 0) 1 0 0 (-6) 0
    (fun _ => 32) (256, Example.report).

(** The status report cannot be read. *)
Definition unreadable : Static.bus :=
  Static.mk_bus 0 (Some [1; 2; 3]%nat) Example.mouse (fun _ => 0) 1 0 0 0 0
    (fun _ => 32) (-1, []).

(** The option [--show]. *)
Definition show_request : options :=
  mk_options true false false false false false false false.

(** Signals of the polling scale: a jump to 187.25, a step forward, a page
    backward, a jump to the end, a step forward, a jump to the start and a
    step backward. *)
Definition scrolling : list (GtkScrollType * Q) :=
  [(GTK_SCROLL_JUMP, 749 # 4); (GTK_SCROLL_STEP_FORWARD, 0%Q);
   (GTK_SCROLL_PAGE_BACKWARD, 0%Q); (GTK_SCROLL_END, 0%Q);
   (GTK_SCROLL_STEP_FORWARD, 0%Q); (GTK_SCROLL_START, 0%Q);
   (GTK_SCROLL_STEP_BACKWARD, 0%Q)].

(** A configuration whose polling value is none of the four. *)
Definition odd_polling : sensei_config := mk_config 0 5 20 3 4 0.

(** The utility prints [text] and exits with the status 0. *)
Definition printing (text : string) : StaticGtk.desk :=
  StaticGtk.mk_desk (fun _ => Spawn_done text "" (Some 0))
    (fun _ => 0) (fun _ => "0") (fun _ => 0%Q).

(** The utility finds no mouse. *)
Definition no_mouse : StaticGtk.desk :=
  StaticGtk.mk_desk
    (fun _ => Spawn_done "" ("Error: no suitable device found" ++ LF) (Some 1))
    (fun _ => 0) (fun _ => "0") (fun _ => 0%Q).

(** The utility refuses the mode it is asked for. *)
Definition invalid_mode : StaticGtk.desk :=
  StaticGtk.mk_desk
    (fun _ => Spawn_done "" ("Error: invalid mode: compat" ++ LF) (Some 1))
    (fun _ => 0) (fun _ => "0") (fun _ => 0%Q).

(** The settings page holds 500 Hz, 1800 and 450 CPI, the third pulsation
    and the second intensity. *)
Definition settings : StaticGtk.desk :=
  StaticGtk.mk_desk (fun _ => Spawn_done "" "" (Some 0))
    (fun combo => if String.eqb combo "pulsation_combo" then 2 else 1)
    (fun scale =>
       if String.eqb scale "polling_scale" then "500"
       else if String.eqb scale "cpi_on_scale" then "1800" else "450")
    (fun _ => 500%Q).

End Scenario.

(** * Properties *)

(** ** The C library model *)

Lemma code_range c : 0 <= code c < 256.
Proof.
  unfold code. pose proof (N_ascii_bounded c). lia.
Qed.

Lemma code_digit_char d : 0 <= d < 10 -> code (digit_char d) = 48 + d.
Proof.
  intros H. unfold code, digit_char.
  rewrite N_ascii_embedding by lia. lia.
Qed.

Lemma isdigit_digit_char d : 0 <= d < 10 -> isdigit (digit_char d) = true.
Proof.
  intros H. unfold isdigit. rewrite code_digit_char by assumption.
  apply andb_true_intro; split; apply Z.leb_le; lia.
Qed.

Lemma isdigit_not_space c : isdigit c = true -> isspace c = false.
Proof.
  unfold isdigit, isspace. intros H.
  apply andb_prop in H as [H1 H2]. apply Z.leb_le in H1, H2.
  apply orb_false_intro.
  - apply Z.eqb_neq. lia.
  - apply andb_false_intro2. apply Z.leb_gt. lia.
Qed.

Lemma isdigit_not_sign c s :
  isdigit c = true -> code s < 48 -> (c =? s)%char = false.
Proof.
  unfold isdigit. intros H Hs.
  apply andb_prop in H as [H1 _]. apply Z.leb_le in H1.
  apply Ascii.eqb_neq. intros ->. lia.
Qed.

(** Scanning the digits printed for [n], then [acc], continues on [acc]
    with the value [n]. *)
Lemma scan_digits_fuel fuel : forall n acc,
  0 <= n < 2 ^ Z.of_nat fuel -> (1 <= fuel)%nat ->
  scan_digits (digits_fuel fuel n acc) 0 = scan_digits acc n.
Proof.
  induction fuel as [|fuel IH]; intros n acc Hn Hf; [lia|].
  cbn [digits_fuel].
  assert (Hd : 0 <= n mod 10 < 10) by (apply Z.mod_pos_bound; lia).
  destruct (n <? 10) eqn:E.
  - apply Z.ltb_lt in E. cbn [scan_digits].
    rewrite isdigit_digit_char, code_digit_char by assumption.
    rewrite Z.mod_small by lia. f_equal. lia.
  - apply Z.ltb_ge in E.
    assert (Hq : 1 <= n / 10) by (apply Z.div_le_lower_bound; lia).
    assert (Hlt : n / 10 < 2 ^ Z.of_nat fuel).
    { apply Z.div_lt_upper_bound; [lia|].
      rewrite Nat2Z.inj_succ, Z.pow_succ_r in Hn by lia. lia. }
    assert (Hfuel : (1 <= fuel)%nat).
    { destruct fuel; [cbn in Hlt; lia | lia]. }
    rewrite IH by (try assumption; lia).
    cbn [scan_digits].
    rewrite isdigit_digit_char, code_digit_char by assumption.
    f_equal. pose proof (Z.div_mod n 10). lia.
Qed.

Lemma digits_fuel_head fuel : forall n acc,
  0 <= n -> (1 <= fuel)%nat ->
  exists c s, digits_fuel fuel n acc = String c s /\ isdigit c = true.
Proof.
  induction fuel as [|fuel IH]; intros n acc Hn Hf; [lia|].
  cbn [digits_fuel].
  assert (Hd : 0 <= n mod 10 < 10) by (apply Z.mod_pos_bound; lia).
  destruct (n <? 10) eqn:E.
  - eexists _, _. split; [reflexivity|]. now apply isdigit_digit_char.
  - destruct fuel as [|fuel'].
    + cbn. eexists _, _. split; [reflexivity|]. now apply isdigit_digit_char.
    + apply IH; [|lia]. apply Z.div_pos; lia.
Qed.

Lemma digits_fuel_bound n : 0 <= n -> n < 2 ^ Z.of_nat (S (Z.to_nat (Z.log2 n))).
Proof.
  intros Hn. rewrite Nat2Z.inj_succ, Z2Nat.id by apply Z.log2_nonneg.
  destruct (Z.eq_dec n 0) as [->|Hne]; [reflexivity|].
  apply Z.log2_spec. lia.
Qed.

(** [strtol] reads back what [%d] prints for a number that is not negative,
    up to [LONG_MAX]. *)
Lemma strtol10_digits n :
  0 <= n -> strtol10 (digits n) = (Z.min n LONG_MAX, "").
Proof.
  intros Hn. unfold strtol10, digits.
  destruct (digits_fuel_head (S (Z.to_nat (Z.log2 n))) n "" Hn) as (c & s & E & Hc);
    [lia|].
  pose proof (scan_digits_fuel _ n "" (conj Hn (digits_fuel_bound n Hn))) as Hs.
  rewrite E in *. cbn [skip_space].
  rewrite (isdigit_not_space c Hc).
  rewrite !(isdigit_not_sign c) by (assumption || (vm_compute; reflexivity)).
  rewrite Hc, Hs by lia. cbn [scan_digits].
  f_equal. unfold saturate.
  assert (LONG_MIN < 0) by reflexivity.
  destruct (n >? LONG_MAX) eqn:E1.
  - apply Z.gtb_lt in E1. lia.
  - rewrite Z.gtb_ltb in E1. apply Z.ltb_ge in E1.
    destruct (n <? LONG_MIN) eqn:E2; [apply Z.ltb_lt in E2|]; lia.
Qed.

Lemma digits_nonempty n : 0 <= n -> exists c s, digits n = String c s.
Proof.
  intros Hn.
  destruct (digits_fuel_head (S (Z.to_nat (Z.log2 n))) n "" Hn) as (c & s & E & _);
    [lia|].
  now exists c, s.
Qed.

Lemma int_of_long_small x : - 2 ^ 31 <= x < 2 ^ 31 -> int_of_long x = x.
Proof.
  intros H. unfold int_of_long. rewrite Z.mod_small; lia.
Qed.

(** ** CPI quantization *)

(** What [encode_cpi] does on the decimal text of a number that is not
    negative, in terms of the quotient [q] the division yields. *)
Lemma encode_cpi_digits {W} (st : state W) (c : Z) :
  0 <= c ->
  let q := Z.min c LONG_MAX / 90 in
  encode_cpi (string_of_int c) st =
    if q <? 1 then
      (Ret 1, mk_state (world st) (calls st) (stdout st)
                (stderr st ++ ("Notice: CPI too low, using 90" ++ LF)))
    else if q >? 63 then
      (Ret 63, mk_state (world st) (calls st) (stdout st)
                 (stderr st ++ ("Notice: CPI too high, using 5670" ++ LF)))
    else (Ret q, st).
Proof.
  intros Hc q. unfold encode_cpi, string_of_int.
  replace (c <? 0) with false by (symmetry; apply Z.ltb_ge; lia).
  rewrite strtol10_digits by assumption.
  destruct (digits_nonempty c Hc) as (a & s & ->).
  assert (HM : 0 < LONG_MAX) by reflexivity.
  replace (Z.min c LONG_MAX <? 0) with false by (symmetry; apply Z.ltb_ge; lia).
  cbn [orb]. unfold SENSEI_CPI_STEP.
  rewrite Z.quot_div_nonneg by lia. fold q.
  destruct (q <? 1) eqn:E1.
  - reflexivity.
  - apply Z.ltb_ge in E1. unfold bind at 1, ret at 1.
    unfold SENSEI_CPI_MAX. destruct (q >? 63) eqn:E2.
    + reflexivity.
    + rewrite Z.gtb_ltb in E2. apply Z.ltb_ge in E2.
      unfold bind, ret. rewrite int_of_long_small; [reflexivity|lia].
Qed.

(** What [encode_cpi] does on the decimal text of a negative number: the
    guard [cpi < 0] refuses it. *)
Lemma encode_cpi_below_zero {W} (st : state W) (c : Z) :
  c < 0 ->
  encode_cpi (string_of_int c) st =
    (Exited EXIT_FAILURE,
     mk_state (world st) (calls st) (stdout st)
       (stderr st ++ ("Error: invalid CPI value" ++ LF))).
Proof.
  intros Hc. unfold string_of_int.
  replace (c <? 0) with true by (symmetry; apply Z.ltb_lt; lia).
  assert (Hpos : 0 <= - c) by lia.
  unfold encode_cpi, strtol10. cbn [skip_space].
  change (isspace "-") with false. cbv iota.
  change ("-" =? "-")%char with true. cbv iota.
  pose proof (strtol10_digits (- c) Hpos) as Hd.
  unfold strtol10 in Hd.
  destruct (digits_fuel_head (S (Z.to_nat (Z.log2 (- c)))) (- c) "" Hpos)
    as (a & s & E & Ha); [lia|].
  fold (digits (- c)) in E. rewrite E in *. rewrite Ha.
  cbn [skip_space] in Hd. rewrite (isdigit_not_space a Ha) in Hd.
  rewrite !(isdigit_not_sign a) in Hd
    by (assumption || (vm_compute; reflexivity)).
  rewrite Ha in Hd.
  destruct (scan_digits (String a s) 0) as [v rest].
  injection Hd as Hv ->.
  assert (HM : 0 < LONG_MAX) by reflexivity.
  assert (HN : LONG_MIN < 0) by reflexivity.
  assert (Hneg : saturate (- v) < 0).
  { assert (Hrange : 0 < v).
    { unfold saturate in Hv.
      destruct (v >? LONG_MAX) eqn:E1.
      - apply Z.gtb_lt in E1. lia.
      - destruct (v <? LONG_MIN) eqn:E3; [apply Z.ltb_lt in E3|]; lia. }
    unfold saturate.
    replace (- v >? LONG_MAX) with false
      by (symmetry; rewrite Z.gtb_ltb; apply Z.ltb_ge; lia).
    destruct (- v <? LONG_MIN); lia. }
  replace (saturate (- v) <? 0) with true by (symmetry; apply Z.ltb_lt; lia).
  reflexivity.
Qed.

(** C3: for every real CPI [c] that is not negative, given in decimal,
    [encode_cpi] returns [c / 90] clamped to the steps 1 to 63, with a
    notice on the standard error stream, and nothing else, exactly when it
    had to raise or lower the quotient.  A negative [c] is not raised to
    the step 1: [encode_cpi] prints [Error: invalid CPI value] and exits
    with the failure status, without a notice and without a step.  And for
    every step [s] from 1 to 63 the real CPI of that step, [90 * s], is
    encoded as [s] again without a notice, [s] also being the byte the CPI
    command carries. *)
Theorem encode_cpi_clamps {W} (st : state W) (c s : Z) :
  1 <= s <= 63 ->
  (0 <= c ->
   let '(r, st') := encode_cpi (string_of_int c) st in
   r = Ret (Z.max 1 (Z.min 63 (c / 90))) /\
   world st' = world st /\ calls st' = calls st /\ stdout st' = stdout st /\
   stderr st' =
     if c / 90 <? 1
     then stderr st ++ ("Notice: CPI too low, using 90" ++ LF)
     else if c / 90 >? 63
     then stderr st ++ ("Notice: CPI too high, using 5670" ++ LF)
     else stderr st) /\
  (c < 0 ->
   encode_cpi (string_of_int c) st =
     (Exited EXIT_FAILURE,
      mk_state (world st) (calls st) (stdout st)
        (stderr st ++ ("Error: invalid CPI value" ++ LF)))) /\
  encode_cpi (string_of_int (SENSEI_CPI_STEP * s)) st = (Ret s, st) /\
  nth 2 (uchar_array 32 [0x03; 1; s]) 0 = s /\
  nth 2 (uchar_array 32 [0x03; 2; s]) 0 = s.
Proof.
  intros Hs.
  assert (HM : LONG_MAX = 9223372036854775807) by reflexivity.
  split; [|split; [exact (encode_cpi_below_zero st c)|split; [|split]]].
  - intros Hc. rewrite encode_cpi_digits by assumption. cbv zeta.
    set (q := Z.min c LONG_MAX / 90).
    assert (Hq : c <= LONG_MAX /\ q = c / 90 \/
                 LONG_MAX < c /\ 63 < q /\ 63 < c / 90).
    { destruct (Z_le_gt_dec c LONG_MAX) as [Hle|Hgt].
      - left. split; [assumption|]. unfold q. now rewrite Z.min_l.
      - right. split; [lia|]. unfold q. rewrite Z.min_r by lia.
        split; [rewrite HM; reflexivity|].
        apply Z.lt_le_trans with (LONG_MAX / 90); [rewrite HM; reflexivity|].
        apply Z.div_le_mono; lia. }
    destruct Hq as [[_ ->] | (_ & Hq1 & Hq2)].
    + destruct (c / 90 <? 1) eqn:E1.
      * apply Z.ltb_lt in E1. cbn. repeat split. f_equal. lia.
      * apply Z.ltb_ge in E1. destruct (c / 90 >? 63) eqn:E2.
        -- rewrite Z.gtb_ltb in E2. apply Z.ltb_lt in E2.
           cbn. repeat split. f_equal. lia.
        -- rewrite Z.gtb_ltb in E2. apply Z.ltb_ge in E2.
           repeat split. f_equal. lia.
    + replace (q <? 1) with false by (symmetry; apply Z.ltb_ge; lia).
      replace (c / 90 <? 1) with false by (symmetry; apply Z.ltb_ge; lia).
      replace (q >? 63) with true by (symmetry; apply Z.gtb_lt; lia).
      replace (c / 90 >? 63) with true by (symmetry; apply Z.gtb_lt; lia).
      cbn. repeat split. f_equal. lia.
  - unfold SENSEI_CPI_STEP. rewrite encode_cpi_digits by lia. cbv zeta.
    rewrite Z.min_l by lia.
    replace (90 * s / 90) with s by (rewrite Z.mul_comm, Z.div_mul; lia).
    replace (s <? 1) with false by (symmetry; apply Z.ltb_ge; lia).
    replace (s >? 63) with false
      by (symmetry; rewrite Z.gtb_ltb; apply Z.ltb_ge; lia).
    reflexivity.
  - cbn. unfold uchar. apply Z.mod_small. lia.
  - cbn. unfold uchar. apply Z.mod_small. lia.
Qed.

(** ** Command encoding *)

Section Commands.

Context {W : Type} {U : UsbWorld W}.

Lemma sensei_send_command_eq (device : libusb_device_handle) (data : list Z)
    (len : Z) (st : state W) :
  sensei_send_command device data len st =
    let '((r, data'), w') :=
      w_control_transfer device 0x21 USB_SET_REPORT 0x0200 0 data len 0
        (world st) in
    (Ret (if r <? 0 then r else 0),
     mk_state w'
       (calls st ++ [Call_control_transfer device 0x21 USB_SET_REPORT 0x0200 0
                       data len 0 r data'])
       (stdout st) (stderr st)).
Proof.
  unfold sensei_send_command, libusb_control_transfer, call, bind, ret.
  change (Z.lor (Z.lor LIBUSB_ENDPOINT_OUT LIBUSB_REQUEST_TYPE_CLASS)
            LIBUSB_RECIPIENT_INTERFACE) with 0x21.
  destruct (w_control_transfer device 0x21 USB_SET_REPORT 0x0200 0 data len 0
              (world st)) as [[r data'] w'].
  reflexivity.
Qed.

Lemma sensei_send_command_sends device data len st :
  sends (sensei_send_command device data len) st device data len.
Proof.
  unfold sends. rewrite sensei_send_command_eq.
  destruct (w_control_transfer _ _ _ _ _ _ _ _ _) as [[r data'] w'].
  exists r, data'. reflexivity.
Qed.

(** With a step of the device, the assertion of [sensei_set_cpi] holds. *)
Lemma sensei_set_cpi_send device cpi led :
  1 <= cpi <= 63 ->
  sensei_set_cpi device cpi led =
    sensei_send_command device
      (uchar_array 32 [0x03; if led then 2 else 1; cpi]) 32.
Proof.
  intros H. unfold sensei_set_cpi, SENSEI_CPI_MIN, SENSEI_CPI_MAX.
  replace (cpi >=? 1) with true by (symmetry; rewrite Z.geb_leb; apply Z.leb_le; lia).
  replace (cpi <=? 63) with true by (symmetry; apply Z.leb_le; lia).
  reflexivity.
Qed.

(** C1: each write command is one SET_REPORT transfer of 32 bytes: the
    opcode of the field (six different ones), the sub-selector (1 and 2 for
    the CPI with the LED off and on, a constant 0 or 1 otherwise), the wire
    value of the field, then 29 zero bytes.  The wire values of each
    enumerated type are 1, 2, ... in declaration order without a gap, every
    enumerator is listed, and none has the value 0. *)
Theorem write_command_layout (st : state W) (device : libusb_device_handle)
    (m : sensei_mode) (i : sensei_intensity) (p : sensei_pulsation)
    (f : sensei_polling) (cpi : Z) (led_status : bool) :
  1 <= cpi <= 63 ->
  let zeros := repeat 0 29 in
  (sends (sensei_set_mode device (mode_value m)) st device
     ([0x02; 0x00; mode_value m] ++ zeros) 32 /\
   sends (sensei_set_intensity device (intensity_value i)) st device
     ([0x05; 0x01; intensity_value i] ++ zeros) 32 /\
   sends (sensei_set_pulsation device (pulsation_value p)) st device
     ([0x07; 0x01; pulsation_value p] ++ zeros) 32 /\
   sends (sensei_set_cpi device cpi led_status) st device
     ([0x03; if led_status then 2 else 1; cpi] ++ zeros) 32 /\
   sends (sensei_set_polling device (polling_value f)) st device
     ([0x04; 0x00; polling_value f] ++ zeros) 32 /\
   sends (sensei_save_to_rom device) st device
     ([0x09; 0x00; 0x00] ++ zeros) 32) /\
  NoDup [0x02; 0x05; 0x07; 0x03; 0x04; 0x09] /\
  (map mode_value all_modes = [1; 2] /\
   map intensity_value all_intensities = [1; 2; 3; 4] /\
   map pulsation_value all_pulsations = [1; 2; 3; 4] /\
   map polling_value all_pollings = [1; 2; 3; 4]) /\
  (In m all_modes /\ In i all_intensities /\
   In p all_pulsations /\ In f all_pollings) /\
  (mode_value m <> 0 /\ intensity_value i <> 0 /\
   pulsation_value p <> 0 /\ polling_value f <> 0).
Proof.
  intros Hcpi zeros. repeat split.
  - destruct m; apply sensei_send_command_sends.
  - destruct i; apply sensei_send_command_sends.
  - destruct p; apply sensei_send_command_sends.
  - rewrite sensei_set_cpi_send by assumption.
    replace (uchar_array 32 [0x03; if led_status then 2 else 1; cpi])
      with ([0x03; if led_status then 2 else 1; cpi] ++ zeros)%list.
    + apply sensei_send_command_sends.
    + unfold uchar_array. cbn [map List.length Nat.sub].
      replace (uchar cpi) with cpi
        by (unfold uchar; rewrite Z.mod_small; lia).
      destruct led_status; reflexivity.
  - destruct f; apply sensei_send_command_sends.
  - apply sensei_send_command_sends.
  - repeat constructor; cbn; intuition discriminate.
  - destruct m; cbn; tauto.
  - destruct i; cbn; tauto.
  - destruct p; cbn; tauto.
  - destruct f; cbn; tauto.
  - destruct m; discriminate.
  - destruct i; discriminate.
  - destruct p; discriminate.
  - destruct f; discriminate.
Qed.

End Commands.

(** ** Write ordering *)

Section WriteOrder.

Context {W : Type} {U : UsbWorld W}.
Variable data_uninit : list Z.
Variable config_uninit : sensei_config.

Lemma write_sequence_cons device cmd cmds (st : state W) :
  write_sequence device (cmd :: cmds) st =
    let '((r, data'), w') :=
      w_control_transfer device 0x21 USB_SET_REPORT 0x0200 0 cmd 32 0
        (world st) in
    let st' :=
      mk_state w'
        (calls st ++ [Call_control_transfer device 0x21 USB_SET_REPORT 0x0200
                        0 cmd 32 0 r data'])
        (stdout st) (stderr st) in
    if r <? 0 then (Ret r, st') else write_sequence device cmds st'.
Proof.
  cbn [write_sequence]. unfold bind at 1. rewrite sensei_send_command_eq.
  destruct (w_control_transfer _ _ _ _ _ _ _ _ _) as [[r data'] w'].
  destruct (r <? 0) eqn:E; [|reflexivity].
  apply Z.ltb_lt in E.
  replace (negb (r =? 0)) with true
    by (symmetry; apply negb_true_iff, Z.eqb_neq; lia).
  reflexivity.
Qed.

Lemma write_sequence_run device cmds : forall st : state W,
  let run := write_sequence device cmds st in
  exists r done,
    fst run = Ret r /\
    calls (snd run) = (calls st ++ done)%list /\
    stdout (snd run) = stdout st /\ stderr (snd run) = stderr st /\
    write_run device cmds done r.
Proof.
  induction cmds as [|cmd cmds IH]; intros st run; subst run.
  - exists 0, []. cbn. rewrite app_nil_r. repeat split. constructor.
  - rewrite write_sequence_cons.
    destruct (w_control_transfer _ _ _ _ _ _ _ _ _) as [[r data'] w'].
    cbv zeta. destruct (r <? 0) eqn:E.
    + apply Z.ltb_lt in E.
      exists r. eexists. cbn. repeat split. now constructor.
    + apply Z.ltb_ge in E.
      match goal with |- context [write_sequence device cmds ?s] =>
        destruct (IH s) as (res & done & Hret & Hcalls & Hout & Herr & Hrun) end.
      exists res. eexists. rewrite Hret, Hcalls, Hout, Herr.
      cbn [calls stdout stderr]. rewrite <- app_assoc.
      repeat split. now constructor.
Qed.

(** Without [--show], [apply_options] sends the requested writes in the
    order of the specification, stopping at the first failure. *)
Lemma apply_options_write_sequence device opts new_config :
  show_config opts = false ->
  (set_cpi_off opts = true -> 1 <= cpi_off new_config <= 63) ->
  (set_cpi_on opts = true -> 1 <= cpi_on new_config <= 63) ->
  apply_options data_uninit config_uninit device opts new_config =
    write_sequence device (requested_writes opts new_config).
Proof.
  intros Hshow Hoff Hon. unfold apply_options, requested_writes.
  rewrite Hshow.
  destruct (set_cpi_off opts);
    [rewrite (sensei_set_cpi_send device (cpi_off new_config) false)
       by (apply Hoff; reflexivity)|];
  (destruct (set_cpi_on opts);
    [rewrite (sensei_set_cpi_send device (cpi_on new_config) true)
       by (apply Hon; reflexivity)|]);
  destruct (set_mode opts), (set_polling opts), (set_intensity opts),
    (set_pulsation opts), (save_to_rom opts); reflexivity.
Qed.

Lemma write_run_prefix device cmds done r :
  write_run device cmds done r ->
  (exists unsent, cmds = (commands_sent done ++ unsent)%list) /\
  (r = 0 -> commands_sent done = cmds) /\
  (r <> 0 -> r < 0 /\ exists before last,
      done = (before ++ [last])%list /\ status_of last = r /\
      Forall (fun c => 0 <= status_of c) before) /\
  (r = 0 -> Forall (fun c => 0 <= status_of c) done).
Proof.
  induction 1 as [|cmd cmds r data' Hr|cmd cmds r data' done res Hr Hrun IH].
  - split; [|split; [|split]]; intros; try lia.
    + exists []. reflexivity.
    + reflexivity.
    + constructor.
  - split; [|split; [|split]]; intros; try lia.
    + exists cmds. reflexivity.
    + split; [assumption|].
      exists [], (Call_control_transfer device 33 USB_SET_REPORT 512 0 cmd 32 0
                    r data').
      split; [reflexivity|]. split; [reflexivity|constructor].
  - destruct IH as ((unsent & Hu) & Hall & Hfail & Hok).
    split; [|split; [|split]].
    + exists unsent. cbn. f_equal. exact Hu.
    + intros Hz. cbn. f_equal. exact (Hall Hz).
    + intros Hz. destruct (Hfail Hz) as (Hneg & before & last & -> & Hl & Hb).
      split; [assumption|].
      exists (Call_control_transfer device 33 USB_SET_REPORT 512 0 cmd 32 0
                r data' :: before), last.
      split; [reflexivity|]. split; [assumption|].
      constructor; assumption.
    + intros Hz. constructor; [assumption | now apply Hok].
Qed.

(** The run of [apply_options] without [--show], against [write_run]. *)
Lemma apply_options_writes (st : state W)
    (device : libusb_device_handle) (opts : options)
    (new_config : sensei_config) :
  show_config opts = false ->
  (set_cpi_off opts = true -> 1 <= cpi_off new_config <= 63) ->
  (set_cpi_on opts = true -> 1 <= cpi_on new_config <= 63) ->
  let run := apply_options data_uninit config_uninit device opts new_config st in
  exists r done,
    fst run = Ret r /\
    calls (snd run) = (calls st ++ done)%list /\
    stdout (snd run) = stdout st /\ stderr (snd run) = stderr st /\
    write_run device (requested_writes opts new_config) done r /\
    (exists unsent,
       requested_writes opts new_config = (commands_sent done ++ unsent)%list) /\
    (r = 0 ->
     commands_sent done = requested_writes opts new_config /\
     Forall (fun c => 0 <= status_of c) done) /\
    (r <> 0 ->
     r < 0 /\
     exists before last,
       done = (before ++ [last])%list /\ status_of last = r /\
       Forall (fun c => 0 <= status_of c) before).
Proof.
  intros Hshow Hoff Hon run. subst run.
  rewrite apply_options_write_sequence by assumption.
  destruct (write_sequence_run device (requested_writes opts new_config) st)
    as (r & done & Hret & Hcalls & Hout & Herr & Hrun).
  exists r, done.
  destruct (write_run_prefix _ _ _ _ Hrun) as (Hpre & Hall & Hfail & Hok).
  repeat (split; [assumption|]).
  split; [|exact Hfail].
  intros Hz. split; [now apply Hall | now apply Hok].
Qed.

(** C2: without [--show] (and with the CPI steps of the options parser),
    for every set of requested fields (a record of flags, in which the
    order the options were given in leaves no trace) the calls
    [apply_options] makes are
    SET_REPORT transfers of the requested commands and no others, in the
    order mode, polling, intensity, pulsation, CPI-off, CPI-on, save-to-ROM,
    up to and including the first transfer that fails; the status of that
    transfer is returned, and the commands after it are not sent.  When 0 is
    returned, all requested commands were sent. *)
Theorem apply_options_write_order (st : state W)
    (device : libusb_device_handle) (opts : options)
    (new_config : sensei_config) :
  show_config opts = false ->
  (set_cpi_off opts = true -> 1 <= cpi_off new_config <= 63) ->
  (set_cpi_on opts = true -> 1 <= cpi_on new_config <= 63) ->
  let run := apply_options data_uninit config_uninit device opts new_config st in
  exists r done,
    fst run = Ret r /\
    calls (snd run) = (calls st ++ done)%list /\
    stdout (snd run) = stdout st /\ stderr (snd run) = stderr st /\
    write_run device (requested_writes opts new_config) done r /\
    (exists unsent,
       requested_writes opts new_config = (commands_sent done ++ unsent)%list) /\
    (r = 0 ->
     commands_sent done = requested_writes opts new_config /\
     Forall (fun c => 0 <= status_of c) done) /\
    (r <> 0 ->
     r < 0 /\
     exists before last,
       done = (before ++ [last])%list /\ status_of last = r /\
       Forall (fun c => 0 <= status_of c) before).
Proof.
  exact (apply_options_writes st device opts new_config).
Qed.

End WriteOrder.

(** ** Status read, decode and display *)

Lemma string_app_assoc (a b c : string) : ((a ++ b) ++ c = a ++ (b ++ c))%string.
Proof.
  induction a as [|x a IH]; cbn; [reflexivity | now rewrite IH].
Qed.

Lemma string_app_nil_r (a : string) : (a ++ "" = a)%string.
Proof.
  induction a as [|x a IH]; cbn; [reflexivity | now rewrite IH].
Qed.

Lemma printf_bind {W A} (s : string) (k : unit -> M W A) (st : state W) :
  (printf s ;; k tt) st =
    k tt (mk_state (world st) (calls st) (stdout st ++ s) (stderr st)).
Proof. reflexivity. Qed.

Section Show.

Context {W : Type} {U : UsbWorld W}.
Variable data_uninit : list Z.
Variable config_uninit : sensei_config.

Lemma intensity_switch (v : Z) :
  match intensity_of_int v with
  | Some INTENSITY_OFF => printf ("off" ++ LF)
  | Some INTENSITY_LOW => printf ("low" ++ LF)
  | Some INTENSITY_MEDIUM => printf ("medium" ++ LF)
  | Some INTENSITY_HIGH => printf ("high" ++ LF)
  | None => printf ("unknown" ++ LF)
  end = printf (W := W) (intensity_text v ++ LF).
Proof.
  unfold intensity_of_int, intensity_text. cbn.
  destruct (v =? 1), (v =? 2), (v =? 3), (v =? 4); reflexivity.
Qed.

Lemma pulsation_switch (v : Z) :
  match pulsation_of_int v with
  | Some PULSATION_STEADY => printf ("steady" ++ LF)
  | Some PULSATION_SLOW => printf ("slow" ++ LF)
  | Some PULSATION_MEDIUM => printf ("medium" ++ LF)
  | Some PULSATION_FAST => printf ("fast" ++ LF)
  | None => printf ("unknown" ++ LF)
  end = printf (W := W) (pulsation_text v ++ LF).
Proof.
  unfold pulsation_of_int, pulsation_text. cbn.
  destruct (v =? 1), (v =? 2), (v =? 3), (v =? 4); reflexivity.
Qed.

Lemma polling_switch (v : Z) :
  match polling_of_int v with
  | Some POLLING_1000_HZ => printf ("1000Hz" ++ LF)
  | Some POLLING_500_HZ => printf ("500Hz" ++ LF)
  | Some POLLING_250_HZ => printf ("250Hz" ++ LF)
  | Some POLLING_125_HZ => printf ("125Hz" ++ LF)
  | None => printf ("unknown" ++ LF)
  end = printf (W := W) (polling_text v ++ LF).
Proof.
  unfold polling_of_int, polling_text. cbn.
  destruct (v =? 1), (v =? 2), (v =? 3), (v =? 4); reflexivity.
Qed.

(** [sensei_display_config] appends the five lines of [report_text] to the
    standard output and does nothing else. *)
Lemma sensei_display_config_eq (config : sensei_config) (st : state W) :
  sensei_display_config config st =
    (Ret tt, mk_state (world st) (calls st)
               (stdout st ++ report_text config) (stderr st)).
Proof.
  unfold sensei_display_config.
  rewrite intensity_switch, pulsation_switch, polling_switch.
  unfold bind, printf. cbn [world calls stdout stderr].
  f_equal. f_equal. unfold report_text, report_line.
  repeat rewrite string_app_assoc. reflexivity.
Qed.

Lemma sensei_load_config_eq (device : libusb_device_handle)
    (config : sensei_config) (st : state W) :
  sensei_load_config data_uninit device config st =
    let '((r, data), w') :=
      w_control_transfer device 0xa1 USB_GET_REPORT 0x0300 0 data_uninit 256 0
        (world st) in
    (Ret (if r <? 0 then (r, config)
          else (0, mk_config (mode config) (nth 107 data 0) (nth 108 data 0)
                     (nth 103 data 0) (nth 102 data 0) (nth 128 data 0))),
     mk_state w'
       (calls st ++ [Call_control_transfer device 0xa1 USB_GET_REPORT 0x0300 0
                       data_uninit 256 0 r data])
       (stdout st) (stderr st)).
Proof.
  unfold sensei_load_config, libusb_control_transfer, call, bind, ret.
  change (Z.lor (Z.lor LIBUSB_ENDPOINT_IN LIBUSB_REQUEST_TYPE_CLASS)
            LIBUSB_RECIPIENT_INTERFACE) with 0xa1.
  destruct (w_control_transfer device 0xa1 USB_GET_REPORT 0x0300 0 data_uninit
              256 0 (world st)) as [[r data] w'].
  cbn [fst snd]. destruct (r <? 0); reflexivity.
Qed.

(** With [--show], [apply_options] is the status read followed, when the
    transfer did not fail, by the display of what was read. *)
Lemma apply_options_show (device : libusb_device_handle) (opts : options)
    (new_config : sensei_config) (st : state W) :
  show_config opts = true ->
  apply_options data_uninit config_uninit device opts new_config st =
    let '((r, data), w') :=
      w_control_transfer device 0xa1 USB_GET_REPORT 0x0300 0 data_uninit 256 0
        (world st) in
    let log :=
      (calls st ++ [Call_control_transfer device 0xa1 USB_GET_REPORT 0x0300 0
                      data_uninit 256 0 r data])%list in
    if r <? 0 then (Ret r, mk_state w' log (stdout st) (stderr st))
    else
      (Ret 0,
       mk_state w' log
         (stdout st ++
          report_text (mk_config (mode config_uninit) (nth 107 data 0)
                         (nth 108 data 0) (nth 103 data 0) (nth 102 data 0)
                         (nth 128 data 0)))
         (stderr st)).
Proof.
  intros Hshow. unfold apply_options. rewrite Hshow.
  unfold bind at 1. rewrite sensei_load_config_eq.
  destruct (w_control_transfer _ _ _ _ _ _ _ _ _) as [[r data] w'].
  cbv zeta. destruct (r <? 0) eqn:E.
  - apply Z.ltb_lt in E.
    replace (negb (r =? 0)) with true
      by (symmetry; apply negb_true_iff, Z.eqb_neq; lia).
    reflexivity.
  - cbn [Z.eqb negb]. unfold bind. rewrite sensei_display_config_eq.
    reflexivity.
Qed.

Lemma byte_nth (data : list Z) (n : nat) :
  Forall (fun b => 0 <= b < 256) data -> 0 <= nth n data 0 < 256.
Proof.
  intros H. destruct (Nat.lt_ge_cases n (List.length data)) as [Hlt|Hge].
  - rewrite Forall_forall in H. apply H. now apply nth_In.
  - rewrite nth_overflow by assumption. lia.
Qed.

(** C4: when the GET_REPORT transfer returns a 256-byte report,
    [sensei_load_config] makes that one call and takes five fields from it,
    each the single byte at a fixed offset: intensity at 102, pulsation at
    103, CPI-off at 107, CPI-on at 108, polling at 128; nothing else of the
    report is used and the mode is left as it was.  A report carrying 3, 2,
    5, 10 and 1 there is the configuration medium, slow, step 5 (450 CPI),
    step 10 (900 CPI) and 1000Hz, and is displayed as such. *)
Theorem status_report_decode (st : state W) (device : libusb_device_handle)
    (config : sensei_config) (r : Z) (data : list Z) (w' : W) :
  w_control_transfer device 0xa1 USB_GET_REPORT 0x0300 0 data_uninit 256 0
    (world st) = ((r, data), w') ->
  0 <= r ->
  List.length data = 256%nat ->
  Forall (fun b => 0 <= b < 256) data ->
  let run := sensei_load_config data_uninit device config st in
  exists decoded,
    fst run = Ret (0, decoded) /\
    calls (snd run) =
      (calls st ++ [Call_control_transfer device 0xa1 USB_GET_REPORT 0x0300 0
                      data_uninit 256 0 r data])%list /\
    (intensity decoded = nth 102 data 0 /\
     pulsation decoded = nth 103 data 0 /\
     cpi_off decoded = nth 107 data 0 /\
     cpi_on decoded = nth 108 data 0 /\
     polling decoded = nth 128 data 0 /\
     mode decoded = mode config) /\
    (0 <= intensity decoded < 256 /\ 0 <= pulsation decoded < 256 /\
     0 <= cpi_off decoded < 256 /\ 0 <= cpi_on decoded < 256 /\
     0 <= polling decoded < 256) /\
    (nth 102 data 0 = 3 -> nth 103 data 0 = 2 -> nth 107 data 0 = 5 ->
     nth 108 data 0 = 10 -> nth 128 data 0 = 1 ->
     intensity_of_int (intensity decoded) = Some INTENSITY_MEDIUM /\
     pulsation_of_int (pulsation decoded) = Some PULSATION_SLOW /\
     SENSEI_CPI_STEP * cpi_off decoded = 450 /\
     SENSEI_CPI_STEP * cpi_on decoded = 900 /\
     polling_of_int (polling decoded) = Some POLLING_1000_HZ /\
     forall st1 : state W,
       sensei_display_config decoded st1 =
         (Ret tt,
          mk_state (world st1) (calls st1)
            (stdout st1 ++
             ("Backlight intensity: medium" ++ LF ++
              "Backlight pulsation: slow" ++ LF ++
              "Speed in CPI (LED is off): 450" ++ LF ++
              "Speed in CPI (LED is on): 900" ++ LF ++
              "Polling frequency: 1000Hz" ++ LF))
            (stderr st1))).
Proof.
  intros Ht Hr Hlen Hbytes run. subst run.
  rewrite sensei_load_config_eq, Ht.
  replace (r <? 0) with false by (symmetry; apply Z.ltb_ge; lia).
  eexists. split; [reflexivity|]. split; [reflexivity|].
  cbn [intensity pulsation cpi_off cpi_on polling mode].
  split; [repeat split|]. split; [repeat split; apply byte_nth; assumption|].
  intros -> -> -> -> ->. repeat (split; [reflexivity|]).
  intros st1. rewrite sensei_display_config_eq. reflexivity.
Qed.

(** C8: [--show], when the status read does not fail, prints five lines and
    returns 0 whatever the bytes read are: the intensity, the pulsation,
    the CPI with the LED off and with the LED on, each 90 times the step
    read, and the polling frequency.  A recognised polling code is printed
    as its frequency followed by [Hz]; a code that is not one of 1 to 4 is
    printed as [unknown], for each of the three enumerated fields. *)
Theorem show_prints_five_lines (st : state W) (device : libusb_device_handle)
    (opts : options) (new_config : sensei_config)
    (r : Z) (data : list Z) (w' : W) :
  show_config opts = true ->
  w_control_transfer device 0xa1 USB_GET_REPORT 0x0300 0 data_uninit 256 0
    (world st) = ((r, data), w') ->
  0 <= r ->
  let run := apply_options data_uninit config_uninit device opts new_config st in
  fst run = Ret 0 /\
  stderr (snd run) = stderr st /\
  stdout (snd run) =
    stdout st ++
    String.concat ""
      (map (fun line => fst line ++ ": " ++ snd line ++ LF)
         [("Backlight intensity", intensity_text (nth 102 data 0));
          ("Backlight pulsation", pulsation_text (nth 103 data 0));
          ("Speed in CPI (LED is off)", string_of_int (90 * nth 107 data 0));
          ("Speed in CPI (LED is on)", string_of_int (90 * nth 108 data 0));
          ("Polling frequency", polling_text (nth 128 data 0))]) /\
  (forall v, 1 <= v <= 4 ->
     polling_text v =
       string_of_int (nth (Z.to_nat (v - 1)) [1000; 500; 250; 125] 0) ++ "Hz") /\
  (forall v, ~ 1 <= v <= 4 ->
     intensity_text v = "unknown" /\ pulsation_text v = "unknown" /\
     polling_text v = "unknown").
Proof.
  intros Hshow Ht Hr run. subst run.
  rewrite apply_options_show, Ht by assumption. cbv zeta.
  replace (r <? 0) with false by (symmetry; apply Z.ltb_ge; lia).
  cbn [fst snd stdout stderr].
  split; [reflexivity|]. split; [reflexivity|]. split; [|split].
  - reflexivity.
  - intros v Hv.
    assert (Hc : v = 1 \/ v = 2 \/ v = 3 \/ v = 4) by lia.
    destruct Hc as [-> | [-> | [-> | ->]]]; reflexivity.
  - intros v Hv. unfold intensity_text, pulsation_text, polling_text.
    replace (v =? 1) with false by (symmetry; apply Z.eqb_neq; lia).
    replace (v =? 2) with false by (symmetry; apply Z.eqb_neq; lia).
    replace (v =? 3) with false by (symmetry; apply Z.eqb_neq; lia).
    replace (v =? 4) with false by (symmetry; apply Z.eqb_neq; lia).
    repeat split.
Qed.

Lemma commands_sent_app (l1 l2 : list usb_call) :
  commands_sent (l1 ++ l2) = (commands_sent l1 ++ commands_sent l2)%list.
Proof. apply flat_map_app. Qed.

(** C9: with [--show], [apply_options] makes one library call, the
    GET_REPORT transfer, and returns: no command is sent to the device, the
    world is what that transfer left, and the other flags (the fields to
    set, save-to-ROM) and the requested values play no part. *)
Theorem show_config_only_reads (st : state W) (device : libusb_device_handle)
    (opts : options) (new_config : sensei_config) :
  show_config opts = true ->
  let run := apply_options data_uninit config_uninit device opts new_config st in
  let transfer :=
    w_control_transfer device 0xa1 USB_GET_REPORT 0x0300 0 data_uninit 256 0
      (world st) in
  calls (snd run) =
    (calls st ++ [Call_control_transfer device 0xa1 USB_GET_REPORT 0x0300 0
                    data_uninit 256 0 (fst (fst transfer)) (snd (fst transfer))])%list /\
  commands_sent (calls (snd run)) = commands_sent (calls st) /\
  world (snd run) = snd transfer /\
  fst run = Ret (if fst (fst transfer) <? 0 then fst (fst transfer) else 0) /\
  run = apply_options data_uninit config_uninit device
          (mk_options true false false false false false false false)
          (mk_config 0 0 0 0 0 0) st.
Proof.
  intros Hshow run transfer. subst run transfer.
  rewrite !apply_options_show by (assumption || reflexivity).
  destruct (w_control_transfer _ _ _ _ _ _ _ _ _) as [[r data] w'].
  cbv zeta. cbn [fst snd].
  destruct (r <? 0); cbn [fst snd calls world];
    rewrite commands_sent_app; cbn; rewrite app_nil_r; repeat split.
Qed.

End Show.

(** ** The session: claim, operation, teardown *)

(** Closes a goal about the components of a final state once the run has
    been unfolded: normalises the appends on both sides. *)
Ltac session_finish :=
  cbn; unfold LF;
  repeat (progress (rewrite <- ?app_assoc;
                    rewrite ?string_app_assoc, ?string_app_nil_r; cbn));
  repeat split.

Section Session.

Context {W : Type} {U : UsbWorld W}.
Variable data_uninit : list Z.
Variable config_uninit : sensei_config.

Lemma call_eq {A} (f : W -> A * W) (ev : A -> usb_call) (st : state W) :
  call f ev st =
    (Ret (fst (f (world st))),
     mk_state (snd (f (world st))) (calls st ++ [ev (fst (f (world st)))])
       (stdout st) (stderr st)).
Proof.
  unfold call. now destruct (f (world st)).
Qed.

Lemma bind_call {A B} (f : W -> A * W) (ev : A -> usb_call)
    (k : A -> M W B) (st : state W) :
  (x <- call f ev ;; k x) st =
    k (fst (f (world st)))
      (mk_state (snd (f (world st))) (calls st ++ [ev (fst (f (world st)))])
         (stdout st) (stderr st)).
Proof.
  unfold bind. now rewrite call_eq.
Qed.

Lemma ERROR_eq {A} (message : string) (label : Z -> M W A) (st : state W) :
  ERROR message label st =
    label 1 (mk_state (world st) (calls st) (stdout st)
               (stderr st ++ ("Error: " ++ message))).
Proof. reflexivity. Qed.

Lemma main_error_2_run device status (st : state W) :
  let run := main_error_2 device status st in
  fst run = Ret status /\
  calls (snd run) = (calls st ++ [Call_close device; Call_exit])%list /\
  stdout (snd run) = stdout st /\ stderr (snd run) = stderr st.
Proof.
  cbn. rewrite <- app_assoc. repeat split.
Qed.

Lemma main_error_3_run device (reattach_driver : bool) status (st : state W) :
  let run := main_error_3 device reattach_driver status st in
  exists ra,
    let failed := reattach_driver && negb (ra =? 0) in
    fst run = Ret (if failed then 1 else status) /\
    calls (snd run) =
      (calls st
       ++ (if reattach_driver
           then [Call_attach_kernel_driver device SENSEI_CTL_IFACE ra] else [])
       ++ [Call_close device; Call_exit])%list /\
    stdout (snd run) = stdout st /\
    stderr (snd run) =
      stderr st ++ failure_line "couldn't reattach kernel driver" failed ra.
Proof.
  intros run. subst run. unfold main_error_3.
  destruct reattach_driver.
  - unfold libusb_attach_kernel_driver. rewrite bind_call.
    set (ra := fst (w_attach_kernel_driver device SENSEI_CTL_IFACE (world st))).
    exists ra. cbn [andb]. destruct (negb (ra =? 0)).
    + rewrite ERROR_eq. session_finish.
    + session_finish.
  - exists 0. session_finish.
Qed.

Lemma main_error_4_run device (reattach_driver : bool) status (st : state W) :
  let run := main_error_4 device reattach_driver status st in
  exists rr ra,
    let release_failed := negb (rr =? 0) in
    let reattach_failed := reattach_driver && negb (ra =? 0) in
    fst run = Ret (if release_failed || reattach_failed then 1 else status) /\
    calls (snd run) =
      (calls st
       ++ [Call_release_interface device SENSEI_CTL_IFACE rr]
       ++ (if reattach_driver
           then [Call_attach_kernel_driver device SENSEI_CTL_IFACE ra] else [])
       ++ [Call_close device; Call_exit])%list /\
    stdout (snd run) = stdout st /\
    stderr (snd run) =
      stderr st
      ++ failure_line "couldn't release interface" release_failed rr
      ++ failure_line "couldn't reattach kernel driver" reattach_failed ra.
Proof.
  intros run. subst run. unfold main_error_4.
  unfold libusb_release_interface. rewrite bind_call.
  set (rr := fst (w_release_interface device SENSEI_CTL_IFACE (world st))).
  exists rr.
  destruct (negb (rr =? 0)).
  - rewrite ERROR_eq. cbn [world calls stdout stderr].
    match goal with |- context [main_error_3 device reattach_driver 1 ?s] =>
      destruct (main_error_3_run device reattach_driver 1 s)
        as (ra & Hret & Hcalls & Hout & Herr) end.
    exists ra. rewrite Hret, Hcalls, Hout, Herr.
    destruct (reattach_driver && negb (ra =? 0)); session_finish.
  - match goal with |- context [main_error_3 device reattach_driver status ?s] =>
      destruct (main_error_3_run device reattach_driver status s)
        as (ra & Hret & Hcalls & Hout & Herr) end.
    exists ra. rewrite Hret, Hcalls, Hout, Herr.
    session_finish.
Qed.

Lemma write_run_status device cmds done r :
  write_run device cmds done r -> r = failing_status done.
Proof.
  induction 1 as [|cmd cmds r data' Hr|cmd cmds r data' done res Hr Hrun IH].
  - reflexivity.
  - unfold failing_status. cbn.
    now replace (r <? 0) with true by (symmetry; apply Z.ltb_lt; assumption).
  - destruct Hrun.
    + unfold failing_status. cbn.
      now replace (r <? 0) with false by (symmetry; apply Z.ltb_ge; assumption).
    + exact IH.
    + exact IH.
Qed.

Lemma write_run_transfers device cmds done r :
  write_run device cmds done r -> Forall is_control_transfer done.
Proof.
  induction 1; repeat constructor; assumption.
Qed.

(** Whatever is requested, [apply_options] returns a status, and the calls
    it makes are control transfers; it writes nothing to the standard error
    stream. *)
Lemma apply_options_run (device : libusb_device_handle) (opts : options)
    (new_config : sensei_config) (st : state W) :
  (set_cpi_off opts = true -> 1 <= cpi_off new_config <= 63) ->
  (set_cpi_on opts = true -> 1 <= cpi_on new_config <= 63) ->
  let run := apply_options data_uninit config_uninit device opts new_config st in
  exists op ops,
    fst run = Ret op /\
    calls (snd run) = (calls st ++ ops)%list /\
    Forall is_control_transfer ops /\
    stderr (snd run) = stderr st /\
    op = failing_status ops.
Proof.
  intros Hoff Hon run. subst run.
  destruct (show_config opts) eqn:Hshow.
  - rewrite apply_options_show by assumption.
    destruct (w_control_transfer _ _ _ _ _ _ _ _ _) as [[r data] w'].
    cbv zeta. destruct (r <? 0) eqn:E.
    + exists r. eexists. cbn [fst snd calls stderr].
      repeat split; [repeat constructor|].
      unfold failing_status. cbn. now rewrite E.
    + exists 0. eexists. cbn [fst snd calls stderr].
      repeat split; [repeat constructor|].
      unfold failing_status. cbn. now rewrite E.
  - destruct (apply_options_writes data_uninit config_uninit st device
                opts new_config Hshow Hoff Hon)
      as (r & done & Hret & Hcalls & _ & Herr & Hrun & _).
    exists r, done. repeat split; try assumption.
    + eapply write_run_transfers; eassumption.
    + eapply write_run_status; eassumption.
Qed.

(** Once the interface is claimed, whatever the operation returns, [main]
    releases the interface once, then reattaches the kernel driver once if
    and only if [reattach_driver] is set, then closes the device; a failed
    release does not keep the reattach from being tried, nor a failed
    reattach the close.  The status is 1 as soon as the operation, the
    release or the reattach failed, and each of these failures is reported
    on the standard error stream, in the order in which they happened. *)
Lemma main_claim_claimed (st : state W) (device : libusb_device_handle)
    (reattach_driver : bool) (opts : options) (new_config : sensei_config)
    (status : Z) (w1 : W) :
  w_claim_interface device SENSEI_CTL_IFACE (world st) = (0, w1) ->
  (set_cpi_off opts = true -> 1 <= cpi_off new_config <= 63) ->
  (set_cpi_on opts = true -> 1 <= cpi_on new_config <= 63) ->
  let run := main_claim data_uninit config_uninit device reattach_driver opts
               new_config status st in
  let claimed :=
    mk_state w1 (calls st ++ [Call_claim_interface device SENSEI_CTL_IFACE 0])
      (stdout st) (stderr st) in
  exists op ops rr ra,
    let op_failed := negb (op =? 0) in
    let release_failed := negb (rr =? 0) in
    let reattach_failed := reattach_driver && negb (ra =? 0) in
    fst (apply_options data_uninit config_uninit device opts new_config claimed)
      = Ret op /\
    fst run =
      Ret (if op_failed || release_failed || reattach_failed then 1
           else status) /\
    calls (snd run) =
      (calls st
       ++ [Call_claim_interface device SENSEI_CTL_IFACE 0]
       ++ ops
       ++ [Call_release_interface device SENSEI_CTL_IFACE rr]
       ++ (if reattach_driver
           then [Call_attach_kernel_driver device SENSEI_CTL_IFACE ra] else [])
       ++ [Call_close device; Call_exit])%list /\
    Forall is_control_transfer ops /\
    op = failing_status ops /\
    stderr (snd run) =
      stderr st
      ++ failure_line "operation failed" op_failed op
      ++ failure_line "couldn't release interface" release_failed rr
      ++ failure_line "couldn't reattach kernel driver" reattach_failed ra.
Proof.
  intros Hclaim Hoff Hon run claimed. subst run.
  unfold main_claim, libusb_claim_interface. rewrite bind_call, Hclaim.
  cbn [fst snd Z.eqb negb]. fold claimed.
  destruct (apply_options_run device opts new_config claimed Hoff Hon)
    as (op & ops & Hret & Hcalls & Hops & Herr & Hop).
  unfold bind.
  destruct (apply_options data_uninit config_uninit device opts new_config
              claimed) as [o st2] eqn:Happly.
  cbn [fst snd] in Hret, Hcalls, Herr. subst o.
  exists op, ops.
  destruct (negb (op =? 0)).
  - rewrite ERROR_eq.
    match goal with |- context [main_error_4 device reattach_driver 1 ?s] =>
      destruct (main_error_4_run device reattach_driver 1 s)
        as (rr & ra & Hret4 & Hcalls4 & _ & Herr4) end.
    exists rr, ra. rewrite Hret4, Hcalls4, Herr4.
    cbn [calls stderr]. rewrite Hcalls, Herr. subst claimed.
    split; [reflexivity|].
    destruct (negb (rr =? 0)), (reattach_driver && negb (ra =? 0));
      session_finish; assumption.
  - destruct (main_error_4_run device reattach_driver status st2)
      as (rr & ra & Hret4 & Hcalls4 & _ & Herr4).
    exists rr, ra. rewrite Hret4, Hcalls4, Herr4, Hcalls, Herr. subst claimed.
    split; [reflexivity|].
    session_finish; assumption.
Qed.

Lemma main_usb_eq (opts : options) (new_config : sensei_config) (st : state W) :
  main_usb data_uninit config_uninit opts new_config st =
    let r := fst (w_init (world st)) in
    let initialised :=
      mk_state (snd (w_init (world st))) (calls st ++ [Call_init r])
        (stdout st) (stderr st) in
    if negb (r =? 0) then
      ERROR ("libusb initialisation failed: " ++ libusb_error_name r ++ LF)
        main_error_0 initialised
    else
      match find_device_list USB_VENDOR_STEELSERIES products 0 initialised with
      | (Ret (Some d, _), st2) =>
          main_driver data_uninit config_uninit d opts new_config 0 st2
      | (Ret (None, e), st2) =>
          if negb (e =? 0) then
            ERROR ("couldn't open device: " ++ libusb_error_name e ++ LF)
              main_error_1 st2
          else ERROR ("no suitable device found" ++ LF) main_error_1 st2
      | (Exited n, st2) => (Exited n, st2)
      | (Aborted, st2) => (Aborted, st2)
      end.
Proof.
  unfold main_usb, libusb_init. rewrite bind_call. cbv zeta.
  destruct (negb (fst (w_init (world st)) =? 0)); [reflexivity|].
  unfold bind at 1.
  destruct (find_device_list _ _ _ _) as [[[[d|] e]| |] st2]; try reflexivity.
  destruct (negb (e =? 0)); reflexivity.
Qed.

Lemma main_driver_eq (device : libusb_device_handle) (opts : options)
    (new_config : sensei_config) (status : Z) (st : state W) :
  main_driver data_uninit config_uninit device opts new_config status st =
    let q := fst (w_kernel_driver_active device SENSEI_CTL_IFACE (world st)) in
    let queried :=
      mk_state (snd (w_kernel_driver_active device SENSEI_CTL_IFACE (world st)))
        (calls st ++ [Call_kernel_driver_active device SENSEI_CTL_IFACE q])
        (stdout st) (stderr st) in
    let d := fst (w_detach_kernel_driver device SENSEI_CTL_IFACE (world queried)) in
    let detached :=
      mk_state (snd (w_detach_kernel_driver device SENSEI_CTL_IFACE (world queried)))
        (calls queried ++ [Call_detach_kernel_driver device SENSEI_CTL_IFACE d])
        (stdout st) (stderr st) in
    if (q =? 0) || (q =? LIBUSB_ERROR_NOT_SUPPORTED) then
      main_claim data_uninit config_uninit device false opts new_config
        status queried
    else if q =? 1 then
      if negb (d =? 0) then
        ERROR ("couldn't detach kernel driver: " ++ libusb_error_name d ++ LF)
          (main_error_2 device) detached
      else
        main_claim data_uninit config_uninit device true opts new_config
          status detached
    else
      ERROR ("coudn't detect kernel driver presence: "
             ++ libusb_error_name q ++ LF) (main_error_2 device) queried.
Proof.
  unfold main_driver, libusb_kernel_driver_active. rewrite bind_call. cbv zeta.
  destruct (_ || _); [reflexivity|].
  destruct (_ =? 1); [|reflexivity].
  unfold libusb_detach_kernel_driver. rewrite bind_call.
  cbn [world]. destruct (negb (_ =? 0)); reflexivity.
Qed.

(** From the claim on, whether it succeeds or not: the claim is the first
    call, the driver is reattached once exactly when [reattach_driver] is
    set, the device is closed last; when the claim fails nothing happens in
    between. *)
Lemma main_claim_run (st : state W) (device : libusb_device_handle)
    (reattach_driver : bool) (opts : options) (new_config : sensei_config)
    (status : Z) :
  (set_cpi_off opts = true -> 1 <= cpi_off new_config <= 63) ->
  (set_cpi_on opts = true -> 1 <= cpi_on new_config <= 63) ->
  let run := main_claim data_uninit config_uninit device reattach_driver opts
               new_config status st in
  let rc := fst (w_claim_interface device SENSEI_CTL_IFACE (world st)) in
  exists mid ra final,
    fst run = Ret final /\
    calls (snd run) =
      (calls st
       ++ [Call_claim_interface device SENSEI_CTL_IFACE rc]
       ++ mid
       ++ (if reattach_driver
           then [Call_attach_kernel_driver device SENSEI_CTL_IFACE ra] else [])
       ++ [Call_close device; Call_exit])%list /\
    Forall is_session_call mid /\
    (rc <> 0 -> mid = [] /\ final = 1).
Proof.
  intros Hoff Hon run rc. subst rc.
  destruct (w_claim_interface device SENSEI_CTL_IFACE (world st))
    as [rc w1] eqn:Hclaim.
  cbn [fst]. destruct (Z.eq_dec rc 0) as [->|Hrc].
  - destruct (main_claim_claimed st device reattach_driver opts new_config
                status w1 Hclaim Hoff Hon)
      as (op & ops & rr & ra & _ & Hret & Hcalls & Hops & _ & _).
    exists (ops ++ [Call_release_interface device SENSEI_CTL_IFACE rr])%list, ra.
    eexists. split; [exact Hret|]. split; [|split].
    + subst run. rewrite Hcalls. now rewrite <- !app_assoc.
    + apply Forall_app. split.
      * eapply Forall_impl; [|exact Hops]. intros c Hc. destruct c; cbn in *; tauto.
      * repeat constructor.
    + intros Hne. contradiction.
  - subst run. unfold main_claim, libusb_claim_interface.
    rewrite bind_call, Hclaim. cbn [fst snd].
    replace (negb (rc =? 0)) with true
      by (symmetry; apply negb_true_iff, Z.eqb_neq; assumption).
    rewrite ERROR_eq.
    match goal with |- context [main_error_3 device reattach_driver 1 ?s] =>
      destruct (main_error_3_run device reattach_driver 1 s)
        as (ra & Hret & Hcalls & _ & _) end.
    exists [], ra. eexists. rewrite Hret, Hcalls. split; [reflexivity|].
    cbn [calls]. rewrite <- !app_assoc. repeat split. constructor.
    now destruct (reattach_driver && negb (ra =? 0)).
Qed.

(** C7: after the device is opened, [main] asks whether a kernel driver is
    active on the control interface, and
    - on 0 (not bound) and on [LIBUSB_ERROR_NOT_SUPPORTED] alike goes on to
      the claim with [reattach_driver] unset, printing nothing: the claim
      is the next call, and no detach or reattach is made;
    - on 1 (bound) detaches the driver; when that succeeds it goes on to the
      claim with [reattach_driver] set, and the driver is reattached once
      before the device is closed; when the detach fails it reports the
      failure and only closes the device: no claim, transfer, release or
      reattach is made, and the status is 1;
    - on any other status reports the failure and only closes the device. *)
Theorem driver_query_outcomes (st : state W) (device : libusb_device_handle)
    (opts : options) (new_config : sensei_config) (status : Z) :
  (set_cpi_off opts = true -> 1 <= cpi_off new_config <= 63) ->
  (set_cpi_on opts = true -> 1 <= cpi_on new_config <= 63) ->
  let run := main_driver data_uninit config_uninit device opts new_config
               status st in
  let q := fst (w_kernel_driver_active device SENSEI_CTL_IFACE (world st)) in
  let queried :=
    mk_state (snd (w_kernel_driver_active device SENSEI_CTL_IFACE (world st)))
      (calls st ++ [Call_kernel_driver_active device SENSEI_CTL_IFACE q])
      (stdout st) (stderr st) in
  let d := fst (w_detach_kernel_driver device SENSEI_CTL_IFACE (world queried)) in
  let detached :=
    mk_state (snd (w_detach_kernel_driver device SENSEI_CTL_IFACE (world queried)))
      (calls queried ++ [Call_detach_kernel_driver device SENSEI_CTL_IFACE d])
      (stdout st) (stderr st) in
  (q = 0 \/ q = LIBUSB_ERROR_NOT_SUPPORTED ->
   run = main_claim data_uninit config_uninit device false opts new_config
           status queried /\
   exists rc mid final,
     fst run = Ret final /\
     calls (snd run) =
       (calls st
        ++ [Call_kernel_driver_active device SENSEI_CTL_IFACE q;
            Call_claim_interface device SENSEI_CTL_IFACE rc]
        ++ mid ++ [Call_close device; Call_exit])%list /\
     Forall is_session_call mid) /\
  (q = 1 -> d = 0 ->
   run = main_claim data_uninit config_uninit device true opts new_config
           status detached /\
   exists rc mid ra final,
     fst run = Ret final /\
     calls (snd run) =
       (calls st
        ++ [Call_kernel_driver_active device SENSEI_CTL_IFACE 1;
            Call_detach_kernel_driver device SENSEI_CTL_IFACE 0;
            Call_claim_interface device SENSEI_CTL_IFACE rc]
        ++ mid
        ++ [Call_attach_kernel_driver device SENSEI_CTL_IFACE ra;
            Call_close device; Call_exit])%list /\
     Forall is_session_call mid) /\
  (q = 1 -> d <> 0 ->
   fst run = Ret 1 /\
   calls (snd run) =
     (calls st
      ++ [Call_kernel_driver_active device SENSEI_CTL_IFACE 1;
          Call_detach_kernel_driver device SENSEI_CTL_IFACE d;
          Call_close device; Call_exit])%list /\
   stderr (snd run) =
     stderr st ++ failure_line "couldn't detach kernel driver" true d) /\
  (q <> 0 -> q <> LIBUSB_ERROR_NOT_SUPPORTED -> q <> 1 ->
   fst run = Ret 1 /\
   calls (snd run) =
     (calls st
      ++ [Call_kernel_driver_active device SENSEI_CTL_IFACE q;
          Call_close device; Call_exit])%list /\
   stderr (snd run) =
     stderr st ++ failure_line "coudn't detect kernel driver presence" true q).
Proof.
  intros Hoff Hon run q queried d detached.
  assert (Hrun : run = _)
    by exact (main_driver_eq device opts new_config status st).
  cbv zeta in Hrun. fold q in Hrun. fold queried in Hrun. fold d in Hrun.
  fold detached in Hrun.
  assert (Hcq : calls queried =
    (calls st ++ [Call_kernel_driver_active device SENSEI_CTL_IFACE q])%list)
    by reflexivity.
  assert (Hcd : calls detached =
    (calls st ++ [Call_kernel_driver_active device SENSEI_CTL_IFACE q;
                  Call_detach_kernel_driver device SENSEI_CTL_IFACE d])%list)
    by (cbn; now rewrite <- app_assoc).
  assert (Hsq : stderr queried = stderr st) by reflexivity.
  assert (Hsd : stderr detached = stderr st) by reflexivity.
  clearbody run q queried d detached.
  split; [|split; [|split]].
  - intros Hq.
    assert (E : (q =? 0) || (q =? LIBUSB_ERROR_NOT_SUPPORTED) = true).
    { apply orb_true_iff. destruct Hq as [Hq|Hq]; [left|right];
        now apply Z.eqb_eq. }
    rewrite E in Hrun. split; [exact Hrun|].
    destruct (main_claim_run queried device false opts new_config status
                Hoff Hon) as (mid & _ & final & Hret & Hcalls & Hmid & _).
    exists (fst (w_claim_interface device SENSEI_CTL_IFACE (world queried))),
      mid, final. rewrite Hrun, Hret, Hcalls, Hcq.
    rewrite <- ?app_assoc. repeat split. assumption.
  - intros Hq Hd. subst q d.
    change ((1 =? 0) || (1 =? LIBUSB_ERROR_NOT_SUPPORTED)) with false in Hrun.
    change (1 =? 1) with true in Hrun.
    change (negb (0 =? 0)) with false in Hrun.
    split; [exact Hrun|].
    destruct (main_claim_run detached device true opts new_config status
                Hoff Hon) as (mid & ra & final & Hret & Hcalls & Hmid & _).
    exists (fst (w_claim_interface device SENSEI_CTL_IFACE (world detached))),
      mid, ra, final. rewrite Hrun, Hret, Hcalls, Hcd.
    rewrite <- ?app_assoc. repeat split. assumption.
  - intros Hq Hd. subst q.
    change ((1 =? 0) || (1 =? LIBUSB_ERROR_NOT_SUPPORTED)) with false in Hrun.
    change (1 =? 1) with true in Hrun.
    replace (negb (d =? 0)) with true in Hrun
      by (symmetry; apply negb_true_iff, Z.eqb_neq; assumption).
    rewrite Hrun, ERROR_eq.
    destruct (main_error_2_run device 1
                (mk_state (world detached) (calls detached) (stdout detached)
                   (stderr detached ++
                    ("Error: " ++
                     ("couldn't detach kernel driver: " ++
                      libusb_error_name d ++ LF)))))
      as (Hret & Hcalls & _ & Herr).
    rewrite Hret, Hcalls, Herr. cbn [calls stderr]. rewrite Hcd, Hsd.
    rewrite <- ?app_assoc. unfold failure_line.
    rewrite ?string_app_assoc. repeat split.
  - intros H0 H12 H1.
    replace ((q =? 0) || (q =? LIBUSB_ERROR_NOT_SUPPORTED)) with false in Hrun
      by (symmetry; apply orb_false_iff; split; apply Z.eqb_neq; assumption).
    replace (q =? 1) with false in Hrun
      by (symmetry; apply Z.eqb_neq; assumption).
    rewrite Hrun, ERROR_eq.
    destruct (main_error_2_run device 1
                (mk_state (world queried) (calls queried) (stdout queried)
                   (stderr queried ++
                    ("Error: " ++
                     ("coudn't detect kernel driver presence: " ++
                      libusb_error_name q ++ LF)))))
      as (Hret & Hcalls & _ & Herr).
    rewrite Hret, Hcalls, Herr. cbn [calls stderr]. rewrite Hcq, Hsq.
    rewrite <- ?app_assoc. unfold failure_line.
    rewrite ?string_app_assoc. repeat split.
Qed.

End Session.

(** ** Discovery *)

Lemma opens_app (l1 l2 : list usb_call) :
  opens (l1 ++ l2) = (opens l1 ++ opens l2)%list.
Proof. apply flat_map_app. Qed.

(** Discovery in any world: the calls are those of the enumeration, at most
    one device is opened, and the result tells the three outcomes apart. *)
Section AnyBus.

Context {W : Type} {U : UsbWorld W}.

Lemma find_device_scan_any vendor product (l : list libusb_device) :
  forall st : state W,
  let run := find_device_scan vendor product l st in
  exists found new,
    fst run = Ret found /\
    calls (snd run) = (calls st ++ new)%list /\
    Forall is_discovery_call new /\ opens new = [] /\
    stdout (snd run) = stdout st /\ stderr (snd run) = stderr st.
Proof.
  induction l as [|device rest IH]; intros st run; subst run.
  - exists None, []. cbn. rewrite app_nil_r. repeat split. constructor.
  - cbn [find_device_scan]. unfold libusb_get_device_descriptor.
    rewrite bind_call.
    set (ds := fst (w_get_device_descriptor device (world st))).
    set (st1 := mk_state _ _ _ _).
    assert (Hrest :
      exists found new,
        fst (find_device_scan vendor product rest st1) = Ret found /\
        calls (snd (find_device_scan vendor product rest st1)) =
          (calls st ++ new)%list /\
        Forall is_discovery_call new /\ opens new = [] /\
        stdout (snd (find_device_scan vendor product rest st1)) = stdout st /\
        stderr (snd (find_device_scan vendor product rest st1)) = stderr st).
    { destruct (IH st1) as (found & new & Hret & Hcalls & Hall & Hopens & Hout & Herr).
      exists found, (Call_get_device_descriptor device ds :: new).
      rewrite Hret, Hcalls, Hout, Herr. subst st1. cbn [calls stdout stderr].
      rewrite <- app_assoc. repeat split; try assumption.
      constructor; [exact I | assumption]. }
    destruct ds as [d|]; [|exact Hrest].
    destruct ((idVendor d =? vendor) && (idProduct d =? product));
      [|exact Hrest].
    exists (Some device), [Call_get_device_descriptor device (Some d)].
    subst st1. cbn. repeat split. repeat constructor.
Qed.

Lemma find_device_any vendor product (st : state W) :
  let run := find_device vendor product 0 st in
  exists new,
    calls (snd run) = (calls st ++ new)%list /\
    Forall is_discovery_call new /\
    stdout (snd run) = stdout st /\ stderr (snd run) = stderr st /\
    (fst run = Ret (None, 0) /\ opens new = [] \/
     (exists d e, e <> 0 /\ fst run = Ret (None, e) /\ opens new = [(d, e)]) \/
     (exists d, fst run = Ret (Some d, 0) /\ opens new = [(d, 0)])).
Proof.
  intros run. destruct run as [o stf] eqn:Hrun. subst run.
  unfold find_device, libusb_get_device_list in Hrun.
  rewrite bind_call in Hrun.
  destruct (fst (w_get_device_list (world st))) as [l|]; cbv beta iota in Hrun.
  - unfold bind at 1 in Hrun.
    match type of Hrun with context [find_device_scan vendor product l ?s] =>
      destruct (find_device_scan_any vendor product l s)
        as (found & new & Hret & Hcalls & Hall & Hopens & Hout & Herr) end.
    destruct (find_device_scan vendor product l _) as [o2 st2].
    cbn [fst snd calls stdout stderr] in Hret, Hcalls, Hout, Herr. subst o2.
    destruct found as [d|].
    + unfold libusb_open in Hrun. unfold bind at 1 in Hrun.
      rewrite bind_call in Hrun.
      unfold libusb_free_device_list, call_void, call, bind, ret in Hrun.
      cbn [fst snd world calls stdout stderr] in Hrun.
      set (r := fst (w_open d (world st2))) in Hrun.
      injection Hrun as <- <-. cbn [fst snd calls stdout stderr].
      exists (Call_get_device_list (Some l) :: new
              ++ [Call_open d r; Call_free_device_list l 1])%list.
      rewrite Hcalls, Hout, Herr.
      rewrite <- !app_assoc. split; [reflexivity|]. split.
      { constructor; [exact I|]. apply Forall_app. split; [assumption|].
        repeat constructor. }
      split; [reflexivity|]. split; [reflexivity|].
      assert (Ho : opens (Call_get_device_list (Some l) :: new
                          ++ [Call_open d r; Call_free_device_list l 1])
                   = [(d, r)]).
      { cbn. rewrite opens_app, Hopens. reflexivity. }
      rewrite Ho. destruct (r =? 0) eqn:E.
      * apply Z.eqb_eq in E. right. right. exists d. rewrite E.
        split; reflexivity.
      * apply Z.eqb_neq in E. right. left. exists d, r.
        repeat split. assumption.
    + unfold libusb_free_device_list, call_void, call, bind, ret in Hrun.
      cbn [fst snd world calls stdout stderr] in Hrun.
      injection Hrun as <- <-. cbn [fst snd calls stdout stderr].
      exists (Call_get_device_list (Some l) :: new
              ++ [Call_free_device_list l 1])%list.
      rewrite Hcalls, Hout, Herr.
      rewrite <- !app_assoc. split; [reflexivity|]. split.
      { constructor; [exact I|]. apply Forall_app. split; [assumption|].
        repeat constructor. }
      split; [reflexivity|]. split; [reflexivity|].
      left. split; [reflexivity|]. cbn. rewrite opens_app, Hopens. reflexivity.
  - injection Hrun as <- <-. exists [Call_get_device_list None]. cbn.
    repeat split. repeat constructor. left. split; reflexivity.
Qed.

Lemma find_device_list_loop_any vendor (products : list Z) :
  forall st : state W,
  let run := find_device_list_loop vendor products 0 st in
  exists new,
    calls (snd run) = (calls st ++ new)%list /\
    Forall is_discovery_call new /\
    stdout (snd run) = stdout st /\ stderr (snd run) = stderr st /\
    (fst run = Ret (None, 0) /\ opens new = [] \/
     (exists d e, e <> 0 /\ fst run = Ret (None, e) /\ opens new = [(d, e)]) \/
     (exists d, fst run = Ret (Some d, 0) /\ opens new = [(d, 0)])).
Proof.
  induction products as [|product rest IH]; intros st run; subst run.
  - exists []. cbn. rewrite app_nil_r. repeat split. constructor.
    left. split; reflexivity.
  - cbn [find_device_list_loop]. unfold bind.
    destruct (find_device_any vendor product st)
      as (new & Hcalls & Hall & Hout & Herr & Hcase).
    destruct (find_device vendor product 0 st) as [o st1].
    cbn [fst snd] in Hcalls, Hout, Herr, Hcase.
    destruct Hcase as [(-> & Hopens) | [(d & e & He & -> & Hopens) | (d & -> & Hopens)]].
    + cbn [Z.eqb].
      destruct (IH st1) as (new' & Hcalls' & Hall' & Hout' & Herr' & Hcase').
      exists (new ++ new')%list.
      rewrite Hcalls', Hout', Herr', Hcalls, Hout, Herr, app_assoc.
      split; [reflexivity|]. split; [now apply Forall_app|].
      split; [reflexivity|]. split; [reflexivity|].
      rewrite opens_app, Hopens. exact Hcase'.
    + replace (e =? 0) with false by (symmetry; now apply Z.eqb_neq).
      exists new. cbn [fst snd ret]. repeat split; try assumption.
      right. left. exists d, e. repeat split; assumption.
    + exists new. cbn [fst snd ret]. repeat split; try assumption.
      right. right. exists d. split; [reflexivity | assumption].
Qed.

Lemma find_device_list_any vendor (products : list Z) (st : state W) :
  let run := find_device_list vendor products 0 st in
  exists new,
    calls (snd run) = (calls st ++ new)%list /\
    Forall is_discovery_call new /\
    stdout (snd run) = stdout st /\ stderr (snd run) = stderr st /\
    (fst run = Ret (None, 0) /\ opens new = [] \/
     (exists d e, e <> 0 /\ fst run = Ret (None, e) /\ opens new = [(d, e)]) \/
     (exists d, fst run = Ret (Some d, 0) /\ opens new = [(d, 0)])).
Proof.
  intros run. subst run. unfold find_device_list, bind.
  destruct (find_device_list_loop_any vendor products st)
    as (new & Hcalls & Hall & Hout & Herr & Hcase).
  destruct (find_device_list_loop vendor products 0 st) as [o st1].
  cbn [fst snd] in Hcalls, Hout, Herr, Hcase.
  exists new.
  destruct Hcase as [(-> & Hopens) | [(d & e & He & -> & Hopens) | (d & -> & Hopens)]].
  - cbn [fst snd ret Z.eqb]. repeat split; try assumption.
    left. split; [reflexivity | assumption].
  - replace (e =? 0) with false by (symmetry; now apply Z.eqb_neq).
    cbn [fst snd ret]. repeat split; try assumption.
    right. left. exists d, e. repeat split; assumption.
  - cbn [fst snd ret]. repeat split; try assumption.
    right. right. exists d. split; [reflexivity | assumption].
Qed.

End AnyBus.

Section Discovery.

Context {W : Type} {U : UsbWorld W}.
Variable data_uninit : list Z.
Variable config_uninit : sensei_config.

(** The bus does not change while the program runs: every enumeration
    lists the devices [devs], and the descriptor read from a device [d] is
    [desc d]. *)
Variable devs : list libusb_device.
Variable desc : libusb_device -> option libusb_device_descriptor.
Hypothesis list_stable : forall w, fst (w_get_device_list w) = Some devs.
Hypothesis desc_stable :
  forall d w, fst (w_get_device_descriptor d w) = desc d.

Lemma find_device_scan_cons vendor product device rest (st : state W) :
  find_device_scan vendor product (device :: rest) st =
    let st1 :=
      mk_state (snd (w_get_device_descriptor device (world st)))
        (calls st ++ [Call_get_device_descriptor device (desc device)])
        (stdout st) (stderr st) in
    if has_ids desc vendor product device then (Ret (Some device), st1)
    else find_device_scan vendor product rest st1.
Proof.
  cbn [find_device_scan]. unfold libusb_get_device_descriptor.
  rewrite bind_call, desc_stable. unfold has_ids.
  destruct (desc device) as [ds|]; [|reflexivity].
  destruct ((idVendor ds =? vendor) && (idProduct ds =? product)); reflexivity.
Qed.

Lemma find_device_scan_run vendor product (l : list libusb_device) :
  forall st : state W,
  let run := find_device_scan vendor product l st in
  exists new,
    fst run = Ret (find (has_ids desc vendor product) l) /\
    calls (snd run) = (calls st ++ new)%list /\
    opens new = [] /\
    stdout (snd run) = stdout st /\ stderr (snd run) = stderr st.
Proof.
  induction l as [|device rest IH]; intros st run; subst run.
  - exists []. cbn. rewrite app_nil_r. repeat split.
  - rewrite find_device_scan_cons. cbv zeta. cbn [find].
    destruct (has_ids desc vendor product device).
    + exists [Call_get_device_descriptor device (desc device)].
      cbn. repeat split.
    + match goal with |- context [find_device_scan vendor product rest ?s] =>
        destruct (IH s) as (new & Hret & Hcalls & Hopens & Hout & Herr) end.
      exists (Call_get_device_descriptor device (desc device) :: new).
      rewrite Hret, Hcalls, Hout, Herr. cbn [calls stdout stderr].
      rewrite <- app_assoc. repeat split. exact Hopens.
Qed.

Lemma find_device_eq vendor product (error : Z) (st : state W) :
  find_device vendor product error st =
    let st1 :=
      mk_state (snd (w_get_device_list (world st)))
        (calls st ++ [Call_get_device_list (Some devs)])
        (stdout st) (stderr st) in
    match find_device_scan vendor product devs st1 with
    | (Ret (Some d), st2) =>
        let r := fst (w_open d (world st2)) in
        let st3 :=
          mk_state (snd (w_open d (world st2))) (calls st2 ++ [Call_open d r])
            (stdout st2) (stderr st2) in
        (Ret (if r =? 0 then Some d else None, if r =? 0 then error else r),
         mk_state (w_free_device_list devs 1 (world st3))
           (calls st3 ++ [Call_free_device_list devs 1])
           (stdout st3) (stderr st3))
    | (Ret None, st2) =>
        (Ret (None, error),
         mk_state (w_free_device_list devs 1 (world st2))
           (calls st2 ++ [Call_free_device_list devs 1])
           (stdout st2) (stderr st2))
    | (Exited n, st2) => (Exited n, st2)
    | (Aborted, st2) => (Aborted, st2)
    end.
Proof.
  unfold find_device, libusb_get_device_list.
  rewrite bind_call, list_stable. cbv zeta.
  unfold bind at 1.
  destruct (find_device_scan vendor product devs _) as [[[d|]| |] st2];
    try reflexivity.
  unfold libusb_open. unfold bind at 1. rewrite bind_call.
  unfold libusb_free_device_list, call_void, call, bind, ret.
  cbn [fst snd world calls stdout stderr].
  destruct (fst (w_open d (world st2)) =? 0); reflexivity.
Qed.

(** One search: no device with the ids, or one attempt to open the first
    such device, after which only the list is freed. *)
Lemma find_device_run vendor product (error : Z) (st : state W) :
  let run := find_device vendor product error st in
  exists new,
    calls (snd run) = (calls st ++ new)%list /\
    stdout (snd run) = stdout st /\ stderr (snd run) = stderr st /\
    match find (has_ids desc vendor product) devs with
    | None => fst run = Ret (None, error) /\ opens new = []
    | Some d =>
        exists r before,
          fst run = Ret (if r =? 0 then Some d else None,
                         if r =? 0 then error else r) /\
          new = (before ++ [Call_open d r; Call_free_device_list devs 1])%list /\
          opens before = []
    end.
Proof.
  intros run. subst run. rewrite find_device_eq. cbv zeta.
  match goal with |- context [find_device_scan vendor product devs ?s] =>
    destruct (find_device_scan_run vendor product devs s)
      as (new & Hret & Hcalls & Hopens & Hout & Herr);
    destruct (find_device_scan vendor product devs s) as [o st2] end.
  cbn [fst snd calls stdout stderr] in Hret, Hcalls, Hout, Herr. subst o.
  destruct (find (has_ids desc vendor product) devs) as [d|].
  - exists (Call_get_device_list (Some devs) :: new
            ++ [Call_open d (fst (w_open d (world st2)));
                Call_free_device_list devs 1])%list.
    cbn [fst snd calls stdout stderr]. rewrite Hcalls, Hout, Herr.
    rewrite <- !app_assoc. repeat split.
    exists (fst (w_open d (world st2))),
      (Call_get_device_list (Some devs) :: new).
    repeat split. exact Hopens.
  - exists (Call_get_device_list (Some devs) :: new
            ++ [Call_free_device_list devs 1])%list.
    cbn [fst snd calls stdout stderr]. rewrite Hcalls, Hout, Herr.
    rewrite <- !app_assoc. repeat split.
    cbn. rewrite opens_app, Hopens. reflexivity.
Qed.

Lemma find_device_list_loop_run vendor (products : list Z) :
  forall st : state W,
  let run := find_device_list_loop vendor products 0 st in
  exists new,
    calls (snd run) = (calls st ++ new)%list /\
    stdout (snd run) = stdout st /\ stderr (snd run) = stderr st /\
    match discovery_target desc vendor products devs with
    | None => fst run = Ret (None, 0) /\ opens new = []
    | Some d =>
        exists r before,
          fst run = Ret (if r =? 0 then Some d else None, r) /\
          new = (before ++ [Call_open d r; Call_free_device_list devs 1])%list /\
          opens before = []
    end.
Proof.
  induction products as [|product rest IH]; intros st run; subst run.
  - exists []. cbn. rewrite app_nil_r. repeat split.
  - cbn [find_device_list_loop discovery_target]. unfold bind.
    destruct (find_device_run vendor product 0 st)
      as (new & Hcalls & Hout & Herr & Hfound).
    destruct (find_device vendor product 0 st) as [o st1].
    cbn [fst snd] in Hcalls, Hout, Herr, Hfound.
    destruct (find (has_ids desc vendor product) devs) as [d|].
    + destruct Hfound as (r & before & -> & -> & Hopens).
      exists (before ++ [Call_open d r; Call_free_device_list devs 1])%list.
      destruct (r =? 0) eqn:E.
      * apply Z.eqb_eq in E. subst r. cbn [fst snd ret Z.eqb].
        rewrite Hcalls, Hout, Herr.
        repeat split. exists 0, before. repeat split. exact Hopens.
      * rewrite E. cbn [fst snd ret].
        rewrite Hcalls, Hout, Herr.
        repeat split. exists r, before. rewrite E. repeat split. exact Hopens.
    + destruct Hfound as (-> & Hopens). cbn [Z.eqb].
      destruct (IH st1) as (new' & Hcalls' & Hout' & Herr' & Htarget).
      exists (new ++ new')%list.
      rewrite Hcalls', Hout', Herr', Hcalls, Hout, Herr, app_assoc.
      repeat split.
      destruct (discovery_target desc vendor rest devs) as [d|].
      * destruct Htarget as (r & before & Hret & -> & Hopens').
        exists r, (new ++ before)%list. rewrite app_assoc.
        repeat split; [exact Hret|]. now rewrite opens_app, Hopens, Hopens'.
      * destruct Htarget as (Hret & Hopens').
        split; [exact Hret|]. now rewrite opens_app, Hopens, Hopens'.
Qed.

(** Discovery as a whole: at most one device is opened, the target; when
    that fails its status is the error, and nothing else is tried. *)
Lemma find_device_list_run vendor (products : list Z) (st : state W) :
  let run := find_device_list vendor products 0 st in
  exists new,
    calls (snd run) = (calls st ++ new)%list /\
    stdout (snd run) = stdout st /\ stderr (snd run) = stderr st /\
    match discovery_target desc vendor products devs with
    | None => fst run = Ret (None, 0) /\ opens new = []
    | Some d =>
        exists r before,
          fst run = Ret (if r =? 0 then Some d else None, r) /\
          new = (before ++ [Call_open d r; Call_free_device_list devs 1])%list /\
          opens before = []
    end.
Proof.
  intros run. subst run. unfold find_device_list, bind.
  destruct (find_device_list_loop_run vendor products st)
    as (new & Hcalls & Hout & Herr & Htarget).
  destruct (find_device_list_loop vendor products 0 st) as [o st1].
  cbn [fst snd] in Hcalls, Hout, Herr, Htarget.
  exists new.
  destruct (discovery_target desc vendor products devs) as [d|].
  - destruct Htarget as (r & before & -> & -> & Hopens).
    destruct (r =? 0) eqn:E.
    + apply Z.eqb_eq in E. subst r. cbn [fst snd ret Z.eqb].
      repeat split; try assumption. exists 0, before. repeat split. exact Hopens.
    + cbn [fst snd ret].
      repeat split; try assumption. exists r, before. rewrite E.
      repeat split. exact Hopens.
  - destruct Htarget as (-> & Hopens). cbn [fst snd ret Z.eqb].
    repeat split; assumption.
Qed.

(** C5: on a bus that does not change, discovery looks for the product
    0x1369 first and for 0x136f only when no listed device has the first
    id, and tries to open one device only: the first listed device with the
    product id found.  When that open fails, discovery fails with the
    status of the open, the last library call but the release of the list:
    no other device and no other id is tried, and [main] reports that the
    device could not be opened.  When no listed device has an accepted id,
    nothing is opened, discovery returns no device and no error, and
    [main] reports [no suitable device found], a text no open failure is
    reported with. *)
Theorem discovery_first_match (st : state W) (opts : options)
    (new_config : sensei_config) :
  fst (w_init (world st)) = 0 ->
  let target :=
    discovery_target desc USB_VENDOR_STEELSERIES [0x1369; 0x136f] devs in
  let initialised :=
    mk_state (snd (w_init (world st))) (calls st ++ [Call_init 0])
      (stdout st) (stderr st) in
  let found := find_device_list USB_VENDOR_STEELSERIES products 0 initialised in
  let run := main_usb data_uninit config_uninit opts new_config st in
  (exists new,
     calls (snd found) = (calls initialised ++ new)%list /\
     stderr (snd found) = stderr st /\
     match target with
     | None => fst found = Ret (None, 0) /\ opens new = []
     | Some d =>
         exists r before,
           fst found = Ret (if r =? 0 then Some d else None, r) /\
           new = (before ++ [Call_open d r; Call_free_device_list devs 1])%list /\
           opens before = [] /\ opens new = [(d, r)]
     end) /\
  (fst found = Ret (None, 0) ->
   fst run = Ret 1 /\
   calls (snd run) = (calls (snd found) ++ [Call_exit])%list /\
   stderr (snd run) = stderr st ++ ("Error: no suitable device found" ++ LF)) /\
  (forall e, e <> 0 -> fst found = Ret (None, e) ->
   fst run = Ret 1 /\
   calls (snd run) = (calls (snd found) ++ [Call_exit])%list /\
   stderr (snd run) = stderr st ++ failure_line "couldn't open device" true e) /\
  (forall d e, fst found = Ret (Some d, e) ->
   run = main_driver data_uninit config_uninit d opts new_config 0 (snd found)) /\
  (forall e,
     "Error: no suitable device found" ++ LF
     <> failure_line "couldn't open device" true e).
Proof.
  intros Hinit target initialised found run.
  destruct (find_device_list_run USB_VENDOR_STEELSERIES products initialised)
    as (new & Hcalls & _ & Herr & Htarget).
  fold found in Hcalls, Herr, Htarget.
  assert (Hrun : run = _)
    by exact (main_usb_eq data_uninit config_uninit opts new_config st).
  cbv zeta in Hrun. rewrite Hinit in Hrun. cbn [Z.eqb negb] in Hrun.
  fold initialised in Hrun. fold found in Hrun.
  clearbody run found.
  split; [|split; [|split; [|split]]].
  - exists new. split; [exact Hcalls|]. split; [exact Herr|].
    change (discovery_target desc USB_VENDOR_STEELSERIES products devs)
      with target in Htarget.
    destruct target as [d|]; [|exact Htarget].
    destruct Htarget as (r & before & Hret & -> & Hopens).
    exists r, before. repeat split; try assumption.
    rewrite opens_app, Hopens. reflexivity.
  - intros Hret. destruct found as [o st2]. cbn [fst snd] in *. subst o.
    rewrite Hrun. cbn [Z.eqb negb]. rewrite ERROR_eq.
    cbn. rewrite Herr. repeat split.
  - intros e He Hret. destruct found as [o st2]. cbn [fst snd] in *. subst o.
    rewrite Hrun.
    replace (negb (e =? 0)) with true
      by (symmetry; apply negb_true_iff, Z.eqb_neq; assumption).
    rewrite ERROR_eq. cbn. rewrite Herr. repeat split.
  - intros d e Hret. destruct found as [o st2]. cbn [fst snd] in *. subst o.
    exact Hrun.
  - intros e H. cbn in H. discriminate H.
Qed.

End Discovery.

(** ** Option parsing *)

Lemma tolower_pos c : code c <> 0 -> 0 < tolower c.
Proof.
  intros H. pose proof (code_range c). unfold tolower.
  destruct (isupper c); lia.
Qed.

Lemma strcasecmp_zero (a : string) : forall b : string,
  no_nul a = true -> no_nul b = true ->
  (strcasecmp a b = 0 <-> lowercase a = lowercase b).
Proof.
  induction a as [|x a IH]; intros [|y b] Ha Hb; cbn [strcasecmp lowercase].
  - tauto.
  - cbn [no_nul] in Hb. apply andb_prop in Hb as [Hy _].
    apply negb_true_iff, Z.eqb_neq, tolower_pos in Hy.
    split; [lia | discriminate].
  - cbn [no_nul] in Ha. apply andb_prop in Ha as [Hx _].
    apply negb_true_iff, Z.eqb_neq, tolower_pos in Hx.
    split; [lia | discriminate].
  - cbn [no_nul] in Ha, Hb.
    apply andb_prop in Ha as [_ Ha]. apply andb_prop in Hb as [_ Hb].
    destruct (tolower x =? tolower y) eqn:E.
    + apply Z.eqb_eq in E. rewrite (IH b Ha Hb), E.
      split; [intros ->; reflexivity | now intros [= ->]].
    + apply Z.eqb_neq in E. split; [lia | intros [= H _]; contradiction].
Qed.

(** Splits off the two frame conditions of a step that leaves the log and
    the world as they are. *)
Ltac unchanged := split; [reflexivity | split; [reflexivity|]].

Section Parsing.

Context {W : Type}.
Variable PROJECT_NAME : string.
Variable PROJECT_VERSION : string.

(** The characters the [switch] of [parse_options] has a label for; on any
    other character the options are left as they are. *)
Lemma parse_option_cases argv0 (c : ascii) optarg (opts : options)
    (new_config : sensei_config) :
  (c = "h" \/ c = "V" \/ c = "s" \/ c = "S" \/ c = "m" \/ c = "p" \/
   c = "c" \/ c = "C" \/ c = "P" \/ c = "i" \/ c = "?")%char \/
  parse_option (W := W) PROJECT_NAME PROJECT_VERSION argv0 c optarg opts
    new_config = ret (opts, new_config).
Proof.
  destruct c as [b0 b1 b2 b3 b4 b5 b6 b7].
  destruct b0, b1, b2, b3, b4, b5, b6, b7;
    first [ right; reflexivity
          | left;
            repeat first [ left; reflexivity | reflexivity | right ] ].
Qed.

(** [encode_cpi] makes no library call, and a value it returns is a step
    from 1 to 63. *)
Lemma encode_cpi_range (str : string) (st : state W) :
  let '(o, st') := encode_cpi str st in
  calls st' = calls st /\ world st' = world st /\
  forall v, o = Ret v -> 1 <= v <= 63.
Proof.
  unfold encode_cpi. destruct (strtol10 str) as [cpi e].
  destruct (_ || _ || _).
  - cbn. unchanged. discriminate.
  - unfold SENSEI_CPI_MAX, SENSEI_CPI_STEP.
    set (q := cpi ÷ 90). destruct (q <? 1) eqn:E1.
    + cbn. unchanged. intros v [= <-]. lia.
    + apply Z.ltb_ge in E1. unfold bind at 1, ret at 1.
      destruct (q >? 63) eqn:E2.
      * cbn. unchanged. intros v [= <-]. lia.
      * rewrite Z.gtb_ltb in E2. apply Z.ltb_ge in E2.
        unfold bind, ret.
        unchanged. intros v [= <-]. rewrite int_of_long_small; lia.
Qed.

Lemma parse_option_inv argv0 (c : ascii) optarg (opts : options)
    (new_config : sensei_config) (st : state W) :
  cpi_in_range opts new_config ->
  let run := parse_option PROJECT_NAME PROJECT_VERSION argv0 c optarg opts
               new_config st in
  calls (snd run) = calls st /\ world (snd run) = world st /\
  forall opts' new_config',
    fst run = Ret (opts', new_config') -> cpi_in_range opts' new_config'.
Proof.
  intros [Hoff Hon] run. subst run.
  destruct (parse_option_cases argv0 c optarg opts new_config)
    as [Hc | ->];
    [|cbn; unchanged; intros ? ? [= <- <-]; split; assumption].
  destruct Hc as [-> | [-> | [-> | [-> | [-> | [-> | [-> | [-> | [-> | [-> | ->]]]]]]]]]].
  - cbn. unchanged. discriminate.
  - cbn. unchanged. discriminate.
  - cbn. unchanged. intros ? ? [= <- <-]. split; assumption.
  - cbn. unchanged. intros ? ? [= <- <-]. split; assumption.
  - cbn [parse_option].
    destruct (strcasecmp optarg "legacy" =? 0);
      [|destruct (strcasecmp optarg "normal" =? 0)];
      cbn; unchanged; try discriminate;
      intros ? ? [= <- <-]; split; assumption.
  - cbn [parse_option].
    destruct (strcmp optarg "1000" =? 0);
      [|destruct (strcmp optarg "500" =? 0);
        [|destruct (strcmp optarg "250" =? 0);
          [|destruct (strcmp optarg "125" =? 0)]]];
      cbn; unchanged; try discriminate;
      intros ? ? [= <- <-]; split; assumption.
  - cbn [parse_option]. unfold bind.
    pose proof (encode_cpi_range optarg st) as Henc.
    destruct (encode_cpi optarg st) as [[v| |] st1];
      destruct Henc as (Hcalls & Hworld & Hv);
      cbn [fst snd] in *;
      (split; [assumption | split; [assumption|]]); try discriminate.
    intros ? ? [= <- <-]. split; [exact Hoff|].
    intros _. cbn. now apply (Hv v).
  - cbn [parse_option]. unfold bind.
    pose proof (encode_cpi_range optarg st) as Henc.
    destruct (encode_cpi optarg st) as [[v| |] st1];
      destruct Henc as (Hcalls & Hworld & Hv);
      cbn [fst snd] in *;
      (split; [assumption | split; [assumption|]]); try discriminate.
    intros ? ? [= <- <-]. split; [|exact Hon].
    intros _. cbn. now apply (Hv v).
  - cbn [parse_option].
    destruct (strcasecmp optarg "steady" =? 0);
      [|destruct (strcasecmp optarg "slow" =? 0);
        [|destruct (strcasecmp optarg "medium" =? 0);
          [|destruct (strcasecmp optarg "fast" =? 0)]]];
      cbn; unchanged; try discriminate;
      intros ? ? [= <- <-]; split; assumption.
  - cbn [parse_option].
    destruct (strcasecmp optarg "off" =? 0);
      [|destruct (strcasecmp optarg "low" =? 0);
        [|destruct (strcasecmp optarg "medium" =? 0);
          [|destruct (strcasecmp optarg "high" =? 0)]]];
      cbn; unchanged; try discriminate;
      intros ? ? [= <- <-]; split; assumption.
  - cbn. unchanged. discriminate.
Qed.

Lemma parse_loop_inv argv0 (results : list (ascii * string)) :
  forall (opts : options) (new_config : sensei_config) (st : state W),
  cpi_in_range opts new_config ->
  let run := parse_loop PROJECT_NAME PROJECT_VERSION argv0 results opts
               new_config st in
  calls (snd run) = calls st /\ world (snd run) = world st /\
  forall opts' new_config',
    fst run = Ret (opts', new_config') -> cpi_in_range opts' new_config'.
Proof.
  induction results as [|[c optarg] results IH]; intros opts new_config st Hin run;
    subst run.
  - cbn. unchanged. now intros ? ? [= <- <-].
  - cbn [parse_loop]. unfold bind.
    destruct (parse_option_inv argv0 c optarg opts new_config st Hin)
      as (Hcalls & Hworld & Hnext).
    destruct (parse_option _ _ argv0 c optarg opts new_config st)
      as [[[opts1 config1]| |] st1];
      cbn [fst snd] in *;
      try (split; [assumption | split; [assumption | discriminate]]).
    destruct (IH opts1 config1 st1 (Hnext _ _ eq_refl)) as (Hc & Hw & Hn).
    rewrite Hc, Hw. split; [assumption | split; assumption].
Qed.

Lemma parse_loop_app argv0 (pre post : list (ascii * string)) :
  forall (opts : options) (new_config : sensei_config) (st : state W),
  parse_loop PROJECT_NAME PROJECT_VERSION argv0 (pre ++ post) opts new_config st =
    ('(opts, new_config) <-
       parse_loop PROJECT_NAME PROJECT_VERSION argv0 pre opts new_config ;;
     parse_loop PROJECT_NAME PROJECT_VERSION argv0 post opts new_config) st.
Proof.
  induction pre as [|[c optarg] pre IH]; intros opts new_config st.
  - reflexivity.
  - cbn [app parse_loop]. unfold bind.
    destruct (parse_option _ _ argv0 c optarg opts new_config st)
      as [[[opts1 config1]| |] st1]; try reflexivity.
    rewrite IH. reflexivity.
Qed.

End Parsing.

(** ** The mode option *)

Section ModeOption.

Context {W : Type} {U : UsbWorld W}.
Variable getopt_long :
  list string -> string -> list long_option -> list (ascii * string) * Z.
Variable PROJECT_NAME : string.
Variable PROJECT_VERSION : string.
Variable data_uninit : list Z.
Variable config_uninit : sensei_config.

Lemma parse_option_mode argv0 optarg (opts : options)
    (new_config : sensei_config) (st : state W) :
  parse_option PROJECT_NAME PROJECT_VERSION argv0 "m" optarg opts new_config st =
    if strcasecmp optarg "legacy" =? 0 then
      (Ret (with_set_mode opts, with_mode new_config (mode_value MODE_LEGACY)),
       st)
    else if strcasecmp optarg "normal" =? 0 then
      (Ret (with_set_mode opts, with_mode new_config (mode_value MODE_NORMAL)),
       st)
    else
      (Exited EXIT_FAILURE,
       mk_state (world st) (calls st) (stdout st)
         (stderr st ++ ("Error: invalid mode: " ++ optarg ++ LF))).
Proof.
  cbn [parse_option].
  destruct (strcasecmp optarg "legacy" =? 0); [now destruct st|].
  destruct (strcasecmp optarg "normal" =? 0); [now destruct st|].
  reflexivity.
Qed.

Lemma strcasecmp_eqb (a b : string) :
  no_nul a = true -> no_nul b = true ->
  (strcasecmp a b =? 0) = true <-> lowercase a = lowercase b.
Proof.
  intros Ha Hb. rewrite Z.eqb_eq. now apply strcasecmp_zero.
Qed.

(** [main] when the options up to a [--mode] are accepted and its argument
    is neither of the two mode names. *)
Lemma main_invalid_mode (argv : list string)
    (pre post : list (ascii * string)) (optind : Z) (optarg : string)
    (st st1 : state W) (opts1 : options) (config1 : sensei_config) :
  getopt_long argv "h" long_opts = ((pre ++ ("m"%char, optarg) :: post)%list, optind) ->
  List.length argv <> 1%nat ->
  no_nul optarg = true ->
  parse_loop PROJECT_NAME PROJECT_VERSION (hd "" argv) pre
    (mk_options false false false false false false false false)
    (mk_config 0 0 0 0 0 0) st = (Ret (opts1, config1), st1) ->
  lowercase optarg <> lowercase "legacy" ->
  lowercase optarg <> lowercase "normal" ->
  let run := main getopt_long PROJECT_NAME PROJECT_VERSION data_uninit
               config_uninit argv st in
  fst run = Exited EXIT_FAILURE /\
  calls (snd run) = calls st /\
  world (snd run) = world st /\
  stderr (snd run) = stderr st1 ++ ("Error: invalid mode: " ++ optarg ++ LF).
Proof.
  intros Hget Hargc Hnul Hpre Hlegacy Hnormal run.
  assert (Hframe : calls st1 = calls st /\ world st1 = world st).
  { pose proof (parse_loop_inv PROJECT_NAME PROJECT_VERSION (hd "" argv) pre
                  (mk_options false false false false false false false false)
                  (mk_config 0 0 0 0 0 0) st) as Hinv.
    cbv zeta in Hinv. rewrite Hpre in Hinv. cbn [fst snd] in Hinv.
    destruct Hinv as (Hc & Hw & _); [|now split].
    split; discriminate. }
  assert (Hrun : run =
    (Exited EXIT_FAILURE,
     mk_state (world st1) (calls st1) (stdout st1)
       (stderr st1 ++ ("Error: invalid mode: " ++ optarg ++ LF)))).
  { subst run. unfold main, parse_options.
    replace (Z.of_nat (List.length argv) =? 1) with false
      by (symmetry; apply Z.eqb_neq; lia).
    rewrite Hget. unfold bind at 1 2 3. unfold ret at 1.
    rewrite parse_loop_app. unfold bind at 1. rewrite Hpre.
    cbn [parse_loop]. unfold bind at 1. rewrite parse_option_mode.
    replace (strcasecmp optarg "legacy" =? 0) with false.
    2:{ symmetry. apply not_true_is_false. intros H.
        apply strcasecmp_eqb in H; [contradiction | assumption | reflexivity]. }
    replace (strcasecmp optarg "normal" =? 0) with false.
    2:{ symmetry. apply not_true_is_false. intros H.
        apply strcasecmp_eqb in H; [contradiction | assumption | reflexivity]. }
    reflexivity. }
  rewrite Hrun. cbn [fst snd calls world stderr].
  destruct Hframe as [-> ->]. repeat split.
Qed.

(** C10: [--mode] takes [legacy] and [normal], in any mix of upper and
    lower case, and nothing else: when the options before it are accepted,
    a [--mode] with any other argument makes the program print
    [Error: invalid mode: <argument>] and exit with the failure status
    without a single library call.  [compat], the argument of the command
    line the GUI builds for its legacy-mode button, is such an argument, so
    that command line fails whatever the state of the bus. *)
Theorem mode_option_accepts (argv : list string)
    (pre post : list (ascii * string)) (optind : Z) (optarg : string)
    (st st1 : state W) (opts1 : options) (config1 : sensei_config) :
  getopt_long argv "h" long_opts = ((pre ++ ("m"%char, optarg) :: post)%list, optind) ->
  List.length argv <> 1%nat ->
  no_nul optarg = true ->
  parse_loop PROJECT_NAME PROJECT_VERSION (hd "" argv) pre
    (mk_options false false false false false false false false)
    (mk_config 0 0 0 0 0 0) st = (Ret (opts1, config1), st1) ->
  let step := parse_option PROJECT_NAME PROJECT_VERSION (hd "" argv) "m" optarg
                opts1 config1 st1 in
  let run := main getopt_long PROJECT_NAME PROJECT_VERSION data_uninit
               config_uninit argv st in
  (lowercase optarg = lowercase "legacy" ->
   step = (Ret (with_set_mode opts1,
                with_mode config1 (mode_value MODE_LEGACY)), st1)) /\
  (lowercase optarg = lowercase "normal" ->
   step = (Ret (with_set_mode opts1,
                with_mode config1 (mode_value MODE_NORMAL)), st1)) /\
  (lowercase optarg <> lowercase "legacy" ->
   lowercase optarg <> lowercase "normal" ->
   fst step = Exited EXIT_FAILURE /\
   fst run = Exited EXIT_FAILURE /\
   calls (snd run) = calls st /\
   world (snd run) = world st /\
   stderr (snd run) = stderr st1 ++ ("Error: invalid mode: " ++ optarg ++ LF)) /\
  (forall (program : string) (st' : state W),
     getopt_long (argv_on_set_mode_legacy program) "h" long_opts =
       ([("m"%char, "compat")], 3) ->
     let run' := main getopt_long PROJECT_NAME PROJECT_VERSION data_uninit
                   config_uninit (argv_on_set_mode_legacy program) st' in
     fst run' = Exited EXIT_FAILURE /\
     calls (snd run') = calls st' /\
     world (snd run') = world st' /\
     stderr (snd run') = stderr st' ++ ("Error: invalid mode: compat" ++ LF)).
Proof.
  intros Hget Hargc Hnul Hpre step run. subst step.
  rewrite parse_option_mode.
  split; [|split; [|split]].
  - intros H. apply strcasecmp_eqb in H; [|assumption|reflexivity].
    now rewrite H.
  - intros H.
    destruct (strcasecmp optarg "legacy" =? 0) eqn:E.
    + apply strcasecmp_eqb in E; [|assumption|reflexivity].
      rewrite H in E. discriminate E.
    + apply strcasecmp_eqb in H; [|assumption|reflexivity]. now rewrite H.
  - intros Hlegacy Hnormal. split.
    + replace (strcasecmp optarg "legacy" =? 0) with false.
      2:{ symmetry. apply not_true_is_false. intros H.
          apply strcasecmp_eqb in H; [contradiction | assumption | reflexivity]. }
      replace (strcasecmp optarg "normal" =? 0) with false.
      2:{ symmetry. apply not_true_is_false. intros H.
          apply strcasecmp_eqb in H; [contradiction | assumption | reflexivity]. }
      reflexivity.
    + exact (main_invalid_mode argv pre post optind optarg st st1 opts1 config1
               Hget Hargc Hnul Hpre Hlegacy Hnormal).
  - intros program st' Hgui.
    apply (main_invalid_mode (argv_on_set_mode_legacy program) [] [] 3 "compat"
             st' st'
             (mk_options false false false false false false false false)
             (mk_config 0 0 0 0 0 0) Hgui);
      try reflexivity; discriminate.
Qed.

End ModeOption.

(** ** The whole run *)

Section WholeRun.

Context {W : Type} {U : UsbWorld W}.
Variable getopt_long :
  list string -> string -> list long_option -> list (ascii * string) * Z.
Variable PROJECT_NAME : string.
Variable PROJECT_VERSION : string.
Variable data_uninit : list Z.
Variable config_uninit : sensei_config.

(** [parse_options] makes no library call, and the CPI steps it leaves in
    the request are steps of the device. *)
Lemma parse_options_inv (argv : list string) (st : state W) :
  let run := parse_options getopt_long PROJECT_NAME PROJECT_VERSION argv
               (mk_options false false false false false false false false)
               (mk_config 0 0 0 0 0 0) st in
  calls (snd run) = calls st /\ world (snd run) = world st /\
  forall opts new_config,
    fst run = Ret (opts, new_config) -> cpi_in_range opts new_config.
Proof.
  intros run. destruct run as [o stf] eqn:Hrun. subst run.
  unfold parse_options in Hrun.
  destruct (Z.of_nat (List.length argv) =? 1).
  - cbn in Hrun. injection Hrun as <- <-. cbn. unchanged. discriminate.
  - unfold bind at 1, ret at 1 in Hrun.
    destruct (getopt_long argv "h" long_opts) as [results optind].
    unfold bind at 1 in Hrun.
    pose proof (parse_loop_inv PROJECT_NAME PROJECT_VERSION (hd "" argv) results
                  (mk_options false false false false false false false false)
                  (mk_config 0 0 0 0 0 0) st) as Hinv.
    cbv zeta in Hinv.
    destruct (parse_loop _ _ (hd "" argv) results _ _ st)
      as [[[opts1 config1]| |] st1];
      cbn [fst snd] in Hinv;
      (destruct Hinv as (Hc & Hw & Hn); [split; discriminate|]);
      try (injection Hrun as <- <-; cbn [fst snd];
           split; [assumption | split; [assumption | discriminate]]).
    destruct (optind <? Z.of_nat (List.length argv)).
    + cbn in Hrun. injection Hrun as <- <-. cbn [fst snd calls world].
      split; [assumption | split; [assumption | discriminate]].
    + cbn in Hrun. injection Hrun as <- <-. cbn [fst snd].
      split; [assumption | split; [assumption|]].
      intros ? ? [= <- <-]. now apply Hn.
Qed.

Lemma main_eq (argv : list string) (st : state W) :
  main getopt_long PROJECT_NAME PROJECT_VERSION data_uninit config_uninit argv st =
    match parse_options getopt_long PROJECT_NAME PROJECT_VERSION argv
            (mk_options false false false false false false false false)
            (mk_config 0 0 0 0 0 0) st with
    | (Ret (opts, new_config), st1) =>
        main_usb data_uninit config_uninit opts new_config st1
    | (Exited n, st1) => (Exited n, st1)
    | (Aborted, st1) => (Aborted, st1)
    end.
Proof.
  unfold main, bind.
  destruct (parse_options _ _ _ argv _ _ st) as [[[opts new_config]| |] st1];
    reflexivity.
Qed.

Lemma discovery_is_setup (l : list usb_call) :
  Forall is_discovery_call l -> Forall is_setup_call l.
Proof.
  apply Forall_impl. intros c Hc. destruct c; cbn in *; tauto.
Qed.

Lemma setup_not_claim (c : usb_call) (l : list usb_call) :
  Forall is_setup_call l -> In c l -> is_claim c -> False.
Proof.
  intros Hl Hin Hc. rewrite Forall_forall in Hl. specialize (Hl c Hin).
  destruct c; cbn in *; tauto.
Qed.

Lemma session_not_claim (c : usb_call) (l : list usb_call) :
  Forall is_session_call l -> In c l -> is_claim c -> False.
Proof.
  intros Hl Hin Hc. rewrite Forall_forall in Hl. specialize (Hl c Hin).
  destruct c; cbn in *; tauto.
Qed.

Lemma setup_not_detach (l : list usb_call) device iface r :
  Forall is_discovery_call l ->
  ~ In (Call_detach_kernel_driver device iface r) l.
Proof.
  intros Hl Hin. rewrite Forall_forall in Hl. exact (Hl _ Hin).
Qed.

(** The run of [main] from the call of [libusb_claim_interface] on, when
    the log holds a successful claim of [device]. *)
Lemma main_claim_teardown (st : state W) (d device : libusb_device_handle)
    (reattach_driver : bool) (opts : options) (new_config : sensei_config) :
  cpi_in_range opts new_config ->
  Forall is_setup_call (calls st) ->
  let run := main_claim data_uninit config_uninit d reattach_driver opts
               new_config 0 st in
  In (Call_claim_interface device SENSEI_CTL_IFACE 0) (calls (snd run)) ->
  exists ops rr ra,
    let op := failing_status ops in
    let op_failed := negb (op =? 0) in
    let release_failed := negb (rr =? 0) in
    let reattach_failed := reattach_driver && negb (ra =? 0) in
    d = device /\
    calls (snd run) =
      (calls st
       ++ [Call_claim_interface device SENSEI_CTL_IFACE 0]
       ++ ops
       ++ [Call_release_interface device SENSEI_CTL_IFACE rr]
       ++ (if reattach_driver
           then [Call_attach_kernel_driver device SENSEI_CTL_IFACE ra] else [])
       ++ [Call_close device; Call_exit])%list /\
    Forall is_control_transfer ops /\
    fst run =
      Ret (if op_failed || release_failed || reattach_failed then 1 else 0) /\
    stderr (snd run) =
      stderr st
      ++ failure_line "operation failed" op_failed op
      ++ failure_line "couldn't release interface" release_failed rr
      ++ failure_line "couldn't reattach kernel driver" reattach_failed ra.
Proof.
  intros [Hoff Hon] Hsetup run Hin.
  destruct (w_claim_interface d SENSEI_CTL_IFACE (world st)) as [rc w1] eqn:Hclaim.
  assert (Hrc : rc = 0 /\ d = device).
  { destruct (main_claim_run data_uninit config_uninit st d reattach_driver
                opts new_config 0 Hoff Hon)
      as (mid & ra & final & _ & Hcalls & Hmid & Hfail).
    fold run in Hcalls. rewrite Hclaim in Hcalls. cbn [fst] in Hcalls.
    rewrite Hcalls in Hin. rewrite !in_app_iff in Hin. cbn [In] in Hin.
    destruct Hin as [Hin | [[Heq | []] | [Hin | [Hin | Hin]]]].
    - exfalso. exact (setup_not_claim _ _ Hsetup Hin I).
    - injection Heq as -> ->. split; reflexivity.
    - exfalso. exact (session_not_claim _ _ Hmid Hin I).
    - exfalso. destruct reattach_driver; cbn in Hin;
        [destruct Hin as [Hin|[]]; discriminate Hin | destruct Hin].
    - exfalso. destruct Hin as [Hin|[Hin|[]]]; discriminate Hin. }
  destruct Hrc as [-> ->].
  destruct (main_claim_claimed data_uninit config_uninit st device
              reattach_driver opts new_config 0 w1 Hclaim Hoff Hon)
    as (op & ops & rr & ra & _ & Hret & Hcalls & Hops & Hop & Herr).
  fold run in Hret, Hcalls, Herr. subst op.
  exists ops, rr, ra. cbv zeta.
  repeat split; assumption.
Qed.

Lemma setup_then_no_claim (c : usb_call) (l tail : list usb_call) :
  is_claim c -> Forall is_setup_call l ->
  Forall (fun x => ~ is_claim x) tail -> ~ In c (l ++ tail).
Proof.
  intros Hc Hl Ht Hin. apply in_app_or in Hin. destruct Hin as [Hin|Hin].
  - exact (setup_not_claim _ _ Hl Hin Hc).
  - rewrite Forall_forall in Ht. exact (Ht c Hin Hc).
Qed.

(** C6 on the whole program, from an empty log: when the log of a run of
    [main] holds a successful claim of the interface, it ends with that
    claim, the transfers of the operation, one release, one reattach
    exactly when the driver was detached before the claim, the close and
    the exit of the library, whatever the statuses of the operation and of
    the teardown steps are.  The exit status is 1 as soon as the operation,
    the release or the reattach failed, 0 otherwise; each of these failures
    is reported on the standard error stream, in the order in which they
    happened. *)
Theorem main_teardown (argv : list string) (st : state W)
    (device : libusb_device_handle) :
  calls st = [] ->
  let run := main getopt_long PROJECT_NAME PROJECT_VERSION data_uninit
               config_uninit argv st in
  let parsed :=
    snd (parse_options getopt_long PROJECT_NAME PROJECT_VERSION argv
           (mk_options false false false false false false false false)
           (mk_config 0 0 0 0 0 0) st) in
  In (Call_claim_interface device SENSEI_CTL_IFACE 0) (calls (snd run)) ->
  exists before ops rr ra (reattach_driver : bool),
    let op := failing_status ops in
    let op_failed := negb (op =? 0) in
    let release_failed := negb (rr =? 0) in
    let reattach_failed := reattach_driver && negb (ra =? 0) in
    calls (snd run) =
      (before
       ++ [Call_claim_interface device SENSEI_CTL_IFACE 0]
       ++ ops
       ++ [Call_release_interface device SENSEI_CTL_IFACE rr]
       ++ (if reattach_driver
           then [Call_attach_kernel_driver device SENSEI_CTL_IFACE ra] else [])
       ++ [Call_close device; Call_exit])%list /\
    Forall is_setup_call before /\
    (reattach_driver = true <->
     In (Call_detach_kernel_driver device SENSEI_CTL_IFACE 0) before) /\
    Forall is_control_transfer ops /\
    fst run =
      Ret (if op_failed || release_failed || reattach_failed then 1 else 0) /\
    stderr (snd run) =
      stderr parsed
      ++ failure_line "operation failed" op_failed op
      ++ failure_line "couldn't release interface" release_failed rr
      ++ failure_line "couldn't reattach kernel driver" reattach_failed ra.
Proof.
  intros Hstart run parsed Hin.
  pose proof (parse_options_inv argv st) as Hp. cbv zeta in Hp.
  pose proof (main_eq argv st) as Hmain. fold run in Hmain.
  subst parsed. clearbody run.
  destruct (parse_options _ _ _ argv _ _ st) as [[[opts cfg]| |] st1];
    cbn [fst snd] in *; destruct Hp as (Hc & _ & Hrange);
    rewrite Hstart in Hc;
    try (subst run; cbn [fst snd] in Hin; rewrite Hc in Hin; destruct Hin).
  specialize (Hrange _ _ eq_refl).
  rewrite main_usb_eq in Hmain. cbv zeta in Hmain. rewrite Hc in Hmain.
  cbn [app] in Hmain.
  set (r0 := fst (w_init (world st1))) in Hmain.
  destruct (negb (r0 =? 0)).
  { subst run. cbn in Hin. destruct Hin as [Hin|[]]. discriminate Hin. }
  match type of Hmain with context [find_device_list ?v ?p 0 ?s] =>
    destruct (find_device_list_any v p s)
      as (new & Hcalls & Hall & _ & Herr & Hcase);
    destruct (find_device_list v p 0 s) as [o2 st2] end.
  cbn [fst snd calls stdout stderr app] in Hcalls, Herr, Hcase.
  assert (Hsetup : Forall is_setup_call (calls st2)).
  { rewrite Hcalls. constructor; [exact I|]. now apply discovery_is_setup. }
  assert (Hnodetach : forall i r,
            ~ In (Call_detach_kernel_driver device i r) (calls st2)).
  { intros i r. rewrite Hcalls. intros [Hd|Hd]; [discriminate Hd|].
    exact (setup_not_detach _ _ _ _ Hall Hd). }
  clear Hcalls Hall.
  destruct Hcase as [(-> & _) | [(d & e & He & -> & _) | (d & -> & _)]].
  - exfalso. subst run. cbn [Z.eqb negb] in Hin. rewrite ERROR_eq in Hin.
    cbn in Hin. revert Hin.
    apply setup_then_no_claim; [exact I | assumption|].
    repeat constructor; cbn; tauto.
  - exfalso. subst run.
    replace (negb (e =? 0)) with true in Hin
      by (symmetry; apply negb_true_iff, Z.eqb_neq; assumption).
    rewrite ERROR_eq in Hin. cbn in Hin. revert Hin.
    apply setup_then_no_claim; [exact I | assumption|].
    repeat constructor; cbn; tauto.
  - rewrite main_driver_eq in Hmain. cbv zeta in Hmain.
    set (q := fst (w_kernel_driver_active d SENSEI_CTL_IFACE (world st2)))
      in Hmain.
    set (queried := mk_state
           (snd (w_kernel_driver_active d SENSEI_CTL_IFACE (world st2)))
           (calls st2 ++ [Call_kernel_driver_active d SENSEI_CTL_IFACE q])
           (stdout st2) (stderr st2)) in Hmain.
    assert (Hsq : Forall is_setup_call (calls queried)).
    { apply Forall_app. split; [assumption|]. repeat constructor. }
    set (dd := fst (w_detach_kernel_driver d SENSEI_CTL_IFACE (world queried)))
      in Hmain.
    set (detached := mk_state
           (snd (w_detach_kernel_driver d SENSEI_CTL_IFACE (world queried)))
           (calls queried ++ [Call_detach_kernel_driver d SENSEI_CTL_IFACE dd])
           (stdout st2) (stderr st2)) in Hmain.
    assert (Hsd : Forall is_setup_call (calls detached)).
    { apply Forall_app. split; [assumption|]. repeat constructor. }
    destruct ((q =? 0) || (q =? LIBUSB_ERROR_NOT_SUPPORTED)).
    + subst run.
      destruct (main_claim_teardown queried d device false opts cfg Hrange Hsq
                  Hin) as (ops & rr & ra & -> & Hcalls & Hops & Hret & Herr').
      exists (calls queried), ops, rr, ra, false.
      split; [exact Hcalls|]. split; [exact Hsq|]. split.
      { split; [discriminate|]. intros Hd. exfalso.
        apply in_app_or in Hd. destruct Hd as [Hd|Hd].
        - exact (Hnodetach _ _ Hd).
        - destruct Hd as [Hd|[]]. discriminate Hd. }
      split; [exact Hops|]. split; [exact Hret|].
      rewrite Herr'. cbn [stderr queried]. now rewrite Herr.
    + destruct (q =? 1).
      * destruct (negb (dd =? 0)) eqn:Edd.
        -- exfalso. subst run. rewrite ERROR_eq in Hin.
           destruct (main_error_2_run d 1
                       (mk_state (world detached) (calls detached)
                          (stdout detached)
                          (stderr detached ++
                           ("Error: " ++
                            ("couldn't detach kernel driver: " ++
                             libusb_error_name dd ++ LF)))))
             as (_ & Hcalls & _).
           rewrite Hcalls in Hin. cbn [calls] in Hin. revert Hin.
           apply setup_then_no_claim; [exact I | assumption|].
           repeat constructor; cbn; tauto.
        -- apply negb_false_iff, Z.eqb_eq in Edd. subst run.
           destruct (main_claim_teardown detached d device true opts cfg
                       Hrange Hsd Hin)
             as (ops & rr & ra & -> & Hcalls & Hops & Hret & Herr').
           exists (calls detached), ops, rr, ra, true.
           split; [exact Hcalls|]. split; [exact Hsd|]. split.
           { split; [|reflexivity]. intros _. apply in_or_app. right.
             left. now rewrite Edd. }
           split; [exact Hops|]. split; [exact Hret|].
           rewrite Herr'. cbn [stderr detached]. now rewrite Herr.
      * exfalso. subst run. rewrite ERROR_eq in Hin.
        destruct (main_error_2_run d 1
                    (mk_state (world queried) (calls queried) (stdout queried)
                       (stderr queried ++
                        ("Error: " ++
                         ("coudn't detect kernel driver presence: " ++
                          libusb_error_name q ++ LF)))))
          as (_ & Hcalls & _).
        rewrite Hcalls in Hin. cbn [calls] in Hin. revert Hin.
        apply setup_then_no_claim; [exact I | assumption|].
        repeat constructor; cbn; tauto.
Qed.

End WholeRun.



(** * Concrete runs *)

Lemma report_bytes : Forall (fun b => 0 <= b < 256) Example.report.
Proof.
  apply Forall_forall. intros b Hb.
  assert (H : forallb (fun b => (0 <=? b) && (b <? 256)) Example.report = true)
    by reflexivity.
  rewrite forallb_forall in H. specialize (H b Hb).
  apply andb_prop in H as [H1 H2].
  apply Z.leb_le in H1. apply Z.ltb_lt in H2. lia.
Qed.

Lemma write_command_layout_witness :
  1 <= 20 <= 63 /\
  sends (sensei_set_cpi (U := Static.usb Example.healthy) 2%nat 20 true)
    Static.start 2%nat ([0x03; 2; 20] ++ repeat 0 29) 32.
Proof.
  assert (H : 1 <= 20 <= 63) by lia.
  split; [exact H|].
  destruct (write_command_layout (U := Static.usb Example.healthy)
              Static.start 2%nat MODE_NORMAL INTENSITY_LOW PULSATION_FAST
              POLLING_500_HZ 20 true H) as [(_ & _ & _ & Hc & _) _].
  exact Hc.
Defined.

Lemma apply_options_write_order_witness :
  show_config Example.full_request = false /\
  (set_cpi_off Example.full_request = true ->
   1 <= cpi_off Example.full_config <= 63) /\
  (set_cpi_on Example.full_request = true ->
   1 <= cpi_on Example.full_config <= 63) /\
  let run :=
    apply_options (U := Static.usb Example.polling_fails) []
      (mk_config 0 0 0 0 0 0) 2%nat Example.full_request Example.full_config
      Static.start in
  exists r done,
    fst run = Ret r /\ calls (snd run) = done /\
    write_run 2%nat
      (requested_writes Example.full_request Example.full_config) done r.
Proof.
  assert (H1 : show_config Example.full_request = false) by reflexivity.
  assert (H2 : set_cpi_off Example.full_request = true ->
               1 <= cpi_off Example.full_config <= 63)
    by (intros _; simpl; lia).
  assert (H3 : set_cpi_on Example.full_request = true ->
               1 <= cpi_on Example.full_config <= 63)
    by (intros _; simpl; lia).
  repeat (split; [assumption|]).
  destruct (apply_options_write_order (U := Static.usb Example.polling_fails)
              [] (mk_config 0 0 0 0 0 0) Static.start 2%nat
              Example.full_request Example.full_config H1 H2 H3)
    as (r & done & Hret & Hcalls & _ & _ & Hrun & _).
  exists r, done. repeat split; assumption.
Defined.

Lemma encode_cpi_clamps_witness :
  0 <= 6000 /\ 1 <= 10 <= 63 /\
  fst (encode_cpi (string_of_int 6000) Static.start) = Ret 63 /\
  encode_cpi (string_of_int (SENSEI_CPI_STEP * 10)) Static.start
    = (Ret 10, Static.start).
Proof.
  assert (H1 : 0 <= 6000) by lia.
  assert (H2 : 1 <= 10 <= 63) by lia.
  repeat (split; [assumption|]).
  destruct (encode_cpi_clamps Static.start 6000 10 H2) as (Hc & _ & Hs & _).
  split; [|exact Hs].
  specialize (Hc H1).
  destruct (encode_cpi (string_of_int 6000) Static.start) as [o st'].
  destruct Hc as (-> & _). reflexivity.
Defined.

(** C3 as stated fails: a real CPI supplied by the caller may be negative,
    and then the encoder does not return [c / 90] clamped to the steps 1 to
    63.  For [-900] the clamped quotient is the step 1, but [encode_cpi]
    returns no step and prints no notice: it prints
    [Error: invalid CPI value] and exits with the failure status; given
    [--cpi-on -900] the program ends there, before any library call. *)
Lemma negative_cpi_is_refused :
  let c := -900 in
  let run := encode_cpi (string_of_int c) Static.start in
  let program :=
    main (U := Static.usb Example.healthy) Getopt.getopt_long
      "sensei-raw-ctl" "1.0" [] (mk_config 0 0 0 0 0 0)
      ["sensei-raw-ctl"; "--cpi-on"; string_of_int c] Static.start in
  Z.max 1 (Z.min 63 (c / 90)) = 1 /\
  fst run <> Ret (Z.max 1 (Z.min 63 (c / 90))) /\
  run =
    (Exited EXIT_FAILURE,
     mk_state O [] "" ("Error: invalid CPI value" ++ LF)) /\
  program =
    (Exited EXIT_FAILURE,
     mk_state O [] "" ("Error: invalid CPI value" ++ LF)).
Proof.
  cbv zeta. split; [reflexivity|]. split.
  - intros H. vm_compute in H. discriminate H.
  - split; vm_compute; reflexivity.
Qed.

Lemma status_report_decode_witness :
  w_control_transfer (UsbWorld := Static.usb Example.healthy) 2%nat 0xa1
    USB_GET_REPORT 0x0300 0 [] 256 0 (world Static.start)
    = ((256, Example.report), 1%nat) /\
  0 <= 256 /\
  List.length Example.report = 256%nat /\
  Forall (fun b => 0 <= b < 256) Example.report /\
  exists decoded,
    fst (sensei_load_config (U := Static.usb Example.healthy) [] 2%nat
           (mk_config 0 0 0 0 0 0) Static.start) = Ret (0, decoded) /\
    intensity_of_int (intensity decoded) = Some INTENSITY_MEDIUM /\
    pulsation_of_int (pulsation decoded) = Some PULSATION_SLOW /\
    SENSEI_CPI_STEP * cpi_off decoded = 450 /\
    SENSEI_CPI_STEP * cpi_on decoded = 900 /\
    polling_of_int (polling decoded) = Some POLLING_1000_HZ.
Proof.
  assert (H1 : w_control_transfer (UsbWorld := Static.usb Example.healthy)
                 2%nat 0xa1 USB_GET_REPORT 0x0300 0 [] 256 0
                 (world Static.start) = ((256, Example.report), 1%nat))
    by reflexivity.
  assert (H2 : 0 <= 256) by lia.
  assert (H3 : List.length Example.report = 256%nat) by reflexivity.
  repeat (split; [assumption|]).
  split; [exact report_bytes|].
  destruct (status_report_decode (U := Static.usb Example.healthy) []
              Static.start 2%nat (mk_config 0 0 0 0 0 0) 256 Example.report
              1%nat H1 H2 H3 report_bytes)
    as (decoded & Hret & _ & _ & _ & Hex).
  exists decoded. split; [exact Hret|].
  destruct (Hex eq_refl eq_refl eq_refl eq_refl eq_refl)
    as (Hi & Hp & Hoff & Hon & Hf & _).
  repeat split; assumption.
Defined.

Lemma discovery_first_match_witness :
  (forall w, fst (w_get_device_list (UsbWorld := Static.usb Example.no_access) w)
             = Some [1; 2; 3]%nat) /\
  (forall d w,
     fst (w_get_device_descriptor (UsbWorld := Static.usb Example.no_access) d w)
     = Example.mouse d) /\
  fst (w_init (UsbWorld := Static.usb Example.no_access) (world Static.start)) = 0 /\
  discovery_target Example.mouse USB_VENDOR_STEELSERIES [0x1369; 0x136f]
    [1; 2; 3]%nat = Some 2%nat /\
  let run :=
    main_usb (U := Static.usb Example.no_access) [] (mk_config 0 0 0 0 0 0)
      Example.full_request Example.full_config Static.start in
  fst run = Ret 1 /\
  opens (calls (snd run)) = [(2%nat, -3)] /\
  stderr (snd run) = "Error: couldn't open device: LIBUSB_ERROR_ACCESS" ++ LF.
Proof.
  assert (H1 : forall w,
            fst (w_get_device_list (UsbWorld := Static.usb Example.no_access) w)
            = Some [1; 2; 3]%nat) by (intros w; reflexivity).
  assert (H2 : forall d w,
            fst (w_get_device_descriptor
                   (UsbWorld := Static.usb Example.no_access) d w)
            = Example.mouse d) by (intros d w; reflexivity).
  assert (H3 : fst (w_init (UsbWorld := Static.usb Example.no_access)
                      (world Static.start)) = 0) by reflexivity.
  repeat (split; [assumption|]).
  split; [reflexivity|].
  destruct (discovery_first_match (U := Static.usb Example.no_access) []
              (mk_config 0 0 0 0 0 0) [1; 2; 3]%nat Example.mouse H1 H2
              Static.start Example.full_request Example.full_config H3)
    as (_ & _ & Hfail & _).
  assert (He : -3 <> 0) by lia.
  destruct (Hfail (-3) He eq_refl) as (Hret & Hcalls & Herr).
  split; [exact Hret|]. split; [|exact Herr].
  rewrite Hcalls. reflexivity.
Defined.

(** C6 as stated fails: on a bus where the writes and the release of the
    interface fail, [--mode normal] reaches a successful claim, the
    operation fails first, and the later failure of the release is reported
    all the same: the standard error stream holds both reports, not the
    first alone. *)
Lemma later_teardown_failure_reported :
  let run :=
    main (U := Static.usb Example.write_and_release_fail) Getopt.getopt_long
      "sensei-raw-ctl" "1.0" [] (mk_config 0 0 0 0 0 0)
      Example.argv_mode_normal Static.start in
  exit_status (fst run) = Some 1 /\
  In (Call_claim_interface 2%nat SENSEI_CTL_IFACE 0) (calls (snd run)) /\
  commands_sent (calls (snd run)) = [[0x02; 0x00; 2] ++ repeat 0 29]%list /\
  stderr (snd run) =
    "Error: operation failed: LIBUSB_ERROR_IO" ++ LF
    ++ "Error: couldn't release interface: LIBUSB_ERROR_NO_DEVICE" ++ LF /\
  stderr (snd run) <> "Error: operation failed: LIBUSB_ERROR_IO" ++ LF.
Proof.
  cbv zeta. split; [reflexivity|]. split.
  - vm_compute. tauto.
  - split; [reflexivity|]. split; [reflexivity|].
    intros H. vm_compute in H. discriminate H.
Qed.

Lemma driver_query_outcomes_witness :
  (set_cpi_off Example.full_request = true ->
   1 <= cpi_off Example.full_config <= 63) /\
  (set_cpi_on Example.full_request = true ->
   1 <= cpi_on Example.full_config <= 63) /\
  let run :=
    main_driver (U := Static.usb Example.detach_fails) []
      (mk_config 0 0 0 0 0 0) 2%nat Example.full_request Example.full_config
      0 Static.start in
  fst run = Ret 1 /\
  calls (snd run) =
    [Call_kernel_driver_active 2%nat SENSEI_CTL_IFACE 1;
     Call_detach_kernel_driver 2%nat SENSEI_CTL_IFACE (-6);
     Call_close 2%nat; Call_exit] /\
  stderr (snd run) =
    "Error: couldn't detach kernel driver: LIBUSB_ERROR_BUSY" ++ LF.
Proof.
  assert (H2 : set_cpi_off Example.full_request = true ->
               1 <= cpi_off Example.full_config <= 63)
    by (intros _; simpl; lia).
  assert (H3 : set_cpi_on Example.full_request = true ->
               1 <= cpi_on Example.full_config <= 63)
    by (intros _; simpl; lia).
  repeat (split; [assumption|]).
  destruct (driver_query_outcomes (U := Static.usb Example.detach_fails) []
              (mk_config 0 0 0 0 0 0) Static.start 2%nat Example.full_request
              Example.full_config 0 H2 H3)
    as (_ & _ & Hfail & _).
  assert (Hd : -6 <> 0) by lia.
  exact (Hfail eq_refl Hd).
Defined.

Lemma show_prints_five_lines_witness :
  show_config Example.show_and_all = true /\
  w_control_transfer (UsbWorld := Static.usb Example.healthy) 2%nat 0xa1
    USB_GET_REPORT 0x0300 0 [] 256 0 (world Static.start)
    = ((256, Example.report), 1%nat) /\
  0 <= 256 /\
  let run :=
    apply_options (U := Static.usb Example.healthy) [] (mk_config 0 0 0 0 0 0)
      2%nat Example.show_and_all Example.full_config Static.start in
  fst run = Ret 0 /\
  stdout (snd run) =
    "Backlight intensity: medium" ++ LF ++
    "Backlight pulsation: slow" ++ LF ++
    "Speed in CPI (LED is off): 450" ++ LF ++
    "Speed in CPI (LED is on): 900" ++ LF ++
    "Polling frequency: 1000Hz" ++ LF.
Proof.
  assert (H1 : show_config Example.show_and_all = true) by reflexivity.
  assert (H2 : w_control_transfer (UsbWorld := Static.usb Example.healthy)
                 2%nat 0xa1 USB_GET_REPORT 0x0300 0 [] 256 0
                 (world Static.start) = ((256, Example.report), 1%nat))
    by reflexivity.
  assert (H3 : 0 <= 256) by lia.
  repeat (split; [assumption|]).
  destruct (show_prints_five_lines (U := Static.usb Example.healthy) []
              (mk_config 0 0 0 0 0 0) Static.start 2%nat Example.show_and_all
              Example.full_config 256 Example.report 1%nat H1 H2 H3)
    as (Hret & _ & Hout & _).
  split; [exact Hret|]. rewrite Hout. reflexivity.
Defined.

Lemma show_config_only_reads_witness :
  show_config Example.show_and_all = true /\
  let run :=
    apply_options (U := Static.usb Example.healthy) [] (mk_config 0 0 0 0 0 0)
      2%nat Example.show_and_all Example.full_config Static.start in
  calls (snd run) =
    [Call_control_transfer 2%nat 0xa1 USB_GET_REPORT 0x0300 0 [] 256 0 256
       Example.report] /\
  commands_sent (calls (snd run)) = [].
Proof.
  assert (H1 : show_config Example.show_and_all = true) by reflexivity.
  split; [assumption|].
  destruct (show_config_only_reads (U := Static.usb Example.healthy) []
              (mk_config 0 0 0 0 0 0) Static.start 2%nat Example.show_and_all
              Example.full_config H1)
    as (Hcalls & Hsent & _).
  split; [exact Hcalls | exact Hsent].
Defined.

Lemma mode_option_accepts_witness :
  Getopt.getopt_long (argv_on_set_mode_legacy "sensei-raw-ctl") "h" long_opts
    = (([] ++ [("m"%char, "compat")])%list, 3) /\
  List.length (argv_on_set_mode_legacy "sensei-raw-ctl") <> 1%nat /\
  no_nul "compat" = true /\
  let run :=
    main (U := Static.usb Example.healthy) Getopt.getopt_long
      "sensei-raw-ctl" "1.0" [] (mk_config 0 0 0 0 0 0)
      (argv_on_set_mode_legacy "sensei-raw-ctl") Static.start in
  fst run = Exited EXIT_FAILURE /\
  calls (snd run) = [] /\
  stderr (snd run) = "Error: invalid mode: compat" ++ LF.
Proof.
  assert (H1 : Getopt.getopt_long (argv_on_set_mode_legacy "sensei-raw-ctl")
                 "h" long_opts = (([] ++ [("m"%char, "compat")])%list, 3))
    by reflexivity.
  assert (H2 : List.length (argv_on_set_mode_legacy "sensei-raw-ctl") <> 1%nat)
    by (simpl; lia).
  assert (H3 : no_nul "compat" = true) by reflexivity.
  repeat (split; [assumption|]).
  destruct (mode_option_accepts (U := Static.usb Example.healthy)
              Getopt.getopt_long "sensei-raw-ctl" "1.0" []
              (mk_config 0 0 0 0 0 0)
              (argv_on_set_mode_legacy "sensei-raw-ctl") [] [] 3 "compat"
              Static.start Static.start
              (mk_options false false false false false false false false)
              (mk_config 0 0 0 0 0 0) H1 H2 H3 eq_refl)
    as (_ & _ & Hreject & _).
  assert (Hl : lowercase "compat" <> lowercase "legacy")
    by (intros H; discriminate H).
  assert (Hn : lowercase "compat" <> lowercase "normal")
    by (intros H; discriminate H).
  destruct (Hreject Hl Hn) as (_ & Hret & Hcalls & _ & Herr).
  repeat split; assumption.
Defined.

Lemma main_teardown_witness :
  calls Static.start = [] /\
  let run :=
    main (U := Static.usb Example.write_and_release_fail) Getopt.getopt_long
      "sensei-raw-ctl" "1.0" [] (mk_config 0 0 0 0 0 0)
      Example.argv_mode_normal Static.start in
  In (Call_claim_interface 2%nat SENSEI_CTL_IFACE 0) (calls (snd run)) /\
  exists before ops rr ra,
    calls (snd run) =
      (before ++ [Call_claim_interface 2%nat SENSEI_CTL_IFACE 0] ++ ops
       ++ [Call_release_interface 2%nat SENSEI_CTL_IFACE rr;
           Call_close 2%nat; Call_exit])%list /\
    Forall is_setup_call before /\
    ~ In (Call_detach_kernel_driver 2%nat SENSEI_CTL_IFACE 0) before /\
    fst run =
      Ret (if negb (failing_status ops =? 0) || negb (rr =? 0)
              || false && negb (ra =? 0)
           then 1 else 0).
Proof.
  assert (H1 : calls Static.start = []) by reflexivity.
  assert (H2 : In (Call_claim_interface 2%nat SENSEI_CTL_IFACE 0)
                 (calls (snd (main
                    (U := Static.usb Example.write_and_release_fail)
                    Getopt.getopt_long "sensei-raw-ctl" "1.0" []
                    (mk_config 0 0 0 0 0 0) Example.argv_mode_normal
                    Static.start))))
    by (vm_compute; tauto).
  split; [exact H1|]. cbv zeta. split; [exact H2|].
  destruct (main_teardown (U := Static.usb Example.write_and_release_fail)
              Getopt.getopt_long "sensei-raw-ctl" "1.0" []
              (mk_config 0 0 0 0 0 0) Example.argv_mode_normal Static.start
              2%nat H1 H2)
    as (before & ops & rr & ra & reattach & Hcalls & Hsetup & Hdet & _ & Hret & _).
  destruct reattach.
  - exfalso. destruct Hdet as [Hdet _]. specialize (Hdet eq_refl).
    assert (Hno : ~ In (Call_detach_kernel_driver 2%nat SENSEI_CTL_IFACE 0)
                    (calls (snd (main
                       (U := Static.usb Example.write_and_release_fail)
                       Getopt.getopt_long "sensei-raw-ctl" "1.0" []
                       (mk_config 0 0 0 0 0 0) Example.argv_mode_normal
                       Static.start))))
      by (vm_compute; intuition discriminate).
    apply Hno. rewrite Hcalls. apply in_or_app. left. exact Hdet.
  - exists before, ops, rr, ra. split; [exact Hcalls|]. split; [exact Hsetup|].
    split; [|exact Hret].
    intros Hd. destruct Hdet as [_ Hdet]. discriminate (Hdet Hd).
Defined.

(** The examples of the CPI quantization: 45 is raised to step 1 and 6000
    lowered to step 63, each with a notice; 900 is step 10; a negative
    number and a number followed by other text are refused. *)
Example encode_cpi_45 :
  encode_cpi "45" Static.start =
    (Ret 1, mk_state O [] "" ("Notice: CPI too low, using 90" ++ LF)).
Proof. vm_compute. reflexivity. Qed.

Example encode_cpi_6000 :
  encode_cpi "6000" Static.start =
    (Ret 63, mk_state O [] "" ("Notice: CPI too high, using 5670" ++ LF)).
Proof. vm_compute. reflexivity. Qed.

Example encode_cpi_900 : encode_cpi "900" Static.start = (Ret 10, Static.start).
Proof. vm_compute. reflexivity. Qed.

Example encode_cpi_negative :
  encode_cpi "-900" Static.start =
    (Exited EXIT_FAILURE, mk_state O [] "" ("Error: invalid CPI value" ++ LF)).
Proof. vm_compute. reflexivity. Qed.

Example encode_cpi_trailing :
  encode_cpi "900cpi" Static.start =
    (Exited EXIT_FAILURE, mk_state O [] "" ("Error: invalid CPI value" ++ LF)).
Proof. vm_compute. reflexivity. Qed.

(** The example of the write order: mode=normal, polling=500Hz and
    cpi_on=1800 are written as mode, polling, CPI-on, in whichever order the
    options are given. *)
Example write_order_any_option_order :
  let run args :=
    main (U := Static.usb Example.healthy) Getopt.getopt_long
      "sensei-raw-ctl" "1.0" [] (mk_config 0 0 0 0 0 0)
      ("sensei-raw-ctl" :: args) Static.start in
  let expected :=
    [[0x02; 0x00; 2] ++ repeat 0 29; [0x04; 0x00; 2] ++ repeat 0 29;
     [0x03; 2; 20] ++ repeat 0 29]%list in
  commands_sent (calls (snd
    (run ["--mode"; "normal"; "--polling"; "500"; "--cpi-on"; "1800"])))
    = expected /\
  commands_sent (calls (snd
    (run ["--cpi-on"; "1800"; "--polling"; "500"; "--mode"; "normal"])))
    = expected /\
  commands_sent (calls (snd
    (run ["--polling"; "500"; "--cpi-on"; "1800"; "--mode"; "NORMAL"])))
    = expected.
Proof. vm_compute. repeat split. Qed.

(** The command line the GUI builds for its normal-mode button succeeds. *)
Example gui_normal_button :
  let run :=
    main (U := Static.usb Example.healthy) Getopt.getopt_long
      "sensei-raw-ctl" "1.0" [] (mk_config 0 0 0 0 0 0)
      (argv_on_set_mode_normal "sensei-raw-ctl") Static.start in
  fst run = Ret 0 /\
  commands_sent (calls (snd run)) = [[0x02; 0x00; 2] ++ repeat 0 29]%list /\
  stderr (snd run) = "".
Proof. vm_compute. repeat split. Qed.
(** * Further properties *)

(** ** How the program ends *)

(** Splits [request_valid] for an updated request into its six parts and
    closes each from the parts for the request before the update. *)
Ltac valid_split :=
  unfold request_valid;
  repeat match goal with |- _ /\ _ => split end;
  try assumption;
  try (intros _; cbn; first [tauto | lia]).

Section Outcomes.

Context {W : Type}.
Variable PROJECT_NAME : string.
Variable PROJECT_VERSION : string.

(** [encode_cpi] returns a step of the device or exits with the failure
    status. *)
Lemma encode_cpi_outcome (str : string) (st : state W) :
  match fst (encode_cpi str st) with
  | Ret v => 1 <= v <= 63
  | Exited n => n = EXIT_FAILURE
  | Aborted => False
  end.
Proof.
  pose proof (encode_cpi_range str st) as Hr.
  unfold encode_cpi in *. destruct (strtol10 str) as [cpi e].
  destruct (_ || _ || _).
  - reflexivity.
  - destruct (cpi ÷ SENSEI_CPI_STEP <? 1).
    + cbn in *. lia.
    + unfold bind at 1, ret at 1. unfold bind at 1, ret at 1 in Hr.
      destruct (cpi ÷ SENSEI_CPI_STEP >? SENSEI_CPI_MAX).
      * cbn in *. unfold SENSEI_CPI_MAX. lia.
      * cbn in *. destruct Hr as (_ & _ & Hr). now apply Hr.
Qed.

Lemma parse_option_valid argv0 (c : ascii) optarg (opts : options)
    (new_config : sensei_config) (st : state W) :
  request_valid opts new_config ->
  match fst (parse_option PROJECT_NAME PROJECT_VERSION argv0 c optarg opts
               new_config st) with
  | Ret (opts', new_config') => request_valid opts' new_config'
  | Exited n => n = EXIT_SUCCESS \/ n = EXIT_FAILURE
  | Aborted => False
  end.
Proof.
  intros Hv.
  destruct (parse_option_cases PROJECT_NAME PROJECT_VERSION argv0 c optarg opts
              new_config (W := W)) as [Hc | ->]; [|exact Hv].
  destruct Hv as (Hm & Hp & Hi & Hu & Hoff & Hon).
  destruct Hc as [-> | [-> | [-> | [-> | [-> | [-> | [-> | [-> | [-> | [-> | ->]]]]]]]]]].
  - cbn. now left.
  - cbn. now left.
  - cbn. valid_split.
  - cbn. valid_split.
  - cbn [parse_option].
    destruct (strcasecmp optarg "legacy" =? 0);
      [|destruct (strcasecmp optarg "normal" =? 0)];
      cbn; try (now right); valid_split.
  - cbn [parse_option].
    destruct (strcmp optarg "1000" =? 0);
      [|destruct (strcmp optarg "500" =? 0);
        [|destruct (strcmp optarg "250" =? 0);
          [|destruct (strcmp optarg "125" =? 0)]]];
      cbn; try (now right); valid_split.
  - cbn [parse_option]. unfold bind.
    pose proof (encode_cpi_outcome optarg st) as Henc.
    destruct (encode_cpi optarg st) as [[v| |] st1]; cbn [fst] in *.
    + cbn [ret fst]. valid_split.
    + now right.
    + assumption.
  - cbn [parse_option]. unfold bind.
    pose proof (encode_cpi_outcome optarg st) as Henc.
    destruct (encode_cpi optarg st) as [[v| |] st1]; cbn [fst] in *.
    + cbn [ret fst]. valid_split.
    + now right.
    + assumption.
  - cbn [parse_option].
    destruct (strcasecmp optarg "steady" =? 0);
      [|destruct (strcasecmp optarg "slow" =? 0);
        [|destruct (strcasecmp optarg "medium" =? 0);
          [|destruct (strcasecmp optarg "fast" =? 0)]]];
      cbn; try (now right); valid_split.
  - cbn [parse_option].
    destruct (strcasecmp optarg "off" =? 0);
      [|destruct (strcasecmp optarg "low" =? 0);
        [|destruct (strcasecmp optarg "medium" =? 0);
          [|destruct (strcasecmp optarg "high" =? 0)]]];
      cbn; try (now right); valid_split.
  - cbn. now right.
Qed.

Lemma parse_loop_valid argv0 (results : list (ascii * string)) :
  forall (opts : options) (new_config : sensei_config) (st : state W),
  request_valid opts new_config ->
  match fst (parse_loop PROJECT_NAME PROJECT_VERSION argv0 results opts
               new_config st) with
  | Ret (opts', new_config') => request_valid opts' new_config'
  | Exited n => n = EXIT_SUCCESS \/ n = EXIT_FAILURE
  | Aborted => False
  end.
Proof.
  induction results as [|[c optarg] results IH]; intros opts new_config st Hv.
  - exact Hv.
  - cbn [parse_loop]. unfold bind.
    pose proof (parse_option_valid argv0 c optarg opts new_config st Hv) as H1.
    destruct (parse_option _ _ argv0 c optarg opts new_config st)
      as [[[opts1 config1]| |] st1]; cbn [fst] in *; try assumption.
    now apply IH.
Qed.

End Outcomes.

(** ** The calls of a whole run *)

Lemma write_run_calls device cmds done r :
  write_run device cmds done r ->
  Forall (fun c => uses_handle device c /\
                   exists cmd, In cmd cmds /\ command_of c = Some cmd) done.
Proof.
  induction 1 as [|cmd cmds r data' Hr|cmd cmds r data' done res Hr Hrun IH].
  - constructor.
  - constructor; [|constructor].
    split; [reflexivity|]. exists cmd. split; [now left | reflexivity].
  - constructor.
    + split; [reflexivity|]. exists cmd. split; [now left | reflexivity].
    + eapply Forall_impl; [|exact IH].
      intros c (Hh & cmd' & Hin & Hc). split; [assumption|].
      exists cmd'. split; [now right | assumption].
Qed.

Lemma requested_writes_well_formed (opts : options) (new_config : sensei_config) :
  request_valid opts new_config ->
  Forall (fun cmd => well_formed_command cmd = true)
    (requested_writes opts new_config).
Proof.
  intros (Hm & Hp & Hi & Hu & Hoff & Hon). unfold requested_writes.
  repeat (apply Forall_app; split).
  - destruct (set_mode opts); [|constructor].
    specialize (Hm eq_refl). cbn in Hm.
    constructor; [|constructor].
    destruct Hm as [<- | [<- | []]]; reflexivity.
  - destruct (set_polling opts); [|constructor].
    specialize (Hp eq_refl). cbn in Hp.
    constructor; [|constructor].
    destruct Hp as [<- | [<- | [<- | [<- | []]]]]; reflexivity.
  - destruct (set_intensity opts); [|constructor].
    specialize (Hi eq_refl). cbn in Hi.
    constructor; [|constructor].
    destruct Hi as [<- | [<- | [<- | [<- | []]]]]; reflexivity.
  - destruct (set_pulsation opts); [|constructor].
    specialize (Hu eq_refl). cbn in Hu.
    constructor; [|constructor].
    destruct Hu as [<- | [<- | [<- | [<- | []]]]]; reflexivity.
  - destruct (set_cpi_off opts); [|constructor].
    specialize (Hoff eq_refl).
    constructor; [|constructor].
    unfold uchar_array, uchar. cbn [map List.length Nat.sub app].
    rewrite (Z.mod_small (cpi_off new_config)) by lia.
    cbn. unfold SENSEI_CPI_MIN, SENSEI_CPI_MAX.
    replace (1 <=? cpi_off new_config) with true by (symmetry; apply Z.leb_le; lia).
    replace (cpi_off new_config <=? 63) with true
      by (symmetry; apply Z.leb_le; lia).
    reflexivity.
  - destruct (set_cpi_on opts); [|constructor].
    specialize (Hon eq_refl).
    constructor; [|constructor].
    unfold uchar_array, uchar. cbn [map List.length Nat.sub app].
    rewrite (Z.mod_small (cpi_on new_config)) by lia.
    cbn. unfold SENSEI_CPI_MIN, SENSEI_CPI_MAX.
    replace (1 <=? cpi_on new_config) with true by (symmetry; apply Z.leb_le; lia).
    replace (cpi_on new_config <=? 63) with true
      by (symmetry; apply Z.leb_le; lia).
    reflexivity.
  - destruct (save_to_rom opts); [|constructor].
    constructor; [reflexivity | constructor].
Qed.

Section Runs.

Context {W : Type} {U : UsbWorld W}.
Variable getopt_long :
  list string -> string -> list long_option -> list (ascii * string) * Z.
Variable PROJECT_NAME : string.
Variable PROJECT_VERSION : string.
Variable data_uninit : list Z.
Variable config_uninit : sensei_config.

(** With a valid request, [apply_options] returns, and its calls are
    transfers on the device that send commands of the protocol only. *)
Lemma apply_options_session (device : libusb_device_handle) (opts : options)
    (new_config : sensei_config) (st : state W) :
  request_valid opts new_config ->
  let run := apply_options data_uninit config_uninit device opts new_config st in
  exists op ops,
    fst run = Ret op /\
    calls (snd run) = (calls st ++ ops)%list /\
    stderr (snd run) = stderr st /\
    Forall (uses_handle device) ops /\
    Forall sends_well_formed ops.
Proof.
  intros Hv run. subst run.
  destruct (show_config opts) eqn:Hshow.
  - rewrite apply_options_show by assumption.
    destruct (w_control_transfer _ _ _ _ _ _ _ _ _) as [[r data] w'].
    cbv zeta. destruct (r <? 0).
    + exists r. eexists. cbn [fst snd calls stderr].
      repeat split; repeat constructor.
    + exists 0. eexists. cbn [fst snd calls stderr].
      repeat split; repeat constructor.
  - pose proof Hv as (_ & _ & _ & _ & Hoff & Hon).
    destruct (apply_options_writes data_uninit config_uninit st device
                opts new_config Hshow Hoff Hon)
      as (r & done & Hret & Hcalls & _ & Herr & Hrun & _).
    exists r, done. repeat (split; [assumption|]).
    pose proof (write_run_calls _ _ _ _ Hrun) as Hc.
    pose proof (requested_writes_well_formed opts new_config Hv) as Hw.
    rewrite Forall_forall in Hw.
    split; (eapply Forall_impl; [|exact Hc]); intros c (Hh & cmd & Hin & Hcmd).
    + assumption.
    + unfold sends_well_formed. rewrite Hcmd. now apply Hw.
Qed.

Lemma main_claim_session (st : state W) (device : libusb_device_handle)
    (reattach_driver : bool) (opts : options) (new_config : sensei_config)
    (status : Z) :
  request_valid opts new_config ->
  status = 0 \/ status = 1 ->
  let run := main_claim data_uninit config_uninit device reattach_driver opts
               new_config status st in
  exists body final,
    fst run = Ret final /\ (final = 0 \/ final = 1) /\
    calls (snd run) =
      (calls st ++ body ++ [Call_close device; Call_exit])%list /\
    Forall (uses_handle device) body /\
    Forall sends_well_formed body.
Proof.
  intros Hv Hstatus run. subst run.
  unfold main_claim, libusb_claim_interface. rewrite bind_call.
  set (rc := fst (w_claim_interface device SENSEI_CTL_IFACE (world st))).
  set (claimed := mk_state _ _ _ _).
  destruct (negb (rc =? 0)).
  - rewrite ERROR_eq.
    match goal with |- context [main_error_3 device reattach_driver 1 ?s] =>
      destruct (main_error_3_run device reattach_driver 1 s)
        as (ra & Hret & Hcalls & _ & _) end.
    exists ([Call_claim_interface device SENSEI_CTL_IFACE rc]
            ++ (if reattach_driver
                then [Call_attach_kernel_driver device SENSEI_CTL_IFACE ra]
                else []))%list.
    eexists. rewrite Hret, Hcalls. split; [reflexivity|].
    split; [destruct (reattach_driver && negb (ra =? 0)); tauto|].
    subst claimed. cbn [calls]. rewrite <- !app_assoc.
    split; [reflexivity|].
    split; destruct reattach_driver; repeat constructor.
  - destruct (apply_options_session device opts new_config claimed Hv)
      as (op & ops & Hret & Hcalls & _ & Hops & Hwf).
    unfold bind.
    destruct (apply_options data_uninit config_uninit device opts new_config
                claimed) as [o st2].
    cbn [fst snd] in Hret, Hcalls. subst o.
    assert (Hfin : forall s (st3 : state W),
      s = 0 \/ s = 1 -> calls st3 = calls st2 ->
      exists body final,
        fst (main_error_4 device reattach_driver s st3) = Ret final /\
        (final = 0 \/ final = 1) /\
        calls (snd (main_error_4 device reattach_driver s st3)) =
          (calls st ++ body ++ [Call_close device; Call_exit])%list /\
        Forall (uses_handle device) body /\ Forall sends_well_formed body).
    { intros s st3 Hs Hst3.
      destruct (main_error_4_run device reattach_driver s st3)
        as (rr & ra & Hret4 & Hcalls4 & _ & _).
      exists ([Call_claim_interface device SENSEI_CTL_IFACE rc] ++ ops
              ++ [Call_release_interface device SENSEI_CTL_IFACE rr]
              ++ (if reattach_driver
                  then [Call_attach_kernel_driver device SENSEI_CTL_IFACE ra]
                  else []))%list.
      eexists. rewrite Hret4, Hcalls4, Hst3, Hcalls.
      split; [reflexivity|].
      split; [destruct (_ || _); tauto|].
      subst claimed. cbn [calls]. rewrite <- !app_assoc.
      split; [reflexivity|].
      split.
      - constructor; [reflexivity|]. apply Forall_app. split; [assumption|].
        destruct reattach_driver; repeat constructor.
      - constructor; [exact I|]. apply Forall_app. split; [assumption|].
        destruct reattach_driver; repeat constructor. }
    destruct (negb (op =? 0)).
    + rewrite ERROR_eq. apply Hfin; [now right | reflexivity].
    + apply Hfin; [assumption | reflexivity].
Qed.

Lemma main_driver_session (st : state W) (device : libusb_device_handle)
    (opts : options) (new_config : sensei_config) :
  request_valid opts new_config ->
  let run := main_driver data_uninit config_uninit device opts new_config 0 st in
  exists body final,
    fst run = Ret final /\ (final = 0 \/ final = 1) /\
    calls (snd run) =
      (calls st ++ body ++ [Call_close device; Call_exit])%list /\
    Forall (uses_handle device) body /\
    Forall sends_well_formed body.
Proof.
  intros Hv run. subst run. rewrite main_driver_eq. cbv zeta.
  set (q := fst (w_kernel_driver_active device SENSEI_CTL_IFACE (world st))).
  set (queried := mk_state
         (snd (w_kernel_driver_active device SENSEI_CTL_IFACE (world st)))
         (calls st ++ [Call_kernel_driver_active device SENSEI_CTL_IFACE q])
         (stdout st) (stderr st)).
  set (dd := fst (w_detach_kernel_driver device SENSEI_CTL_IFACE (world queried))).
  set (detached := mk_state
         (snd (w_detach_kernel_driver device SENSEI_CTL_IFACE (world queried)))
         (calls queried ++ [Call_detach_kernel_driver device SENSEI_CTL_IFACE dd])
         (stdout st) (stderr st)).
  destruct ((q =? 0) || (q =? LIBUSB_ERROR_NOT_SUPPORTED)).
  - destruct (main_claim_session queried device false opts new_config 0 Hv
                (or_introl eq_refl))
      as (body & final & Hret & Hfinal & Hcalls & Hbody & Hwf).
    exists (Call_kernel_driver_active device SENSEI_CTL_IFACE q :: body), final.
    rewrite Hret, Hcalls. subst queried. cbn [calls].
    rewrite <- !app_assoc.
    repeat split; try assumption; constructor; try assumption; reflexivity.
  - destruct (q =? 1).
    + destruct (negb (dd =? 0)).
      * rewrite ERROR_eq.
        match goal with |- context [main_error_2 device 1 ?s] =>
          destruct (main_error_2_run device 1 s) as (Hret & Hcalls & _) end.
        exists [Call_kernel_driver_active device SENSEI_CTL_IFACE q;
                Call_detach_kernel_driver device SENSEI_CTL_IFACE dd], 1.
        rewrite Hret, Hcalls. subst detached queried. cbn [calls].
        rewrite <- !app_assoc.
        repeat split; try (now right); repeat constructor.
      * destruct (main_claim_session detached device true opts new_config 0 Hv
                    (or_introl eq_refl))
          as (body & final & Hret & Hfinal & Hcalls & Hbody & Hwf).
        exists (Call_kernel_driver_active device SENSEI_CTL_IFACE q
                :: Call_detach_kernel_driver device SENSEI_CTL_IFACE dd :: body),
          final.
        rewrite Hret, Hcalls. subst detached queried. cbn [calls].
        rewrite <- !app_assoc.
        repeat split; try assumption;
          repeat (constructor; try assumption; try reflexivity).
    + rewrite ERROR_eq.
      match goal with |- context [main_error_2 device 1 ?s] =>
        destruct (main_error_2_run device 1 s) as (Hret & Hcalls & _) end.
      exists [Call_kernel_driver_active device SENSEI_CTL_IFACE q], 1.
      rewrite Hret, Hcalls. subst queried. cbn [calls].
      rewrite <- !app_assoc.
      repeat split; try (now right); repeat constructor.
Qed.

Lemma main_error_1_run (status : Z) (st : state W) :
  main_error_1 status st =
    (Ret status,
     mk_state (w_exit (world st)) (calls st ++ [Call_exit]) (stdout st)
       (stderr st)).
Proof.
  unfold main_error_1, main_error_0, libusb_exit, call_void.
  rewrite bind_call. reflexivity.
Qed.

(** [main] after the options are parsed: it returns 0 or 1, and its calls
    are the initialisation and, when that succeeds, the discovery, the
    calls on the device the discovery opened up to its close, and the exit
    of the library. *)
Lemma main_usb_session (opts : options) (new_config : sensei_config)
    (st : state W) :
  request_valid opts new_config ->
  let run := main_usb data_uninit config_uninit opts new_config st in
  exists final,
    fst run = Ret final /\ (final = 0 \/ final = 1) /\
    ((exists r, r <> 0 /\ final = 1 /\
        calls (snd run) = (calls st ++ [Call_init r])%list) \/
     (exists disc,
        final = 1 /\ opened disc = [] /\ Forall is_discovery_call disc /\
        calls (snd run) =
          (calls st ++ Call_init 0 :: disc ++ [Call_exit])%list) \/
     (exists disc d body,
        opens disc = [(d, 0)] /\ Forall is_discovery_call disc /\
        Forall (uses_handle d) body /\ Forall sends_well_formed body /\
        calls (snd run) =
          (calls st ++ Call_init 0 :: disc ++ body
           ++ [Call_close d; Call_exit])%list)).
Proof.
  intros Hv run. subst run. rewrite main_usb_eq. cbv zeta.
  set (r0 := fst (w_init (world st))).
  destruct (negb (r0 =? 0)) eqn:E0.
  { apply negb_true_iff, Z.eqb_neq in E0.
    exists 1. rewrite ERROR_eq. cbn [main_error_0 ret fst snd calls].
    split; [reflexivity|]. split; [now right|]. left.
    exists r0. repeat split. assumption. }
  apply negb_false_iff, Z.eqb_eq in E0. rewrite E0.
  match goal with |- context [find_device_list ?v ?p 0 ?s] =>
    destruct (find_device_list_any v p s)
      as (disc & Hcalls & Hall & _ & _ & Hcase);
    destruct (find_device_list v p 0 s) as [o2 st2] end.
  cbn [fst snd calls] in Hcalls, Hcase.
  destruct Hcase as [(-> & Ho) | [(d & e & He & -> & Ho) | (d & -> & Ho)]].
  - exists 1. cbn [Z.eqb negb]. rewrite ERROR_eq, main_error_1_run.
    cbn [fst snd calls world stdout stderr].
    split; [reflexivity|]. split; [now right|]. right. left.
    exists disc. rewrite Hcalls, <- !app_assoc. unfold opened. rewrite Ho.
    repeat split. assumption.
  - exists 1.
    replace (negb (e =? 0)) with true
      by (symmetry; apply negb_true_iff, Z.eqb_neq; assumption).
    rewrite ERROR_eq, main_error_1_run.
    cbn [fst snd calls world stdout stderr].
    split; [reflexivity|]. split; [now right|]. right. left.
    exists disc. rewrite Hcalls, <- !app_assoc. unfold opened. rewrite Ho.
    cbn [filter snd map].
    replace (e =? 0) with false by (symmetry; apply Z.eqb_neq; assumption).
    repeat split. assumption.
  - destruct (main_driver_session st2 d opts new_config Hv)
      as (body & final & Hret & Hfinal & Hcalls2 & Hbody & Hwf).
    exists final. split; [assumption|]. split; [assumption|]. right. right.
    exists disc, d, body. rewrite Hcalls2, Hcalls, <- !app_assoc.
    repeat split; assumption.
Qed.

Lemma request_valid_initial :
  request_valid (mk_options false false false false false false false false)
    (mk_config 0 0 0 0 0 0).
Proof. repeat split; discriminate. Qed.

(** [parse_options] returns a valid request or exits with status 0 or 1; it
    makes no library call. *)
Lemma parse_options_valid (argv : list string) (st : state W) :
  let run := parse_options getopt_long PROJECT_NAME PROJECT_VERSION argv
               (mk_options false false false false false false false false)
               (mk_config 0 0 0 0 0 0) st in
  calls (snd run) = calls st /\ world (snd run) = world st /\
  match fst run with
  | Ret (opts, new_config) => request_valid opts new_config
  | Exited n => n = EXIT_SUCCESS \/ n = EXIT_FAILURE
  | Aborted => False
  end.
Proof.
  intros run.
  destruct (parse_options_inv getopt_long PROJECT_NAME PROJECT_VERSION argv st)
    as (Hc & Hw & _). fold run in Hc, Hw.
  split; [assumption|]. split; [assumption|]. clear Hc Hw.
  subst run. unfold parse_options.
  destruct (Z.of_nat (List.length argv) =? 1).
  - cbn. now right.
  - unfold bind at 1, ret at 1.
    destruct (getopt_long argv "h" long_opts) as [results optind].
    unfold bind at 1.
    pose proof (parse_loop_valid PROJECT_NAME PROJECT_VERSION (hd "" argv)
                  results _ _ st request_valid_initial) as Hl.
    destruct (parse_loop _ _ (hd "" argv) results _ _ st)
      as [[[opts1 config1]| |] st1]; cbn [fst] in *; try assumption.
    destruct (optind <? Z.of_nat (List.length argv)).
    + cbn. now right.
    + cbn. assumption.
Qed.

Lemma discovery_not_closed (l : list usb_call) :
  Forall is_discovery_call l -> closed l = [].
Proof.
  induction 1 as [|c l Hc _ IH]; [reflexivity|].
  destruct c; cbn in *; try contradiction; assumption.
Qed.

Lemma session_not_closed d (l : list usb_call) :
  Forall (uses_handle d) l -> closed l = [] /\ opens l = [].
Proof.
  induction 1 as [|c l Hc _ IH]; [split; reflexivity|].
  destruct c; cbn in *; try contradiction; assumption.
Qed.

Lemma closed_app (l1 l2 : list usb_call) :
  closed (l1 ++ l2) = (closed l1 ++ closed l2)%list.
Proof. apply flat_map_app. Qed.

Lemma discovery_sends_nothing (l : list usb_call) :
  Forall is_discovery_call l -> Forall sends_well_formed l.
Proof.
  apply Forall_impl. intros c Hc. destruct c; cbn in *; tauto.
Qed.

Lemma commands_sent_well_formed (l : list usb_call) :
  Forall sends_well_formed l ->
  Forall (fun cmd => well_formed_command cmd = true) (commands_sent l).
Proof.
  induction 1 as [|c l Hc _ IH]; [constructor|].
  unfold commands_sent. cbn [flat_map]. unfold sends_well_formed in Hc.
  destruct (command_of c); [constructor|]; assumption.
Qed.

(** X1: the process never dies of the assertion on the CPI step, and its
    exit status is 0 or 1, whatever the command line and whatever the
    library and the device answer.  When it ends in [exit], it has made no
    library call; when it ends by returning from [main], the library was
    initialised first. *)
Theorem main_exit_status (argv : list string) (st : state W) :
  let run := main getopt_long PROJECT_NAME PROJECT_VERSION data_uninit
               config_uninit argv st in
  (exit_status (fst run) = Some 0 \/ exit_status (fst run) = Some 1) /\
  (forall n, fst run = Exited n ->
     calls (snd run) = calls st /\ world (snd run) = world st) /\
  (forall status, fst run = Ret status ->
     exists r rest, calls (snd run) = (calls st ++ Call_init r :: rest)%list).
Proof.
  intros run. subst run. rewrite main_eq.
  destruct (parse_options_valid argv st) as (Hc & Hw & Ho).
  destruct (parse_options _ _ _ argv _ _ st) as [[[opts cfg]| |] st1];
    cbn [fst snd] in *.
  - destruct (main_usb_session opts cfg st1 Ho)
      as (final & Hret & Hfinal & Hcase).
    rewrite Hret. cbn [exit_status].
    split; [destruct Hfinal as [-> | ->]; tauto|].
    split; [discriminate|]. intros _ _. rewrite <- Hc.
    destruct Hcase as [(r & _ & _ & ->) | [(disc & _ & _ & _ & ->)
                      | (disc & d & body & _ & _ & _ & _ & ->)]];
      eexists; eexists; reflexivity.
  - cbn [exit_status]. split; [destruct Ho as [-> | ->]; tauto|].
    split; [intros _ _; split; assumption | discriminate].
  - contradiction.
Qed.

(** X2: the library calls of a run of [main] are bracketed.  A run that
    ends in [exit] makes none.  Otherwise [libusb_init] is the first call;
    when it fails it is the only one ([libusb_exit] is not called) and the
    status is 1.  When it succeeds, the discovery follows and
    [libusb_exit] is the last call.  If the discovery opened no device,
    nothing happens in between and the status is 1; if it opened the device
    [d], every call between the discovery and the last two is made on [d],
    and the last two are the close of [d] and [libusb_exit].  So the
    handles closed are exactly the devices opened. *)
Theorem main_library_calls (argv : list string) (st : state W) :
  let run := main getopt_long PROJECT_NAME PROJECT_VERSION data_uninit
               config_uninit argv st in
  exists new,
    calls (snd run) = (calls st ++ new)%list /\
    closed new = opened new /\
    (((exists n, fst run = Exited n) /\ new = []) \/
     (exists r, r <> 0 /\ fst run = Ret 1 /\ new = [Call_init r]) \/
     (exists disc,
        fst run = Ret 1 /\ opened disc = [] /\ Forall is_discovery_call disc /\
        new = (Call_init 0 :: disc ++ [Call_exit])%list) \/
     (exists disc d body,
        opens disc = [(d, 0)] /\ Forall is_discovery_call disc /\
        Forall (uses_handle d) body /\
        new = (Call_init 0 :: disc ++ body ++ [Call_close d; Call_exit])%list)).
Proof.
  intros run. subst run. rewrite main_eq.
  destruct (parse_options_valid argv st) as (Hc & Hw & Ho).
  destruct (parse_options _ _ _ argv _ _ st) as [[[opts cfg]| |] st1];
    cbn [fst snd] in *.
  - destruct (main_usb_session opts cfg st1 Ho)
      as (final & Hret & Hfinal & Hcase).
    rewrite Hc in Hcase.
    destruct Hcase as [(r & Hr & -> & Hcalls) | [(disc & -> & Hop & Hall & Hcalls)
                      | (disc & d & body & Hop & Hall & Hbody & _ & Hcalls)]];
      eexists; (split; [exact Hcalls|]).
    + split; [reflexivity|]. right. left. exists r. repeat split; assumption.
    + split.
      * change (Call_init 0 :: disc ++ [Call_exit])%list
          with ([Call_init 0] ++ disc ++ [Call_exit])%list.
        unfold opened in *. rewrite !closed_app, !opens_app.
        rewrite (discovery_not_closed disc Hall). cbn [closed opens flat_map app].
        rewrite app_nil_r, Hop. reflexivity.
      * right. right. left. exists disc. repeat split; assumption.
    + split.
      * change (Call_init 0 :: disc ++ body ++ [Call_close d; Call_exit])%list
          with ([Call_init 0] ++ disc ++ body ++ [Call_close d; Call_exit])%list.
        unfold opened. rewrite !closed_app, !opens_app.
        rewrite (discovery_not_closed disc Hall).
        destruct (session_not_closed d body Hbody) as [-> ->].
        rewrite Hop. reflexivity.
      * right. right. right. exists disc, d, body. repeat split; assumption.
  - exists []. rewrite app_nil_r. split; [assumption|].
    split; [reflexivity|]. left. split; [eexists|]; reflexivity.
  - contradiction.
Qed.

(** X3: whatever the command line and whatever the library and the device
    answer, every command a run of [main] sends to the device is a command
    of the protocol: 32 bytes, made of the opcode of a field, the
    sub-selector that goes with it, a value of that field (for the CPI a
    step from 1 to 63) and zeros. *)
Theorem main_sends_well_formed (argv : list string) (st : state W) :
  let run := main getopt_long PROJECT_NAME PROJECT_VERSION data_uninit
               config_uninit argv st in
  exists new,
    calls (snd run) = (calls st ++ new)%list /\
    Forall (fun cmd => well_formed_command cmd = true) (commands_sent new).
Proof.
  intros run. subst run. rewrite main_eq.
  destruct (parse_options_valid argv st) as (Hc & Hw & Ho).
  destruct (parse_options _ _ _ argv _ _ st) as [[[opts cfg]| |] st1];
    cbn [fst snd] in *.
  - destruct (main_usb_session opts cfg st1 Ho)
      as (final & Hret & Hfinal & Hcase).
    rewrite Hc in Hcase.
    destruct Hcase as [(r & Hr & _ & Hcalls) | [(disc & _ & Hop & Hall & Hcalls)
                      | (disc & d & body & Hop & Hall & Hbody & Hwf & Hcalls)]];
      eexists; (split; [exact Hcalls|]); apply commands_sent_well_formed.
    + repeat constructor.
    + constructor; [exact I|]. apply Forall_app. split.
      * now apply discovery_sends_nothing.
      * repeat constructor.
    + constructor; [exact I|]. apply Forall_app. split.
      * now apply discovery_sends_nothing.
      * apply Forall_app. split; [assumption | repeat constructor].
  - exists []. rewrite app_nil_r. split; [assumption | constructor].
  - contradiction.
Qed.

End Runs.

(** ** The discovery in any world *)

Section DiscoveryProtocol.

Context {W : Type} {U : UsbWorld W}.
Variable vendor : Z.
Variable products : list Z.

Lemma discovery_step_read (l : list libusb_device)
    (candidate : option libusb_device) (d : libusb_device)
    (r : option libusb_device_descriptor) :
  existsb (Nat.eqb d) l = true ->
  discovery_step vendor products (Some (Scanning l candidate))
    (Call_get_device_descriptor d r) =
    Some (Scanning l
            match r with
            | Some ds =>
                if (idVendor ds =? vendor)
                   && existsb (Z.eqb (idProduct ds)) products
                then Some d else None
            | None => None
            end).
Proof.
  intros H. destruct candidate; cbn [discovery_step]; rewrite H;
    (destruct r as [ds|]; [|reflexivity]);
    destruct (_ && _); reflexivity.
Qed.

Lemma discovery_step_free (l : list libusb_device)
    (candidate : option libusb_device) :
  discovery_step vendor products (Some (Scanning l candidate))
    (Call_free_device_list l 1) = Some Idle.
Proof.
  destruct candidate; cbn [discovery_step];
    (destruct (list_eq_dec Nat.eq_dec l l); [reflexivity | contradiction]).
Qed.

Lemma find_device_scan_protocol (product : Z) (l0 : list libusb_device)
    (rest : list libusb_device) :
  In product products -> incl rest l0 ->
  forall (st : state W) (candidate : option libusb_device),
  let run := find_device_scan vendor product rest st in
  exists found new candidate',
    fst run = Ret found /\
    calls (snd run) = (calls st ++ new)%list /\
    fold_left (discovery_step vendor products) new
      (Some (Scanning l0 candidate)) = Some (Scanning l0 candidate') /\
    (forall d, found = Some d -> candidate' = Some d).
Proof.
  intros Hp. induction rest as [|device rest IH]; intros Hincl st candidate run;
    subst run.
  - exists None, [], candidate. cbn. rewrite app_nil_r.
    split; [reflexivity|]. split; [reflexivity|]. split; [reflexivity|].
    discriminate.
  - cbn [find_device_scan]. unfold libusb_get_device_descriptor.
    rewrite bind_call.
    set (ds := fst (w_get_device_descriptor device (world st))).
    set (st1 := mk_state _ _ _ _).
    assert (Hin : existsb (Nat.eqb device) l0 = true).
    { apply existsb_exists. exists device. split.
      - apply Hincl. now left.
      - apply Nat.eqb_refl. }
    assert (Hrest : incl rest l0).
    { intros x Hx. apply Hincl. now right. }
    pose proof (discovery_step_read l0 candidate device ds Hin) as Hstep.
    assert (Hskip :
      exists found new candidate',
        fst (find_device_scan vendor product rest st1) = Ret found /\
        calls (snd (find_device_scan vendor product rest st1)) =
          (calls st ++ new)%list /\
        fold_left (discovery_step vendor products) new
          (Some (Scanning l0 candidate)) = Some (Scanning l0 candidate') /\
        (forall d, found = Some d -> candidate' = Some d)).
    { match type of Hstep with _ = Some (Scanning _ ?c1) =>
        destruct (IH Hrest st1 c1)
          as (found & new & candidate' & Hret & Hcalls & Hfold & Hfound) end.
      exists found, (Call_get_device_descriptor device ds :: new), candidate'.
      rewrite Hret, Hcalls. subst st1. cbn [calls fold_left].
      rewrite <- app_assoc, Hstep.
      split; [reflexivity|]. split; [reflexivity|]. split; assumption. }
    destruct ds as [d|] eqn:Eds; [|exact Hskip].
    destruct ((idVendor d =? vendor) && (idProduct d =? product)) eqn:Em;
      [|exact Hskip].
    exists (Some device), [Call_get_device_descriptor device (Some d)],
      (Some device).
    subst st1. cbn [ret fst snd calls fold_left]. rewrite Hstep.
    apply andb_prop in Em as [Ev Ep]. rewrite Ev. cbn [andb].
    replace (existsb (Z.eqb (idProduct d)) products) with true.
    2:{ symmetry. apply existsb_exists. exists product.
        split; [assumption|]. exact Ep. }
    split; [reflexivity|]. split; [reflexivity|]. split; [reflexivity|].
    now intros ? [= <-].
Qed.

Lemma find_device_protocol (product : Z) (error : Z) (st : state W) :
  In product products ->
  let run := find_device vendor product error st in
  exists new,
    calls (snd run) = (calls st ++ new)%list /\
    fold_left (discovery_step vendor products) new (Some Idle) = Some Idle.
Proof.
  intros Hp run. destruct run as [o stf] eqn:Hrun. subst run.
  unfold find_device, libusb_get_device_list in Hrun.
  rewrite bind_call in Hrun.
  destruct (fst (w_get_device_list (world st))) as [l|]; cbv beta iota in Hrun.
  - unfold bind at 1 in Hrun.
    match type of Hrun with context [find_device_scan vendor product l ?s] =>
      destruct (find_device_scan_protocol product l l Hp (incl_refl l) s None)
        as (found & new & cand & Hret & Hcalls & Hfold & Hfound) end.
    destruct (find_device_scan vendor product l _) as [o2 st2].
    cbn [fst snd calls] in Hret, Hcalls. subst o2.
    destruct found as [d|].
    + unfold libusb_open in Hrun. unfold bind at 1 in Hrun.
      rewrite bind_call in Hrun.
      unfold libusb_free_device_list, call_void, call, bind, ret in Hrun.
      cbn [fst snd world calls stdout stderr] in Hrun.
      set (r := fst (w_open d (world st2))) in Hrun.
      injection Hrun as <- <-. cbn [fst snd calls].
      exists (Call_get_device_list (Some l) :: new
              ++ [Call_open d r; Call_free_device_list l 1])%list.
      rewrite Hcalls, <- !app_assoc. split; [reflexivity|].
      cbn [fold_left discovery_step]. rewrite fold_left_app, Hfold.
      rewrite (Hfound d eq_refl). cbn [fold_left discovery_step].
      rewrite Nat.eqb_refl. cbn [discovery_step].
      destruct (list_eq_dec Nat.eq_dec l l); [reflexivity | contradiction].
    + unfold libusb_free_device_list, call_void, call, bind, ret in Hrun.
      cbn [fst snd world calls stdout stderr] in Hrun.
      injection Hrun as <- <-. cbn [fst snd calls].
      exists (Call_get_device_list (Some l) :: new
              ++ [Call_free_device_list l 1])%list.
      rewrite Hcalls, <- !app_assoc. split; [reflexivity|].
      cbn [fold_left discovery_step]. rewrite fold_left_app, Hfold.
      cbn [fold_left]. now rewrite discovery_step_free.
  - injection Hrun as <- <-. exists [Call_get_device_list None].
    split; reflexivity.
Qed.

Lemma find_device_list_loop_protocol (ps : list Z) :
  incl ps products ->
  forall (err : Z) (st : state W),
  let run := find_device_list_loop vendor ps err st in
  exists new,
    calls (snd run) = (calls st ++ new)%list /\
    fold_left (discovery_step vendor products) new (Some Idle) = Some Idle.
Proof.
  induction ps as [|product rest IH]; intros Hincl err st run; subst run.
  - exists []. cbn. now rewrite app_nil_r.
  - cbn [find_device_list_loop]. unfold bind.
    destruct (find_device_protocol product err st (Hincl product (or_introl eq_refl)))
      as (new & Hcalls & Hfold).
    destruct (find_device vendor product err st) as [[[h e]| |] st1];
      cbn [fst snd] in Hcalls; try (exists new; split; assumption).
    destruct h as [h|]; [exists new; split; assumption|].
    destruct (e =? 0); [|exists new; split; assumption].
    assert (Hrest : incl rest products).
    { intros x Hx. apply Hincl. now right. }
    destruct (IH Hrest e st1) as (new' & Hcalls' & Hfold').
    exists (new ++ new')%list. rewrite Hcalls', Hcalls, app_assoc.
    split; [reflexivity|]. now rewrite fold_left_app, Hfold.
Qed.

(** X4: in any world (the bus may change between two calls, any call may
    fail), the calls of the discovery follow its protocol: a device list is
    asked for only when none is held, and every list obtained is freed,
    once, with its devices unreferenced, by the time the discovery returns;
    descriptors are read only from devices of the list held; a device is
    opened only right after its descriptor was read and carried the vendor
    id and an accepted product id, and after an open nothing is done with
    the list but to free it. *)
Theorem discovery_protocol (error : Z) (st : state W) :
  let run := find_device_list vendor products error st in
  exists new,
    calls (snd run) = (calls st ++ new)%list /\
    discovery_ok vendor products new = true.
Proof.
  intros run. subst run. unfold find_device_list, bind.
  destruct (find_device_list_loop_protocol products (incl_refl _) 0 st)
    as (new & Hcalls & Hfold).
  exists new. unfold discovery_ok. rewrite Hfold.
  destruct (find_device_list_loop vendor products 0 st) as [[[h e]| |] st1];
    cbn [fst snd] in Hcalls; [|now split..].
  destruct h; now split.
Qed.

End DiscoveryProtocol.

(** ** When the devices cannot be enumerated *)

Section EnumerationFails.

Context {W : Type} {U : UsbWorld W}.
Variable data_uninit : list Z.
Variable config_uninit : sensei_config.

(** [libusb_get_device_list] fails whenever it is called. *)
Hypothesis no_list : forall w : W, fst (w_get_device_list w) = None.



End EnumerationFails.

(** ** Texts [encode_cpi] accepts and rejects *)

Lemma digits_fuel_app fuel : forall n acc t,
  digits_fuel fuel n acc ++ t = digits_fuel fuel n (acc ++ t).
Proof.
  induction fuel as [|fuel IH]; intros n acc t; cbn [digits_fuel].
  - reflexivity.
  - destruct (n <? 10); [reflexivity|]. now rewrite IH.
Qed.

(** [strtol] on the decimal text of a number followed by a character that
    is not a digit: the number, and [end] at that character. *)
Lemma strtol10_digits_then n x t :
  0 <= n -> isdigit x = false ->
  strtol10 (digits n ++ String x t) = (Z.min n LONG_MAX, String x t).
Proof.
  intros Hn Hx. unfold strtol10, digits. rewrite digits_fuel_app.
  cbn [append].
  destruct (digits_fuel_head (S (Z.to_nat (Z.log2 n))) n (String x t) Hn)
    as (c & s & E & Hc); [lia|].
  pose proof (scan_digits_fuel _ n (String x t)
                (conj Hn (digits_fuel_bound n Hn))) as Hs.
  rewrite E in *. cbn [skip_space].
  rewrite (isdigit_not_space c Hc).
  rewrite !(isdigit_not_sign c) by (assumption || (vm_compute; reflexivity)).
  rewrite Hc, Hs by lia. cbn [scan_digits]. rewrite Hx.
  f_equal. unfold saturate.
  assert (LONG_MIN < 0) by reflexivity.
  destruct (n >? LONG_MAX) eqn:E1.
  - apply Z.gtb_lt in E1. lia.
  - rewrite Z.gtb_ltb in E1. apply Z.ltb_ge in E1.
    destruct (n <? LONG_MIN) eqn:E2; [apply Z.ltb_lt in E2|]; lia.
Qed.

Lemma skip_space_no_digit (s : string) :
  no_digit s = true -> no_digit (skip_space s) = true.
Proof.
  induction s as [|c r IH]; intros H; cbn [skip_space]; [assumption|].
  destruct (isspace c); [|assumption].
  cbn [no_digit] in H. apply andb_prop in H as [_ H]. now apply IH.
Qed.

(** Without a digit there is no conversion: [end] is the whole text. *)
Lemma strtol10_no_digit (str : string) :
  no_digit str = true -> strtol10 str = (0, str).
Proof.
  intros H. unfold strtol10.
  pose proof (skip_space_no_digit str H) as Hs.
  destruct (skip_space str) as [|c r]; [reflexivity|].
  cbn [no_digit] in Hs. apply andb_prop in Hs as [Hc Hr].
  apply negb_true_iff in Hc.
  assert (Hbody : forall (f : Z -> Z) body, no_digit body = true ->
            match body with
            | String c0 _ =>
                if isdigit c0
                then let '(v, rest) := scan_digits body 0 in
                     (saturate (f v), rest)
                else (0, str)
            | EmptyString => (0, str)
            end = (0, str)).
  { intros f [|c0 b] Hb; [reflexivity|]. cbn [no_digit] in Hb.
    apply andb_prop in Hb as [Hc0 _]. apply negb_true_iff in Hc0.
    now rewrite Hc0. }
  destruct (c =? "-")%char; [exact (Hbody Z.opp r Hr)|].
  destruct (c =? "+")%char; [exact (Hbody (fun v => v) r Hr)|].
  apply (Hbody (fun v => v) (String c r)). cbn [no_digit]. now rewrite Hc.
Qed.

Lemma skip_space_app (ws s : string) :
  all_space ws = true -> skip_space (ws ++ s) = skip_space s.
Proof.
  induction ws as [|c r IH]; intros H; [reflexivity|].
  cbn [all_space] in H. apply andb_prop in H as [Hc Hr].
  cbn [append skip_space]. rewrite Hc. now apply IH.
Qed.

Section CpiTexts.

Context {W : Type}.

Lemma encode_cpi_eq (str : string) (st : state W) :
  encode_cpi str st =
    let '(cpi, end_) := strtol10 str in
    if match str with EmptyString => true | _ => false end
       || match end_ with EmptyString => false | _ => true end
       || (cpi <? 0)
    then cpi_rejected st
    else
      let q := cpi ÷ 90 in
      if q <? 1 then
        (Ret 1, mk_state (world st) (calls st) (stdout st)
                  (stderr st ++ ("Notice: CPI too low, using 90" ++ LF)))
      else if q >? 63 then
        (Ret 63, mk_state (world st) (calls st) (stdout st)
                   (stderr st ++ ("Notice: CPI too high, using 5670" ++ LF)))
      else (Ret (int_of_long q), st).
Proof.
  unfold encode_cpi. destruct (strtol10 str) as [cpi e].
  destruct (_ || _ || _); [reflexivity|].
  unfold SENSEI_CPI_MAX, SENSEI_CPI_STEP. cbv zeta.
  destruct (cpi ÷ 90 <? 1); [reflexivity|].
  unfold bind at 1, ret at 1.
  destruct (cpi ÷ 90 >? 63); [reflexivity|].
  now destruct st.
Qed.

Lemma encode_cpi_cases (str : string) (st : state W) :
  encode_cpi str st = cpi_rejected st \/
  (exists v, 1 <= v <= 63 /\ encode_cpi str st = (Ret v, st)) \/
  encode_cpi str st =
    (Ret 1, mk_state (world st) (calls st) (stdout st)
              (stderr st ++ ("Notice: CPI too low, using 90" ++ LF))) \/
  encode_cpi str st =
    (Ret 63, mk_state (world st) (calls st) (stdout st)
               (stderr st ++ ("Notice: CPI too high, using 5670" ++ LF))).
Proof.
  rewrite encode_cpi_eq. destruct (strtol10 str) as [cpi e].
  destruct (_ || _ || _); [now left|]. right. cbv zeta.
  set (q := cpi ÷ 90). destruct (q <? 1) eqn:E1.
  - right. left. reflexivity.
  - apply Z.ltb_ge in E1. destruct (q >? 63) eqn:E2.
    + right. right. reflexivity.
    + rewrite Z.gtb_ltb in E2. apply Z.ltb_ge in E2. left.
      exists q. split; [lia|]. rewrite int_of_long_small by lia. reflexivity.
Qed.

(** X6: [encode_cpi] is total on texts: whatever the text, it either prints
    [Error: invalid CPI value] and exits with the failure status, or
    returns a step of the device, from 1 to 63, after at most one notice:
    none, the notice for a value too low with the step 1, or the notice for
    a value too high with the step 63.  It writes nothing to the standard
    output and makes no library call. *)
Theorem encode_cpi_total (str : string) (st : state W) :
  let run := encode_cpi str st in
  world (snd run) = world st /\ calls (snd run) = calls st /\
  stdout (snd run) = stdout st /\
  (run = cpi_rejected st \/
   exists v,
     fst run = Ret v /\ 1 <= v <= 63 /\
     (stderr (snd run) = stderr st \/
      v = 1 /\
      stderr (snd run) = stderr st ++ ("Notice: CPI too low, using 90" ++ LF) \/
      v = 63 /\
      stderr (snd run) =
        stderr st ++ ("Notice: CPI too high, using 5670" ++ LF))).
Proof.
  intros run. subst run.
  destruct (encode_cpi_cases str st) as [H | [(v & Hv & H) | [H | H]]];
    rewrite H; cbn [cpi_rejected fst snd world calls stdout stderr];
    (split; [reflexivity|]); (split; [reflexivity|]); (split; [reflexivity|]).
  - now left.
  - right. exists v. split; [reflexivity|]. split; [assumption|]. now left.
  - right. exists 1. split; [reflexivity|]. split; [lia|].
    right. left. split; reflexivity.
  - right. exists 63. split; [reflexivity|]. split; [lia|].
    right. right. split; reflexivity.
Qed.

Lemma encode_cpi_reject_end (str : string) (cpi : Z) (x : ascii) (t : string)
    (st : state W) :
  strtol10 str = (cpi, String x t) -> encode_cpi str st = cpi_rejected st.
Proof.
  intros H. unfold encode_cpi. rewrite H.
  destruct str; reflexivity.
Qed.

(** X7: texts [encode_cpi] rejects.  The empty text and any text without a
    digit; the decimal text of a number followed by anything that does not
    continue the number (a unit, a decimal part, a space); and the text of a
    negative number.  Each makes the program print the error and exit with
    the failure status. *)
Theorem encode_cpi_rejects (str : string) (st : state W) :
  no_digit str = true \/
  (exists c x t, 0 <= c /\ isdigit x = false /\
                 str = string_of_int c ++ String x t) \/
  (exists c, c < 0 /\ str = string_of_int c) ->
  encode_cpi str st = cpi_rejected st.
Proof.
  intros [Hn | [(c & x & t & Hc & Hx & ->) | (c & Hc & ->)]].
  - unfold encode_cpi. rewrite (strtol10_no_digit str Hn).
    destruct str; reflexivity.
  - unfold string_of_int.
    replace (c <? 0) with false by (symmetry; apply Z.ltb_ge; lia).
    eapply encode_cpi_reject_end. now apply strtol10_digits_then.
  - unfold string_of_int.
    replace (c <? 0) with true by (symmetry; apply Z.ltb_lt; lia).
    assert (Hpos : 0 <= - c) by lia.
    unfold encode_cpi, strtol10. cbn [skip_space].
    change (isspace "-") with false. cbv iota.
    change ("-" =? "-")%char with true. cbv iota.
    pose proof (strtol10_digits (- c) Hpos) as Hd.
    unfold strtol10 in Hd.
    destruct (digits_fuel_head (S (Z.to_nat (Z.log2 (- c)))) (- c) "" Hpos)
      as (a & s & E & Ha); [lia|].
    fold (digits (- c)) in E. rewrite E in *. rewrite Ha.
    cbn [skip_space] in Hd. rewrite (isdigit_not_space a Ha) in Hd.
    rewrite !(isdigit_not_sign a) in Hd
      by (assumption || (vm_compute; reflexivity)).
    rewrite Ha in Hd.
    destruct (scan_digits (String a s) 0) as [v rest].
    injection Hd as Hv ->.
    assert (HM : 0 < LONG_MAX) by reflexivity.
    assert (HN : LONG_MIN < 0) by reflexivity.
    assert (HMN : LONG_MIN = - LONG_MAX - 1) by reflexivity.
    assert (Hneg : saturate (- v) < 0).
    { assert (Hrange : 0 < v).
      { unfold saturate in Hv.
        destruct (v >? LONG_MAX) eqn:E1.
        - apply Z.gtb_lt in E1. lia.
        - destruct (v <? LONG_MIN) eqn:E3; [apply Z.ltb_lt in E3|]; lia. }
      unfold saturate.
      replace (- v >? LONG_MAX) with false
        by (symmetry; rewrite Z.gtb_ltb; apply Z.ltb_ge; lia).
      destruct (- v <? LONG_MIN); lia. }
    replace (saturate (- v) <? 0) with true by (symmetry; apply Z.ltb_lt; lia).
    reflexivity.
Qed.

(** X8: what may come before the number.  [encode_cpi] gives a number that
    is not negative the same step whether its decimal text comes alone,
    after white space, after a plus sign, or after both; white space after
    the number is not accepted (X7). *)
Theorem encode_cpi_leading (ws : string) (c : Z) (st : state W) :
  all_space ws = true -> 0 <= c ->
  encode_cpi (ws ++ string_of_int c) st = encode_cpi (string_of_int c) st /\
  encode_cpi (ws ++ "+" ++ string_of_int c) st =
    encode_cpi (string_of_int c) st.
Proof.
  intros Hws Hc. unfold string_of_int.
  replace (c <? 0) with false by (symmetry; apply Z.ltb_ge; lia).
  pose proof (strtol10_digits c Hc) as Hd.
  destruct (digits_fuel_head (S (Z.to_nat (Z.log2 c))) c "" Hc)
    as (a & s & E & Ha); [lia|].
  fold (digits c) in E.
  assert (Hskip : skip_space (digits c) = digits c).
  { rewrite E. cbn [skip_space]. now rewrite (isdigit_not_space a Ha). }
  assert (H1 : strtol10 (ws ++ digits c) = strtol10 (digits c)).
  { unfold strtol10. rewrite skip_space_app, Hskip by assumption.
    rewrite E. rewrite !(isdigit_not_sign a)
      by (assumption || (vm_compute; reflexivity)).
    now rewrite Ha. }
  assert (H2 : strtol10 (ws ++ "+" ++ digits c) = strtol10 (digits c)).
  { unfold strtol10. rewrite skip_space_app, Hskip by assumption.
    cbn [append skip_space]. change (isspace "+") with false. cbv iota.
    change ("+" =? "-")%char with false. change ("+" =? "+")%char with true.
    cbv iota. rewrite E.
    rewrite !(isdigit_not_sign a) by (assumption || (vm_compute; reflexivity)).
    now rewrite Ha. }
  unfold encode_cpi. rewrite H1, H2, Hd. rewrite E.
  split.
  - destruct ws; reflexivity.
  - destruct ws; reflexivity.
Qed.

End CpiTexts.

(** ** The command line *)

Lemma strcmp_zero (a : string) : forall b : string,
  no_nul a = true -> no_nul b = true -> (strcmp a b = 0 <-> a = b).
Proof.
  induction a as [|x a IH]; intros [|y b] Ha Hb; cbn [strcmp].
  - tauto.
  - cbn [no_nul] in Hb. apply andb_prop in Hb as [Hy _].
    apply negb_true_iff, Z.eqb_neq in Hy. pose proof (code_range y).
    split; [lia | discriminate].
  - cbn [no_nul] in Ha. apply andb_prop in Ha as [Hx _].
    apply negb_true_iff, Z.eqb_neq in Hx.
    split; [lia | discriminate].
  - cbn [no_nul] in Ha, Hb.
    apply andb_prop in Ha as [_ Ha]. apply andb_prop in Hb as [_ Hb].
    destruct (code x =? code y) eqn:E.
    + apply Z.eqb_eq in E.
      assert (x = y).
      { unfold code in E. apply N2Z.inj in E.
        rewrite <- (ascii_N_embedding x), <- (ascii_N_embedding y).
        now rewrite E. }
      subst y. rewrite (IH b Ha Hb).
      split; [intros ->; reflexivity | now intros [= ->]].
    + apply Z.eqb_neq in E. split; [lia | intros [= -> _]; contradiction].
Qed.

Lemma strcmp_eqb (a b : string) :
  no_nul a = true -> no_nul b = true ->
  (strcmp a b =? 0) = true <-> a = b.
Proof.
  intros Ha Hb. rewrite Z.eqb_eq. now apply strcmp_zero.
Qed.

Section CommandLine.

Context {W : Type} {U : UsbWorld W}.
Variable getopt_long :
  list string -> string -> list long_option -> list (ascii * string) * Z.
Variable PROJECT_NAME : string.
Variable PROJECT_VERSION : string.
Variable data_uninit : list Z.
Variable config_uninit : sensei_config.

Lemma printf_then {A} (s : string) (c : M W A) (st : state W) :
  (printf s ;; c) st = c (printed st s).
Proof. reflexivity. Qed.

Lemma show_usage_eq (program_name : string) (st : state W) :
  show_usage program_name st = (Ret tt, printed st (usage_text program_name)).
Proof.
  unfold show_usage.
  repeat (rewrite printf_then; unfold printed at 1;
          cbn [world calls stdout stderr]).
  unfold printf, printed. cbn [world calls stdout stderr]. f_equal. f_equal.
  unfold usage_text. repeat rewrite string_app_assoc. reflexivity.
Qed.

(** X9: called without any argument, the program prints the usage text and
    exits with the failure status; called with [-h] or [--help] after
    options it accepts, it prints the same text and exits with the success
    status.  In both cases it makes no library call. *)
Theorem usage_without_argument (argv0 : string) (argv : list string)
    (pre post : list (ascii * string)) (optarg : string) (optind : Z)
    (st st1 : state W) (opts1 : options) (config1 : sensei_config) :
  getopt_long argv "h" long_opts =
    ((pre ++ ("h"%char, optarg) :: post)%list, optind) ->
  List.length argv <> 1%nat ->
  parse_loop PROJECT_NAME PROJECT_VERSION (hd "" argv) pre
    (mk_options false false false false false false false false)
    (mk_config 0 0 0 0 0 0) st = (Ret (opts1, config1), st1) ->
  main getopt_long PROJECT_NAME PROJECT_VERSION data_uninit config_uninit
    [argv0] st = (Exited EXIT_FAILURE, printed st (usage_text argv0)) /\
  main getopt_long PROJECT_NAME PROJECT_VERSION data_uninit config_uninit
    argv st = (Exited EXIT_SUCCESS, printed st1 (usage_text (hd "" argv))) /\
  calls st1 = calls st.
Proof.
  intros Hget Hargc Hpre. split; [|split].
  - unfold main, parse_options.
    change (Z.of_nat (List.length [argv0]) =? 1) with true.
    cbv iota. cbn [hd]. unfold bind. rewrite show_usage_eq. reflexivity.
  - unfold main, parse_options.
    replace (Z.of_nat (List.length argv) =? 1) with false
      by (symmetry; apply Z.eqb_neq; lia).
    rewrite Hget. unfold bind at 1 2 3. unfold ret at 1.
    rewrite parse_loop_app. unfold bind at 1. rewrite Hpre.
    cbn [parse_loop]. unfold bind at 1. cbn [parse_option].
    unfold bind at 1. rewrite show_usage_eq. reflexivity.
  - pose proof (parse_loop_inv PROJECT_NAME PROJECT_VERSION (hd "" argv) pre
                  (mk_options false false false false false false false false)
                  (mk_config 0 0 0 0 0 0) st) as Hinv.
    cbv zeta in Hinv. rewrite Hpre in Hinv. cbn [fst snd] in Hinv.
    destruct Hinv as (Hc & _); [split; discriminate | exact Hc].
Qed.

(** X10: when [getopt_long] leaves arguments that are no options, and the
    options before them are accepted, the program prints
    [Error: extra parameters] and exits with the failure status, without a
    library call: nothing is written to the device. *)
Theorem extra_parameters_rejected (argv : list string)
    (results : list (ascii * string)) (optind : Z)
    (st st1 : state W) (opts1 : options) (config1 : sensei_config) :
  getopt_long argv "h" long_opts = (results, optind) ->
  List.length argv <> 1%nat ->
  optind < Z.of_nat (List.length argv) ->
  parse_loop PROJECT_NAME PROJECT_VERSION (hd "" argv) results
    (mk_options false false false false false false false false)
    (mk_config 0 0 0 0 0 0) st = (Ret (opts1, config1), st1) ->
  main getopt_long PROJECT_NAME PROJECT_VERSION data_uninit config_uninit
    argv st =
    (Exited EXIT_FAILURE, complained st1 ("Error: extra parameters" ++ LF)) /\
  calls st1 = calls st /\ world st1 = world st.
Proof.
  intros Hget Hargc Hind Hloop. split.
  - unfold main, parse_options.
    replace (Z.of_nat (List.length argv) =? 1) with false
      by (symmetry; apply Z.eqb_neq; lia).
    rewrite Hget. unfold bind at 1 2 3. unfold ret at 1. rewrite Hloop.
    replace (optind <? Z.of_nat (List.length argv)) with true
      by (symmetry; apply Z.ltb_lt; assumption).
    reflexivity.
  - pose proof (parse_loop_inv PROJECT_NAME PROJECT_VERSION (hd "" argv) results
                  (mk_options false false false false false false false false)
                  (mk_config 0 0 0 0 0 0) st) as Hinv.
    cbv zeta in Hinv. rewrite Hloop in Hinv. cbn [fst snd] in Hinv.
    destruct Hinv as (Hc & Hw & _); [split; discriminate | now split].
Qed.

End CommandLine.

Section EnumeratedOptions.

Context {W : Type}.
Variable PROJECT_NAME : string.
Variable PROJECT_VERSION : string.

Lemma strcmp_false (a b : string) :
  no_nul a = true -> no_nul b = true -> a <> b -> (strcmp a b =? 0) = false.
Proof.
  intros Ha Hb Hne. apply not_true_is_false. intros H.
  now apply strcmp_eqb in H.
Qed.

Lemma strcasecmp_false (a b : string) :
  no_nul a = true -> no_nul b = true -> lowercase a <> lowercase b ->
  (strcasecmp a b =? 0) = false.
Proof.
  intros Ha Hb Hne. apply not_true_is_false. intros H.
  now apply strcasecmp_eqb in H.
Qed.

(** X11: the arguments the options of the enumerated fields take.
    [--polling] takes the four numbers as they are written in the usage
    text and nothing else (no other spelling, no unit, no space);
    [--pulsation] and [--intensity] take their four words in any mix of
    upper and lower case and nothing else.  An argument that is taken sets
    the field to the value of its enumerator and the flag of the field; any
    other makes the program print an error that names the argument and
    exit with the failure status. *)
Theorem enumerated_options_accept (argv0 optarg : string) (opts : options)
    (new_config : sensei_config) (st : state W) :
  no_nul optarg = true ->
  let run c := parse_option PROJECT_NAME PROJECT_VERSION argv0 c optarg opts
                 new_config st in
  ((exists v, In (optarg, v) polling_words /\
      run "p"%char =
        (Ret (with_set_polling opts, with_polling new_config v), st)) \/
   (forall w v, In (w, v) polling_words -> optarg <> w) /\
   run "p"%char =
     (Exited EXIT_FAILURE,
      complained st ("Error: invalid polling frequency: " ++ optarg ++ LF))) /\
  ((exists w v, In (w, v) pulsation_words /\ lowercase optarg = lowercase w /\
      run "P"%char =
        (Ret (with_set_pulsation opts, with_pulsation new_config v), st)) \/
   (forall w v, In (w, v) pulsation_words -> lowercase optarg <> lowercase w) /\
   run "P"%char =
     (Exited EXIT_FAILURE,
      complained st ("Error: invalid backlight pulsation: " ++ optarg ++ LF))) /\
  ((exists w v, In (w, v) intensity_words /\ lowercase optarg = lowercase w /\
      run "i"%char =
        (Ret (with_set_intensity opts, with_intensity new_config v), st)) \/
   (forall w v, In (w, v) intensity_words -> lowercase optarg <> lowercase w) /\
   run "i"%char =
     (Exited EXIT_FAILURE,
      complained st ("Error: invalid backlight intensity: " ++ optarg ++ LF))).
Proof.
  intros Hnul run. subst run. cbv beta.
  split; [|split].
  - cbn [parse_option].
    destruct (strcmp optarg "1000" =? 0) eqn:E1.
    { apply strcmp_eqb in E1; [|assumption|reflexivity]. left.
      eexists. split; [left; rewrite E1; reflexivity | now destruct st]. }
    destruct (strcmp optarg "500" =? 0) eqn:E2.
    { apply strcmp_eqb in E2; [|assumption|reflexivity]. left.
      eexists. split; [right; left; rewrite E2; reflexivity | now destruct st]. }
    destruct (strcmp optarg "250" =? 0) eqn:E3.
    { apply strcmp_eqb in E3; [|assumption|reflexivity]. left.
      eexists. split; [right; right; left; rewrite E3; reflexivity
                      | now destruct st]. }
    destruct (strcmp optarg "125" =? 0) eqn:E4.
    { apply strcmp_eqb in E4; [|assumption|reflexivity]. left.
      eexists. split; [right; right; right; left; rewrite E4; reflexivity
                      | now destruct st]. }
    right. split; [|reflexivity].
    intros w v Hin Heq. subst w.
    destruct Hin as [[= H _] | [[= H _] | [[= H _] | [[= H _] | []]]]];
      rewrite <- H in *; cbn in *; discriminate.
  - cbn [parse_option].
    destruct (strcasecmp optarg "steady" =? 0) eqn:E1.
    { apply strcasecmp_eqb in E1; [|assumption|reflexivity]. left.
      eexists. eexists. split; [left; reflexivity|].
      split; [assumption | now destruct st]. }
    destruct (strcasecmp optarg "slow" =? 0) eqn:E2.
    { apply strcasecmp_eqb in E2; [|assumption|reflexivity]. left.
      eexists. eexists. split; [right; left; reflexivity|].
      split; [assumption | now destruct st]. }
    destruct (strcasecmp optarg "medium" =? 0) eqn:E3.
    { apply strcasecmp_eqb in E3; [|assumption|reflexivity]. left.
      eexists. eexists. split; [right; right; left; reflexivity|].
      split; [assumption | now destruct st]. }
    destruct (strcasecmp optarg "fast" =? 0) eqn:E4.
    { apply strcasecmp_eqb in E4; [|assumption|reflexivity]. left.
      eexists. eexists. split; [right; right; right; left; reflexivity|].
      split; [assumption | now destruct st]. }
    right. split; [|reflexivity].
    intros w v Hin Heq.
    destruct Hin as [[= <- _] | [[= <- _] | [[= <- _] | [[= <- _] | []]]]];
      apply strcasecmp_eqb in Heq; try assumption; try reflexivity; congruence.
  - cbn [parse_option].
    destruct (strcasecmp optarg "off" =? 0) eqn:E1.
    { apply strcasecmp_eqb in E1; [|assumption|reflexivity]. left.
      eexists. eexists. split; [left; reflexivity|].
      split; [assumption | now destruct st]. }
    destruct (strcasecmp optarg "low" =? 0) eqn:E2.
    { apply strcasecmp_eqb in E2; [|assumption|reflexivity]. left.
      eexists. eexists. split; [right; left; reflexivity|].
      split; [assumption | now destruct st]. }
    destruct (strcasecmp optarg "medium" =? 0) eqn:E3.
    { apply strcasecmp_eqb in E3; [|assumption|reflexivity]. left.
      eexists. eexists. split; [right; right; left; reflexivity|].
      split; [assumption | now destruct st]. }
    destruct (strcasecmp optarg "high" =? 0) eqn:E4.
    { apply strcasecmp_eqb in E4; [|assumption|reflexivity]. left.
      eexists. eexists. split; [right; right; right; left; reflexivity|].
      split; [assumption | now destruct st]. }
    right. split; [|reflexivity].
    intros w v Hin Heq.
    destruct Hin as [[= <- _] | [[= <- _] | [[= <- _] | [[= <- _] | []]]]];
      apply strcasecmp_eqb in Heq; try assumption; try reflexivity; congruence.
Qed.

(** X12: what [--show] prints for an enumerated field is taken back by the
    option of that field and stands for the same value: for every
    recognised value (1 to 4), the word printed for the intensity and the
    word printed for the pulsation are accepted by [--intensity] and
    [--pulsation] and set that value, and so does [--polling] with the text
    printed for the polling frequency once its unit [Hz] is removed.  The
    text printed for an unrecognised value, [unknown], is rejected by the
    three options. *)
Theorem shown_words_parse_back (argv0 : string) (v : Z) (opts : options)
    (new_config : sensei_config) (st : state W) :
  1 <= v <= 4 ->
  let run c optarg := parse_option PROJECT_NAME PROJECT_VERSION argv0 c optarg
                        opts new_config st in
  run "i"%char (intensity_text v) =
    (Ret (with_set_intensity opts, with_intensity new_config v), st) /\
  run "P"%char (pulsation_text v) =
    (Ret (with_set_pulsation opts, with_pulsation new_config v), st) /\
  (exists w, polling_text v = w ++ "Hz" /\
     run "p"%char w =
       (Ret (with_set_polling opts, with_polling new_config v), st)) /\
  fst (run "i"%char (intensity_text 0)) = Exited EXIT_FAILURE /\
  fst (run "P"%char (pulsation_text 0)) = Exited EXIT_FAILURE /\
  fst (run "p"%char (polling_text 0)) = Exited EXIT_FAILURE.
Proof.
  intros Hv run. subst run. cbv beta.
  assert (Hcases : v = 1 \/ v = 2 \/ v = 3 \/ v = 4) by lia.
  destruct st as [w cs out err].
  destruct Hcases as [-> | [-> | [-> | ->]]];
    (split; [reflexivity|]); (split; [reflexivity|]);
    (split;
     [first [ exists "1000"; split; reflexivity
            | exists "500"; split; reflexivity
            | exists "250"; split; reflexivity
            | exists "125"; split; reflexivity ]|]);
    repeat split.
Qed.

End EnumeratedOptions.

(** ** Sessions that fail *)

Section SessionFailures.

Context {W : Type} {U : UsbWorld W}.
Variable data_uninit : list Z.
Variable config_uninit : sensei_config.

(** X13: when the interface cannot be claimed, [main] reports it and
    unwinds from there: it makes no transfer and does not release the
    interface it does not hold, but it still reattaches the kernel driver
    once if it had detached it, reporting a failure to do so as well, then
    closes the device and the library; it returns 1 and writes nothing to
    the standard output. *)
Theorem claim_failure_unwinds (st : state W) (device : libusb_device_handle)
    (reattach_driver : bool) (opts : options) (new_config : sensei_config)
    (status rc : Z) (w1 : W) :
  w_claim_interface device SENSEI_CTL_IFACE (world st) = (rc, w1) ->
  rc <> 0 ->
  let run := main_claim data_uninit config_uninit device reattach_driver opts
               new_config status st in
  exists ra,
    let reattach_failed := reattach_driver && negb (ra =? 0) in
    fst run = Ret 1 /\
    calls (snd run) =
      (calls st
       ++ [Call_claim_interface device SENSEI_CTL_IFACE rc]
       ++ (if reattach_driver
           then [Call_attach_kernel_driver device SENSEI_CTL_IFACE ra] else [])
       ++ [Call_close device; Call_exit])%list /\
    stdout (snd run) = stdout st /\
    stderr (snd run) =
      stderr st
      ++ failure_line "couldn't claim interface" true rc
      ++ failure_line "couldn't reattach kernel driver" reattach_failed ra.
Proof.
  intros Hclaim Hrc run. subst run.
  unfold main_claim, libusb_claim_interface. rewrite bind_call, Hclaim.
  cbn [fst snd].
  replace (negb (rc =? 0)) with true
    by (symmetry; apply negb_true_iff, Z.eqb_neq; assumption).
  rewrite ERROR_eq.
  match goal with |- context [main_error_3 device reattach_driver 1 ?s] =>
    destruct (main_error_3_run device reattach_driver 1 s)
      as (ra & Hret & Hcalls & Hout & Herr) end.
  exists ra. rewrite Hret, Hcalls, Hout, Herr.
  destruct (reattach_driver && negb (ra =? 0)); session_finish.
Qed.

(** X14: when the status read of [--show] fails, nothing is displayed: the
    standard output is left as it was.  [main] reports the failure of the
    operation with the name of the status, still releases the interface,
    reattaches the driver if it had detached it, closes the device and the
    library, and returns 1. *)
Theorem show_failure_reported (st : state W) (device : libusb_device_handle)
    (reattach_driver : bool) (opts : options) (new_config : sensei_config)
    (status r : Z) (data : list Z) (w1 w2 : W) :
  show_config opts = true ->
  w_claim_interface device SENSEI_CTL_IFACE (world st) = (0, w1) ->
  w_control_transfer device 0xa1 USB_GET_REPORT 0x0300 0 data_uninit 256 0 w1 =
    ((r, data), w2) ->
  r < 0 ->
  let run := main_claim data_uninit config_uninit device reattach_driver opts
               new_config status st in
  exists rr ra,
    let release_failed := negb (rr =? 0) in
    let reattach_failed := reattach_driver && negb (ra =? 0) in
    fst run = Ret 1 /\
    calls (snd run) =
      (calls st
       ++ [Call_claim_interface device SENSEI_CTL_IFACE 0;
           Call_control_transfer device 0xa1 USB_GET_REPORT 0x0300 0
             data_uninit 256 0 r data;
           Call_release_interface device SENSEI_CTL_IFACE rr]
       ++ (if reattach_driver
           then [Call_attach_kernel_driver device SENSEI_CTL_IFACE ra] else [])
       ++ [Call_close device; Call_exit])%list /\
    stdout (snd run) = stdout st /\
    stderr (snd run) =
      stderr st
      ++ failure_line "operation failed" true r
      ++ failure_line "couldn't release interface" release_failed rr
      ++ failure_line "couldn't reattach kernel driver" reattach_failed ra.
Proof.
  intros Hshow Hclaim Hread Hr run. subst run.
  unfold main_claim, libusb_claim_interface. rewrite bind_call, Hclaim.
  cbn [fst snd Z.eqb negb]. unfold bind.
  rewrite (apply_options_show data_uninit config_uninit device opts new_config
             _ Hshow).
  cbn [world]. rewrite Hread. cbv zeta.
  replace (r <? 0) with true by (symmetry; apply Z.ltb_lt; assumption).
  replace (negb (r =? 0)) with true
    by (symmetry; apply negb_true_iff, Z.eqb_neq; lia).
  rewrite ERROR_eq.
  match goal with |- context [main_error_4 device reattach_driver 1 ?s] =>
    destruct (main_error_4_run device reattach_driver 1 s)
      as (rr & ra & Hret & Hcalls & Hout & Herr) end.
  exists rr, ra. rewrite Hret, Hcalls, Hout, Herr.
  destruct (negb (rr =? 0)), (reattach_driver && negb (ra =? 0));
    session_finish.
Qed.

End SessionFailures.

(** ** The GUI *)

Section InterfaceRuns.

Context {G : Type} {T : GtkWorld G}.
Variable program : string.
Variable g_regex_match_all : string -> string -> list string.
Variable gettext : string -> string.

Lemma gtk_after_nil (g : gui G) : gtk_after g [] = g.
Proof. destruct g. unfold gtk_after. cbn. now rewrite app_nil_r. Qed.

Lemma gtk_after_app (g : gui G) (a b : list gtk_call) :
  gtk_after (gtk_after g a) b = gtk_after g (a ++ b).
Proof.
  unfold gtk_after. cbn [gtk_world gtk_calls].
  now rewrite fold_left_app, app_assoc.
Qed.

Lemma gtk_do_eq (c : gtk_call) (g : gui G) :
  gtk_do c g = (Ret tt, gtk_after g [c]).
Proof. reflexivity. Qed.

Lemma gtk_ask_then {A B} (f : G -> A * G) (ev : A -> gtk_call)
    (k : A -> Gui G B) (g : gui G) :
  gbind (gtk_ask f ev) k g =
    k (fst (f (gtk_world g)))
      (mk_gui (snd (f (gtk_world g)))
         (gtk_calls g ++ [ev (fst (f (gtk_world g)))])).
Proof.
  unfold gbind, gtk_ask. now destruct (f (gtk_world g)).
Qed.

Lemma fatal_eq (message : string) (g : gui G) :
  fatal message g =
    (Ret tt, gtk_after g [Gtk_dialog_run message; Gtk_main_quit]).
Proof.
  unfold fatal, gbind. rewrite !gtk_do_eq, gtk_after_app. reflexivity.
Qed.

Lemma set_page_eq (page : Z) (g : gui G) :
  set_page page g = (Ret tt, gtk_after g [Gtk_notebook_set_current_page page]).
Proof. reflexivity. Qed.

Lemma set_combo_eq (combo : string) (list : list string) (word : string)
    (g : gui G) :
  set_combo combo list word g =
    match set_combo_scan list word 0 with
    | Some i => (Ret true, gtk_after g [Gtk_combo_box_set_active combo i])
    | None => (Ret false, g)
    end.
Proof.
  unfold set_combo. now destruct (set_combo_scan list word 0).
Qed.

Lemma set_scale_eq (scale word follows : string) (g : gui G) :
  set_scale scale word follows g =
    if strcmp (snd (g_ascii_strtoll word)) follows =? 0
    then (Ret true,
          gtk_after g [Gtk_range_set_value scale (fst (g_ascii_strtoll word))])
    else (Ret false, g).
Proof.
  unfold set_scale. destruct (g_ascii_strtoll word) as [value e]. cbn [fst snd].
  now destruct (strcmp e follows =? 0).
Qed.

(** One step of the loop of [load_configuration]. *)
Lemma load_configuration_step (label : Z) (word : string) (g : gui G) :
  (if label =? OUT_INTENSITY then
     set_combo "intensity_combo" intensity_list word
   else if label =? OUT_PULSATION then
     set_combo "pulsation_combo" pulsation_list word
   else if label =? OUT_CPI_LED_OFF then
     set_scale "cpi_off_scale" word ""
   else if label =? OUT_CPI_LED_ON then
     set_scale "cpi_on_scale" word ""
   else if label =? OUT_POLLING then
     set_scale "polling_scale" word "Hz"
   else gret true) g =
    (Ret (value_accepted label word), gtk_after g (value_calls label word)).
Proof.
  unfold value_accepted, value_calls.
  destruct (label =? OUT_INTENSITY).
  { rewrite set_combo_eq. destruct (set_combo_scan _ _ _);
      [reflexivity | now rewrite gtk_after_nil]. }
  destruct (label =? OUT_PULSATION).
  { rewrite set_combo_eq. destruct (set_combo_scan _ _ _);
      [reflexivity | now rewrite gtk_after_nil]. }
  destruct (label =? OUT_CPI_LED_OFF).
  { rewrite set_scale_eq. cbn [orb]. destruct (_ =? 0);
      [reflexivity | now rewrite gtk_after_nil]. }
  destruct (label =? OUT_CPI_LED_ON).
  { rewrite set_scale_eq. cbn [orb]. destruct (_ =? 0);
      [reflexivity | now rewrite gtk_after_nil]. }
  destruct (label =? OUT_POLLING).
  { rewrite set_scale_eq. cbn [orb]. destruct (_ =? 0);
      [reflexivity | now rewrite gtk_after_nil]. }
  cbn [orb]. now rewrite gtk_after_nil.
Qed.

Lemma value_calls_rejected (label : Z) (word : string) :
  value_accepted label word = false -> value_calls label word = [].
Proof.
  unfold value_accepted, value_calls.
  destruct (label =? OUT_INTENSITY).
  { destruct (set_combo_scan _ _ _); [discriminate | reflexivity]. }
  destruct (label =? OUT_PULSATION).
  { destruct (set_combo_scan _ _ _); [discriminate | reflexivity]. }
  destruct (label =? OUT_CPI_LED_OFF).
  { cbn [orb]. now intros ->. }
  destruct (label =? OUT_CPI_LED_ON).
  { cbn [orb]. now intros ->. }
  destruct (label =? OUT_POLLING).
  { cbn [orb]. now intros ->. }
  reflexivity.
Qed.

(** The loop goes through the values until one is not taken. *)
Lemma load_configuration_loop_eq (words : list string) :
  forall (line : Z) (g : gui G),
  load_configuration_loop words line g =
    (Ret match first_rejected words line with
         | None => (true, line + Z.of_nat (List.length words))
         | Some k => (false, k + 1)
         end,
     gtk_after g (loop_calls words line)).
Proof.
  induction words as [|word rest IH]; intros line g.
  - cbn. now rewrite Z.add_0_r, gtk_after_nil.
  - cbn [load_configuration_loop first_rejected loop_calls].
    unfold gbind at 1. rewrite load_configuration_step.
    destruct (value_accepted line word) eqn:E.
    + rewrite IH, gtk_after_app. f_equal.
      destruct (first_rejected rest (line + 1)); [reflexivity|].
      do 2 f_equal. cbn [List.length]. lia.
    + now rewrite (value_calls_rejected line word E).
Qed.

Lemma value_calls_setters (label : Z) (word : string) :
  Forall is_setter (value_calls label word).
Proof.
  unfold value_calls.
  repeat match goal with
         | |- context [if ?b then _ else _] => destruct b
         | |- context [match ?o with Some _ => _ | None => _ end] => destruct o
         end; repeat constructor.
Qed.

Lemma loop_calls_setters (words : list string) :
  forall line, Forall is_setter (loop_calls words line).
Proof.
  induction words as [|word rest IH]; intros line; cbn [loop_calls].
  - constructor.
  - destruct (value_accepted line word); [|constructor].
    apply Forall_app. split; [apply value_calls_setters | apply IH].
Qed.

(** [spawn_ctl], by the way the child ended. *)
Lemma spawn_ctl_eq (argv : list string) (g : gui G) :
  spawn_ctl argv g =
    let r := fst (w_spawn_sync argv (gtk_world g)) in
    let spawned :=
      mk_gui (snd (w_spawn_sync argv (gtk_world g)))
        (gtk_calls g ++ [G_spawn_sync argv r]) in
    match r with
    | Spawn_error message =>
        (Ret (false, ""),
         gtk_after spawned [Gtk_dialog_run message; Gtk_main_quit])
    | Spawn_done out err status =>
        if match status with Some n => n =? 0 | None => false end
        then (Ret (true, out), spawned)
        else
          match strstr err "no suitable device" with
          | Some _ =>
              (Ret (false, ""),
               gtk_after spawned
                 [Gtk_notebook_set_current_page PAGE_NO_DEVICE])
          | None =>
              (Ret (false, ""),
               gtk_after spawned [Gtk_dialog_run err; Gtk_main_quit])
          end
    end.
Proof.
  unfold spawn_ctl, g_spawn_sync. rewrite gtk_ask_then. cbv zeta.
  destruct (fst (w_spawn_sync argv (gtk_world g))) as [message|out err status].
  - unfold gbind. now rewrite fatal_eq.
  - destruct (match status with Some n => n =? 0 | None => false end);
      [reflexivity|].
    destruct (strstr err "no suitable device").
    + unfold gbind. now rewrite set_page_eq.
    + unfold gbind. now rewrite fatal_eq.
Qed.

(** [load_configuration] when the utility exited with the status 0. *)
Lemma load_configuration_eq (g : gui G) (out err : string) (w1 : G) :
  w_spawn_sync ["pkexec"; program; "--show"] (gtk_world g) =
    (Spawn_done out err (Some 0), w1) ->
  let words := g_regex_match_all "(?<=: ).*$" out in
  let looked_at :=
    match first_rejected words 0 with
    | None => Z.of_nat (List.length words)
    | Some k => k + 1
    end in
  load_configuration program g_regex_match_all gettext g =
    (Ret tt,
     gtk_after
       (mk_gui w1
          (gtk_calls g
           ++ [G_spawn_sync ["pkexec"; program; "--show"]
                 (Spawn_done out err (Some 0))]))
       (loop_calls words 0
        ++ (match first_rejected words 0 with
            | None => [Gtk_notebook_set_current_page PAGE_SETTINGS]
            | Some _ => []
            end)
        ++ (if looked_at =? OUT_COUNT then []
            else [Gtk_dialog_run (gettext "Internal error");
                  Gtk_main_quit]))).
Proof.
  intros Hspawn words looked_at.
  unfold load_configuration. unfold gbind at 1.
  rewrite spawn_ctl_eq, Hspawn. cbn [fst snd Z.eqb]. cbv zeta.
  cbn [negb]. fold words. unfold gbind at 1.
  rewrite load_configuration_loop_eq. subst looked_at.
  destruct (first_rejected words 0) as [k|].
  - unfold gbind at 1, gret at 1. cbv beta iota.
    destruct (k + 1 =? OUT_COUNT); cbn [negb]; cbv iota.
    + cbn [app]. now rewrite app_nil_r.
    + rewrite fatal_eq, gtk_after_app. reflexivity.
  - unfold gbind at 1. rewrite set_page_eq, gtk_after_app. rewrite Z.add_0_l.
    destruct (Z.of_nat (List.length words) =? OUT_COUNT); cbn [negb]; cbv iota.
    + now rewrite app_nil_r.
    + rewrite fatal_eq, gtk_after_app, <- app_assoc. reflexivity.
Qed.

(** X15: what the GUI makes of the output of [--show].  When the utility
    exits with the status 0, the GUI goes through the values the regular
    expression finds in its output, sets a combo box or a range for each
    value it takes, and stops at the first it does not take.  It shows the
    settings page exactly when it took every value, and it raises the
    fatal error [Internal error] (and quits) exactly when the number of
    values it looked at is not five.  So with five values that are taken
    the settings are shown; with a value among the first four not taken
    the error is raised; with fewer or more than five values, all taken,
    the settings page is shown and then the error is raised; and when it
    is the fifth value that is not taken, neither happens. *)
Theorem load_configuration_verdict (g : gui G) (out err : string) (w1 : G) :
  w_spawn_sync ["pkexec"; program; "--show"] (gtk_world g) =
    (Spawn_done out err (Some 0), w1) ->
  let words := g_regex_match_all "(?<=: ).*$" out in
  let looked_at :=
    match first_rejected words 0 with
    | None => Z.of_nat (List.length words)
    | Some k => k + 1
    end in
  let run := load_configuration program g_regex_match_all gettext g in
  exists set,
    fst run = Ret tt /\
    Forall is_setter set /\
    gtk_calls (snd run) =
      (gtk_calls g
       ++ [G_spawn_sync ["pkexec"; program; "--show"]
             (Spawn_done out err (Some 0))]
       ++ set
       ++ (match first_rejected words 0 with
           | None => [Gtk_notebook_set_current_page PAGE_SETTINGS]
           | Some _ => []
           end)
       ++ (if looked_at =? OUT_COUNT then []
           else [Gtk_dialog_run (gettext "Internal error"); Gtk_main_quit]))%list.
Proof.
  intros Hspawn words looked_at run. subst run.
  rewrite (load_configuration_eq g out err w1 Hspawn).
  exists (loop_calls words 0). cbn [fst snd gtk_after gtk_calls].
  split; [reflexivity|]. split; [apply loop_calls_setters|].
  now rewrite <- !app_assoc.
Qed.

Lemma intensity_combo_index (v : Z) :
  1 <= v <= 4 -> set_combo_scan intensity_list (intensity_text v) 0 = Some (v - 1).
Proof.
  intros H. assert (Hc : v = 1 \/ v = 2 \/ v = 3 \/ v = 4) by lia.
  destruct Hc as [-> | [-> | [-> | ->]]]; reflexivity.
Qed.

Lemma pulsation_combo_index (v : Z) :
  1 <= v <= 4 -> set_combo_scan pulsation_list (pulsation_text v) 0 = Some (v - 1).
Proof.
  intros H. assert (Hc : v = 1 \/ v = 2 \/ v = 3 \/ v = 4) by lia.
  destruct Hc as [-> | [-> | [-> | ->]]]; reflexivity.
Qed.

Lemma polling_scale_value (v : Z) :
  1 <= v <= 4 -> g_ascii_strtoll (polling_text v) = (polling_hz v, "Hz").
Proof.
  intros H. assert (Hc : v = 1 \/ v = 2 \/ v = 3 \/ v = 4) by lia.
  destruct Hc as [-> | [-> | [-> | ->]]]; reflexivity.
Qed.

Lemma cpi_scale_value (c : Z) :
  0 <= c <= 255 -> g_ascii_strtoll (string_of_int (90 * c)) = (90 * c, "").
Proof.
  intros H. unfold g_ascii_strtoll, string_of_int.
  replace (90 * c <? 0) with false by (symmetry; apply Z.ltb_ge; lia).
  rewrite strtol10_digits by lia. f_equal.
  assert (HM : LONG_MAX = 9223372036854775807) by reflexivity. lia.
Qed.

Lemma unknown_word (v : Z) :
  ~ 1 <= v <= 4 ->
  intensity_text v = "unknown" /\ pulsation_text v = "unknown" /\
  polling_text v = "unknown".
Proof.
  intros H. unfold intensity_text, pulsation_text, polling_text.
  replace (v =? 1) with false by (symmetry; apply Z.eqb_neq; lia).
  replace (v =? 2) with false by (symmetry; apply Z.eqb_neq; lia).
  replace (v =? 3) with false by (symmetry; apply Z.eqb_neq; lia).
  replace (v =? 4) with false by (symmetry; apply Z.eqb_neq; lia).
  repeat split.
Qed.

Lemma report_values_loop (config : sensei_config) :
  1 <= intensity config <= 4 -> 1 <= pulsation config <= 4 ->
  0 <= cpi_off config <= 255 -> 0 <= cpi_on config <= 255 ->
  let setters :=
    [Gtk_combo_box_set_active "intensity_combo" (intensity config - 1);
     Gtk_combo_box_set_active "pulsation_combo" (pulsation config - 1);
     Gtk_range_set_value "cpi_off_scale" (90 * cpi_off config);
     Gtk_range_set_value "cpi_on_scale" (90 * cpi_on config)] in
  (1 <= polling config <= 4 ->
   first_rejected (report_values config) 0 = None /\
   loop_calls (report_values config) 0 =
     (setters
      ++ [Gtk_range_set_value "polling_scale" (polling_hz (polling config))])%list) /\
  (~ 1 <= polling config <= 4 ->
   first_rejected (report_values config) 0 = Some OUT_POLLING /\
   loop_calls (report_values config) 0 = setters).
Proof.
  intros Hi Hp Hoff Hon setters. subst setters.
  unfold report_values. cbn [first_rejected loop_calls].
  unfold value_accepted, value_calls. cbn [Z.add Pos.add Pos.succ].
  change (0 =? OUT_INTENSITY) with true.
  change (1 =? OUT_INTENSITY) with false. change (1 =? OUT_PULSATION) with true.
  change (2 =? OUT_INTENSITY) with false. change (2 =? OUT_PULSATION) with false.
  change (2 =? OUT_CPI_LED_OFF) with true.
  change (3 =? OUT_INTENSITY) with false. change (3 =? OUT_PULSATION) with false.
  change (3 =? OUT_CPI_LED_OFF) with false. change (3 =? OUT_CPI_LED_ON) with true.
  change (4 =? OUT_INTENSITY) with false. change (4 =? OUT_PULSATION) with false.
  change (4 =? OUT_CPI_LED_OFF) with false. change (4 =? OUT_CPI_LED_ON) with false.
  change (4 =? OUT_POLLING) with true.
  cbv iota. cbn [orb]. cbv iota.
  rewrite (intensity_combo_index _ Hi), (pulsation_combo_index _ Hp).
  rewrite (cpi_scale_value _ Hoff), (cpi_scale_value _ Hon).
  cbn [fst snd strcmp Z.eqb]. cbv iota.
  split; intros Hf.
  - rewrite (polling_scale_value _ Hf). cbn. split; reflexivity.
  - destruct (unknown_word _ Hf) as (_ & _ & ->). cbn. split; reflexivity.
Qed.

(** X16: the GUI reads back what the utility shows.  When [--show] prints
    the report of a configuration whose enumerated fields hold recognised
    values, and the regular expression finds in it the value of each line,
    [load_configuration] sets the intensity and the pulsation combo boxes
    to the entries numbered by the values less one, the two CPI ranges to
    the CPI shown (90 times the step read from the device), the polling
    range to the frequency shown, then shows the settings page; it raises
    no error. *)
Theorem load_configuration_round_trip (g : gui G) (config : sensei_config)
    (err : string) (w1 : G) :
  w_spawn_sync ["pkexec"; program; "--show"] (gtk_world g) =
    (Spawn_done (report_text config) err (Some 0), w1) ->
  g_regex_match_all "(?<=: ).*$" (report_text config) = report_values config ->
  1 <= intensity config <= 4 -> 1 <= pulsation config <= 4 ->
  1 <= polling config <= 4 ->
  0 <= cpi_off config <= 255 -> 0 <= cpi_on config <= 255 ->
  let run := load_configuration program g_regex_match_all gettext g in
  fst run = Ret tt /\
  gtk_calls (snd run) =
    (gtk_calls g
     ++ [G_spawn_sync ["pkexec"; program; "--show"]
           (Spawn_done (report_text config) err (Some 0));
         Gtk_combo_box_set_active "intensity_combo" (intensity config - 1);
         Gtk_combo_box_set_active "pulsation_combo" (pulsation config - 1);
         Gtk_range_set_value "cpi_off_scale" (90 * cpi_off config);
         Gtk_range_set_value "cpi_on_scale" (90 * cpi_on config);
         Gtk_range_set_value "polling_scale" (polling_hz (polling config));
         Gtk_notebook_set_current_page PAGE_SETTINGS])%list.
Proof.
  intros Hspawn Hregex Hi Hp Hf Hoff Hon run. subst run.
  rewrite (load_configuration_eq g _ err w1 Hspawn). cbv zeta.
  rewrite Hregex.
  destruct (report_values_loop config Hi Hp Hoff Hon) as [Hok _].
  destruct (Hok Hf) as [-> ->].
  cbn [fst snd gtk_after gtk_calls report_values List.length Z.of_nat].
  split; [reflexivity|]. now rewrite <- !app_assoc.
Qed.

(** X17: a polling value the utility does not know leaves the GUI on the
    page it was on, without a word.  When the report holds recognised
    intensity and pulsation values but a polling value that is none of the
    four, the utility prints [unknown] on the fifth line; the GUI sets the
    two combo boxes and the two CPI ranges, does not take the fifth value,
    and then neither shows the settings page nor raises an error: the
    fifth value is the one value whose refusal leaves the line count at
    five. *)
Theorem unknown_polling_is_silent (g : gui G) (config : sensei_config)
    (err : string) (w1 : G) :
  w_spawn_sync ["pkexec"; program; "--show"] (gtk_world g) =
    (Spawn_done (report_text config) err (Some 0), w1) ->
  g_regex_match_all "(?<=: ).*$" (report_text config) = report_values config ->
  1 <= intensity config <= 4 -> 1 <= pulsation config <= 4 ->
  ~ 1 <= polling config <= 4 ->
  0 <= cpi_off config <= 255 -> 0 <= cpi_on config <= 255 ->
  let run := load_configuration program g_regex_match_all gettext g in
  fst run = Ret tt /\
  gtk_calls (snd run) =
    (gtk_calls g
     ++ [G_spawn_sync ["pkexec"; program; "--show"]
           (Spawn_done (report_text config) err (Some 0));
         Gtk_combo_box_set_active "intensity_combo" (intensity config - 1);
         Gtk_combo_box_set_active "pulsation_combo" (pulsation config - 1);
         Gtk_range_set_value "cpi_off_scale" (90 * cpi_off config);
         Gtk_range_set_value "cpi_on_scale" (90 * cpi_on config)])%list.
Proof.
  intros Hspawn Hregex Hi Hp Hf Hoff Hon run. subst run.
  rewrite (load_configuration_eq g _ err w1 Hspawn). cbv zeta.
  rewrite Hregex.
  destruct (report_values_loop config Hi Hp Hoff Hon) as [_ Hbad].
  destruct (Hbad Hf) as [-> ->].
  cbn [fst snd gtk_after gtk_calls Z.add Z.eqb Pos.eqb Pos.add app].
  split; [reflexivity|]. now rewrite <- !app_assoc.
Qed.

End InterfaceRuns.

(** ** The GUI and the utility together *)

Lemma prefix_append (s t : string) : String.prefix s (s ++ t) = true.
Proof.
  induction s as [|c s IH]; cbn.
  - now destruct t.
  - rewrite IH. destruct (ascii_dec c c); [reflexivity | contradiction].
Qed.

Lemma strstr_prefix (haystack needle : string) :
  String.prefix needle haystack = true ->
  strstr haystack needle = Some haystack.
Proof.
  intros H. destruct haystack; cbn [strstr]; now rewrite H.
Qed.

(** [strstr] finds a needle that is there. *)
Lemma strstr_found (a needle b : string) :
  exists s, strstr (a ++ needle ++ b) needle = Some s.
Proof.
  induction a as [|c a IH].
  - cbn [append]. exists (needle ++ b).
    apply strstr_prefix, prefix_append.
  - cbn [append strstr].
    destruct (String.prefix needle (String c (a ++ needle ++ b)));
      [eexists; reflexivity | exact IH].
Qed.

Lemma encode_cpi_value {W} (c : Z) (st : state W) :
  0 <= c ->
  exists st',
    encode_cpi (string_of_int c) st = (Ret (cpi_step c), st') /\
    calls st' = calls st /\ world st' = world st.
Proof.
  intros Hc. rewrite encode_cpi_digits by assumption. cbv zeta.
  assert (HM : LONG_MAX = 9223372036854775807) by reflexivity.
  set (q := Z.min c LONG_MAX / 90). unfold cpi_step.
  assert (Hq : c <= LONG_MAX /\ q = c / 90 \/
               LONG_MAX < c /\ 63 < q /\ 63 < c / 90).
  { destruct (Z_le_gt_dec c LONG_MAX) as [Hle|Hgt].
    - left. split; [assumption|]. unfold q. now rewrite Z.min_l.
    - right. split; [lia|]. unfold q. rewrite Z.min_r by lia.
      split; [rewrite HM; reflexivity|].
      apply Z.lt_le_trans with (LONG_MAX / 90); [rewrite HM; reflexivity|].
      apply Z.div_le_mono; lia. }
  destruct (q <? 1) eqn:E1.
  - apply Z.ltb_lt in E1. eexists.
    split; [apply f_equal2; [f_equal; lia | reflexivity] | split; reflexivity].
  - apply Z.ltb_ge in E1. destruct (q >? 63) eqn:E2.
    + rewrite Z.gtb_ltb in E2. apply Z.ltb_lt in E2.
      eexists.
      split; [apply f_equal2; [f_equal; lia | reflexivity] | split; reflexivity].
    + rewrite Z.gtb_ltb in E2. apply Z.ltb_ge in E2.
      exists st.
      split; [apply f_equal2; [f_equal; lia | reflexivity] | split; reflexivity].
Qed.

Section Together.

Context {W : Type} {U : UsbWorld W} {G : Type} {T : GtkWorld G}.
Variable getopt_long :
  list string -> string -> list long_option -> list (ascii * string) * Z.
Variable PROJECT_NAME : string.
Variable PROJECT_VERSION : string.
Variable data_uninit : list Z.
Variable config_uninit : sensei_config.
Variable program : string.

(** X18: the page for a missing mouse.  When the utility, run by the GUI,
    initialises the library and its discovery finds no device and meets no
    error, it prints [no suitable device found] last on its standard error
    stream and returns 1; [spawn_ctl], given that output and that status,
    finds the words it looks for and shows the page for a missing device,
    with no error dialog, and returns [FALSE]. *)
Theorem no_device_shows_page (argv : list string) (st st1 st2 : state W)
    (opts : options) (new_config : sensei_config) (g : gui G) (w1 : G) :
  parse_options getopt_long PROJECT_NAME PROJECT_VERSION argv
    (mk_options false false false false false false false false)
    (mk_config 0 0 0 0 0 0) st = (Ret (opts, new_config), st1) ->
  fst (w_init (world st1)) = 0 ->
  find_device_list USB_VENDOR_STEELSERIES products 0
    (mk_state (snd (w_init (world st1))) (calls st1 ++ [Call_init 0])
       (stdout st1) (stderr st1)) = (Ret (None, 0), st2) ->
  let run := main getopt_long PROJECT_NAME PROJECT_VERSION data_uninit
               config_uninit argv st in
  let child :=
    Spawn_done (stdout (snd run)) (stderr (snd run)) (exit_status (fst run)) in
  w_spawn_sync ("pkexec" :: argv) (gtk_world g) = (child, w1) ->
  fst run = Ret 1 /\
  stderr (snd run) = stderr st2 ++ ("Error: no suitable device found" ++ LF) /\
  spawn_ctl ("pkexec" :: argv) g =
    (Ret (false, ""),
     gtk_after
       (mk_gui w1 (gtk_calls g ++ [G_spawn_sync ("pkexec" :: argv) child]))
       [Gtk_notebook_set_current_page PAGE_NO_DEVICE]).
Proof.
  intros Hparse Hinit Hfind run child Hspawn.
  assert (Hrun : run =
    (Ret 1,
     mk_state (w_exit (world st2)) (calls st2 ++ [Call_exit]) (stdout st2)
       (stderr st2 ++ ("Error: no suitable device found" ++ LF)))).
  { subst run. rewrite main_eq, Hparse, main_usb_eq. cbv zeta.
    rewrite Hinit. cbn [Z.eqb negb]. rewrite Hfind. cbn [Z.eqb negb].
    rewrite ERROR_eq, main_error_1_run. reflexivity. }
  assert (Hchild : child =
    Spawn_done (stdout st2)
      (stderr st2 ++ ("Error: no suitable device found" ++ LF)) (Some 1)).
  { subst child. now rewrite Hrun. }
  clearbody child run. subst run.
  split; [reflexivity|]. split; [reflexivity|].
  rewrite spawn_ctl_eq, Hspawn. cbn [fst snd]. rewrite Hchild at 1.
  cbn [Z.eqb].
  replace (stderr st2 ++ ("Error: no suitable device found" ++ LF))
    with ((stderr st2 ++ "Error: ") ++ "no suitable device" ++ (" found" ++ LF))
    by (rewrite string_app_assoc; reflexivity).
  destruct (strstr_found (stderr st2 ++ "Error: ") "no suitable device"
              (" found" ++ LF)) as (s & ->).
  reflexivity.
Qed.

End Together.

Section SaveRequest.

Context {W : Type} {G : Type} {T : GtkWorld G}.
Variable getopt_long :
  list string -> string -> list long_option -> list (ascii * string) * Z.
Variable PROJECT_NAME : string.
Variable PROJECT_VERSION : string.
Variable program : string.

(** What the widgets hold while the GUI reads them: the polling range a
    frequency the utility knows, the CPI ranges two numbers that are not
    negative, the combo boxes the entries numbered [pulsation_entry] and
    [intensity_entry]. *)
Variable polling_code : Z.
Variable cpi_on_value : Z.
Variable cpi_off_value : Z.
Variable pulsation_entry : Z.
Variable intensity_entry : Z.

Hypothesis polling_scale_holds : forall w : G,
  fst (w_range_get_value "polling_scale" w) =
    string_of_int (polling_hz polling_code).
Hypothesis cpi_on_scale_holds : forall w : G,
  fst (w_range_get_value "cpi_on_scale" w) = string_of_int cpi_on_value.
Hypothesis cpi_off_scale_holds : forall w : G,
  fst (w_range_get_value "cpi_off_scale" w) = string_of_int cpi_off_value.
Hypothesis pulsation_combo_holds : forall w : G,
  fst (w_combo_box_get_active "pulsation_combo" w) = pulsation_entry.
Hypothesis intensity_combo_holds : forall w : G,
  fst (w_combo_box_get_active "intensity_combo" w) = intensity_entry.

Lemma parse_polling_hz (argv0 : string) (opts : options)
    (new_config : sensei_config) (st : state W) :
  1 <= polling_code <= 4 ->
  parse_option PROJECT_NAME PROJECT_VERSION argv0 "p"
    (string_of_int (polling_hz polling_code)) opts new_config st =
    (Ret (with_set_polling opts, with_polling new_config polling_code), st).
Proof.
  intros H.
  assert (Hc : polling_code = 1 \/ polling_code = 2 \/ polling_code = 3
               \/ polling_code = 4) by lia.
  destruct st. destruct Hc as [-> | [-> | [-> | ->]]]; reflexivity.
Qed.

Lemma parse_pulsation_entry (argv0 : string) (opts : options)
    (new_config : sensei_config) (st : state W) :
  0 <= pulsation_entry < 4 ->
  parse_option PROJECT_NAME PROJECT_VERSION argv0 "P"
    (nth (Z.to_nat pulsation_entry) pulsation_list "") opts new_config st =
    (Ret (with_set_pulsation opts,
          with_pulsation new_config (pulsation_entry + 1)), st).
Proof.
  intros H.
  assert (Hc : pulsation_entry = 0 \/ pulsation_entry = 1
               \/ pulsation_entry = 2 \/ pulsation_entry = 3) by lia.
  destruct st. destruct Hc as [-> | [-> | [-> | ->]]]; reflexivity.
Qed.

Lemma parse_intensity_entry (argv0 : string) (opts : options)
    (new_config : sensei_config) (st : state W) :
  0 <= intensity_entry < 4 ->
  parse_option PROJECT_NAME PROJECT_VERSION argv0 "i"
    (nth (Z.to_nat intensity_entry) intensity_list "") opts new_config st =
    (Ret (with_set_intensity opts,
          with_intensity new_config (intensity_entry + 1)), st).
Proof.
  intros H.
  assert (Hc : intensity_entry = 0 \/ intensity_entry = 1
               \/ intensity_entry = 2 \/ intensity_entry = 3) by lia.
  destruct st. destruct Hc as [-> | [-> | [-> | ->]]]; reflexivity.
Qed.

Lemma parse_loop_cons (argv0 : string) (c : ascii) (optarg : string)
    (rest : list (ascii * string)) (opts : options)
    (new_config : sensei_config) (st : state W) :
  parse_loop PROJECT_NAME PROJECT_VERSION argv0 ((c, optarg) :: rest) opts
    new_config st =
    match parse_option PROJECT_NAME PROJECT_VERSION argv0 c optarg opts
            new_config st with
    | (Ret (opts', new_config'), st') =>
        parse_loop PROJECT_NAME PROJECT_VERSION argv0 rest opts' new_config' st'
    | (Exited n, st') => (Exited n, st')
    | (Aborted, st') => (Aborted, st')
    end.
Proof.
  cbn [parse_loop]. unfold bind.
  destruct (parse_option _ _ argv0 c optarg opts new_config st)
    as [[[opts' config']| |] st']; reflexivity.
Qed.

Lemma parse_cpi_on_value (argv0 : string) (opts : options)
    (new_config : sensei_config) (st : state W) :
  0 <= cpi_on_value ->
  exists st',
    parse_option PROJECT_NAME PROJECT_VERSION argv0 "c"
      (string_of_int cpi_on_value) opts new_config st =
      (Ret (with_set_cpi_on opts,
            with_cpi_on new_config (cpi_step cpi_on_value)), st') /\
    calls st' = calls st /\ world st' = world st.
Proof.
  intros H. destruct (encode_cpi_value cpi_on_value st H) as (st' & E & Hc & Hw).
  exists st'. cbn [parse_option]. unfold bind. rewrite E.
  split; [reflexivity | now split].
Qed.

Lemma parse_cpi_off_value (argv0 : string) (opts : options)
    (new_config : sensei_config) (st : state W) :
  0 <= cpi_off_value ->
  exists st',
    parse_option PROJECT_NAME PROJECT_VERSION argv0 "C"
      (string_of_int cpi_off_value) opts new_config st =
      (Ret (with_set_cpi_off opts,
            with_cpi_off new_config (cpi_step cpi_off_value)), st') /\
    calls st' = calls st /\ world st' = world st.
Proof.
  intros H. destruct (encode_cpi_value cpi_off_value st H) as (st' & E & Hc & Hw).
  exists st'. cbn [parse_option]. unfold bind. rewrite E.
  split; [reflexivity | now split].
Qed.

(** X19: the Apply button builds a command line the utility accepts.
    [save_configuration] reads the three ranges and the two combo boxes,
    then runs the utility once, on a command line made of the program and
    of [--polling], [--cpi-on], [--cpi-off], [--pulsation], [--intensity]
    with what it read, and [--save].  Given that command line,
    [parse_options] exits on no error: it returns the request to write the
    polling, the intensity, the pulsation and both CPI values and to save
    them, in which the pulsation and the intensity are the numbers of the
    combo box entries plus one, the polling is the code of the frequency,
    and each CPI is the step of the value of its range. *)
Theorem save_configuration_request (g : gui G) (st : state W) (save_arg : string) :
  1 <= polling_code <= 4 ->
  0 <= cpi_on_value -> 0 <= cpi_off_value ->
  0 <= pulsation_entry < 4 -> 0 <= intensity_entry < 4 ->
  let polling := string_of_int (polling_hz polling_code) in
  let cpi_on := string_of_int cpi_on_value in
  let cpi_off := string_of_int cpi_off_value in
  let pulsation := nth (Z.to_nat pulsation_entry) pulsation_list "" in
  let intensity := nth (Z.to_nat intensity_entry) intensity_list "" in
  let argv :=
    [program; "--polling"; polling; "--cpi-on"; cpi_on; "--cpi-off"; cpi_off;
     "--pulsation"; pulsation; "--intensity"; intensity; "--save"] in
  getopt_long argv "h" long_opts =
    ([("p"%char, polling); ("c"%char, cpi_on); ("C"%char, cpi_off);
      ("P"%char, pulsation); ("i"%char, intensity); ("S"%char, save_arg)],
     12) ->
  (exists r rest,
     gtk_calls (snd (save_configuration program g)) =
       (gtk_calls g
        ++ [Gtk_range_get_value "polling_scale" polling;
            Gtk_range_get_value "cpi_on_scale" cpi_on;
            Gtk_range_get_value "cpi_off_scale" cpi_off;
            Gtk_combo_box_get_active "pulsation_combo" pulsation_entry;
            Gtk_combo_box_get_active "intensity_combo" intensity_entry;
            G_spawn_sync ("pkexec" :: argv) r]
        ++ rest)%list) /\
  (exists st',
     parse_options getopt_long PROJECT_NAME PROJECT_VERSION argv
       (mk_options false false false false false false false false)
       (mk_config 0 0 0 0 0 0) st =
       (Ret (mk_options false true true false true true true true,
             mk_config 0 (cpi_step cpi_off_value) (cpi_step cpi_on_value)
               (pulsation_entry + 1) (intensity_entry + 1) polling_code),
        st') /\
     calls st' = calls st /\ world st' = world st).
Proof.
  intros Hf Hon Hoff Hp Hi polling cpi_on cpi_off pulsation intensity argv Hget.
  split.
  - unfold save_configuration, gtk_range_get_value, gtk_combo_box_get_active.
    rewrite gtk_ask_then, polling_scale_holds. cbn [gtk_world gtk_calls].
    rewrite gtk_ask_then, cpi_on_scale_holds. cbn [gtk_world gtk_calls].
    rewrite gtk_ask_then, cpi_off_scale_holds. cbn [gtk_world gtk_calls].
    rewrite gtk_ask_then, pulsation_combo_holds. cbn [gtk_world gtk_calls].
    unfold gbind at 1, g_assert at 1.
    replace ((pulsation_entry >=? 0)
             && (pulsation_entry <? Z.of_nat (List.length pulsation_list)))
      with true.
    2:{ symmetry. apply andb_true_intro. split.
        - rewrite Z.geb_leb. apply Z.leb_le. lia.
        - apply Z.ltb_lt. cbn. lia. }
    rewrite gtk_ask_then, intensity_combo_holds. cbn [gtk_world gtk_calls].
    unfold gbind at 1, g_assert at 1.
    replace ((intensity_entry >=? 0)
             && (intensity_entry <? Z.of_nat (List.length intensity_list)))
      with true.
    2:{ symmetry. apply andb_true_intro. split.
        - rewrite Z.geb_leb. apply Z.leb_le. lia.
        - apply Z.ltb_lt. cbn. lia. }
    cbv zeta. unfold gbind at 1. rewrite spawn_ctl_eq. cbv zeta.
    cbn [gtk_world gtk_calls].
    fold polling cpi_on cpi_off pulsation intensity. fold argv.
    match goal with |- context [G_spawn_sync _ ?r0] => set (r := r0) end.
    exists r.
    destruct r as [message|out err status].
    + eexists. cbn [gret snd gtk_after gtk_calls].
      rewrite <- !app_assoc. reflexivity.
    + destruct (match status with Some n => n =? 0 | None => false end).
      * exists []. cbn [gret snd gtk_calls].
        rewrite <- !app_assoc. reflexivity.
      * destruct (strstr err "no suitable device");
          eexists; cbn [gret snd gtk_after gtk_calls];
          rewrite <- !app_assoc; reflexivity.
  - unfold parse_options.
    change (Z.of_nat (List.length argv) =? 1) with false. cbv iota.
    unfold bind at 1, ret at 1. rewrite Hget. unfold bind at 1.
    subst polling cpi_on cpi_off pulsation intensity.
    rewrite parse_loop_cons, (parse_polling_hz _ _ _ _ Hf).
    destruct (parse_cpi_on_value (hd "" argv) (with_set_polling
                (mk_options false false false false false false false false))
                (with_polling (mk_config 0 0 0 0 0 0) polling_code) st Hon)
      as (st1 & E1 & Hc1 & Hw1).
    rewrite parse_loop_cons, E1.
    match goal with |- context [parse_loop _ _ _ _ ?o ?c st1] =>
      destruct (parse_cpi_off_value (hd "" argv) o c st1 Hoff)
        as (st2 & E2 & Hc2 & Hw2) end.
    rewrite parse_loop_cons, E2.
    rewrite parse_loop_cons, (parse_pulsation_entry _ _ _ _ Hp).
    rewrite parse_loop_cons, (parse_intensity_entry _ _ _ _ Hi).
    rewrite parse_loop_cons. cbn [parse_option ret parse_loop].
    change (12 <? Z.of_nat (List.length argv)) with false. cbv iota.
    unfold bind, ret.
    exists st2. split; [reflexivity|]. split; congruence.
Qed.

End SaveRequest.

(** ** The legacy-mode button *)

Section LegacyButton.

Context {W : Type} {U : UsbWorld W} {G : Type} {T : GtkWorld G}.
Variable getopt_long :
  list string -> string -> list long_option -> list (ascii * string) * Z.
Variable PROJECT_NAME : string.
Variable PROJECT_VERSION : string.
Variable data_uninit : list Z.
Variable config_uninit : sensei_config.
Variable program : string.

(** X20: the legacy-mode button ends the GUI.  [on_set_mode_legacy] runs
    the utility with [--mode compat], an argument [parse_options] does not
    take: the utility, started with nothing on its standard error stream,
    prints [Error: invalid mode: compat] and exits with the failure status
    before any library call.  [spawn_ctl], given that output and that
    status, does not find the words for a missing device in it, so it
    shows the output in the dialog of [fatal] and quits the main loop. *)
Theorem legacy_button_is_fatal (st : state W) (g : gui G) (w1 : G) :
  let argv := [program; "--mode"; "compat"] in
  getopt_long argv "h" long_opts = ([("m"%char, "compat")], 3) ->
  stderr st = "" ->
  let run := main getopt_long PROJECT_NAME PROJECT_VERSION data_uninit
               config_uninit argv st in
  let child :=
    Spawn_done (stdout (snd run)) (stderr (snd run)) (exit_status (fst run)) in
  w_spawn_sync ("pkexec" :: argv) (gtk_world g) = (child, w1) ->
  fst run = Exited EXIT_FAILURE /\
  calls (snd run) = calls st /\
  on_set_mode_legacy program g =
    (Ret tt,
     gtk_after
       (mk_gui w1 (gtk_calls g ++ [G_spawn_sync ("pkexec" :: argv) child]))
       [Gtk_dialog_run ("Error: invalid mode: compat" ++ LF); Gtk_main_quit]).
Proof.
  intros argv Hget Herr run child Hspawn.
  destruct (main_invalid_mode getopt_long PROJECT_NAME PROJECT_VERSION
              data_uninit config_uninit argv [] [] 3 "compat" st st
              (mk_options false false false false false false false false)
              (mk_config 0 0 0 0 0 0) Hget)
    as (Hexit & Hcalls & _ & Hstderr);
    try reflexivity; try discriminate.
  fold run in Hexit, Hcalls, Hstderr.
  assert (Hchild : child =
    Spawn_done (stdout (snd run)) ("Error: invalid mode: compat" ++ LF)
      (Some 1)).
  { subst child. rewrite Hexit, Hstderr, Herr. reflexivity. }
  clearbody child run.
  split; [assumption|]. split; [assumption|].
  unfold on_set_mode_legacy, gbind. fold argv.
  rewrite spawn_ctl_eq, Hspawn. cbn [fst snd]. rewrite Hchild at 1.
  reflexivity.
Qed.

End LegacyButton.

(** ** The polling scale *)

Lemma lt_gint_spec (value : Q) (x : Z) :
  if lt_gint value x then (value < inject_Z x)%Q else (inject_Z x <= value)%Q.
Proof.
  unfold lt_gint. destruct (Qle_bool (inject_Z x) value) eqn:E; cbn [negb].
  - now apply Qle_bool_iff.
  - apply Qnot_le_lt. intros H. apply Qle_bool_iff in H. congruence.
Qed.

Lemma ge_gint_spec (x : Z) (value : Q) :
  if ge_gint x value then (value <= inject_Z x)%Q else (inject_Z x < value)%Q.
Proof.
  unfold ge_gint. destruct (Qle_bool value (inject_Z x)) eqn:E.
  - now apply Qle_bool_iff.
  - apply Qnot_le_lt. intros H. apply Qle_bool_iff in H. congruence.
Qed.

(** Where the jump loop puts a value: the bounds are the halves of the
    sums of two neighbours, rounded down. *)
Lemma jump_loop_cases (value : Q) :
  (value < 187 /\ jump_loop 4 0 value = inject_Z 125)%Q \/
  (187 <= value < 375 /\ jump_loop 4 0 value = inject_Z 250)%Q \/
  (375 <= value < 750 /\ jump_loop 4 0 value = inject_Z 500)%Q \/
  (750 <= value /\ jump_loop 4 0 value = inject_Z 1000)%Q.
Proof.
  cbn [jump_loop].
  change ((steps_nth 0 + steps_nth (0 + 1)) ÷ 2) with 187.
  change ((steps_nth (0 + 1) + steps_nth (0 + 1 + 1)) ÷ 2) with 375.
  change ((steps_nth (0 + 1 + 1) + steps_nth (0 + 1 + 1 + 1)) ÷ 2) with 750.
  change (0 =? Z.of_nat (List.length steps) - 1) with false.
  change (0 + 1 =? Z.of_nat (List.length steps) - 1) with false.
  change (0 + 1 + 1 =? Z.of_nat (List.length steps) - 1) with false.
  change (0 + 1 + 1 + 1 =? Z.of_nat (List.length steps) - 1) with true.
  cbn [orb].
  pose proof (lt_gint_spec value 187) as H1.
  pose proof (lt_gint_spec value 375) as H2.
  pose proof (lt_gint_spec value 750) as H3.
  destruct (lt_gint value 187); [left; split; [exact H1 | reflexivity]|].
  destruct (lt_gint value 375);
    [right; left; split; [split; assumption | reflexivity]|].
  destruct (lt_gint value 750);
    [right; right; left; split; [split; assumption | reflexivity]|].
  right; right; right. split; [assumption | reflexivity].
Qed.

Lemma forward_loop_cases (value : Q) :
  (value < 125 /\ forward_loop 4 0 value = inject_Z 125)%Q \/
  (125 <= value < 250 /\ forward_loop 4 0 value = inject_Z 250)%Q \/
  (250 <= value < 500 /\ forward_loop 4 0 value = inject_Z 500)%Q \/
  (500 <= value < 1000 /\ forward_loop 4 0 value = inject_Z 1000)%Q \/
  (1000 <= value /\ forward_loop 4 0 value = value)%Q.
Proof.
  cbn [forward_loop].
  change (steps_nth 0) with 125. change (steps_nth (0 + 1)) with 250.
  change (steps_nth (0 + 1 + 1)) with 500.
  change (steps_nth (0 + 1 + 1 + 1)) with 1000.
  pose proof (lt_gint_spec value 125) as H1.
  pose proof (lt_gint_spec value 250) as H2.
  pose proof (lt_gint_spec value 500) as H3.
  pose proof (lt_gint_spec value 1000) as H4.
  destruct (lt_gint value 125); [left; split; [exact H1 | reflexivity]|].
  destruct (lt_gint value 250);
    [right; left; split; [split; assumption | reflexivity]|].
  destruct (lt_gint value 500);
    [right; right; left; split; [split; assumption | reflexivity]|].
  destruct (lt_gint value 1000);
    [right; right; right; left; split; [split; assumption | reflexivity]|].
  right; right; right; right. split; [assumption | reflexivity].
Qed.

Lemma backward_loop_cases (value : Q) :
  (value <= 250 /\ backward_loop 3 0 value = inject_Z 125)%Q \/
  (250 < value <= 500 /\ backward_loop 3 0 value = inject_Z 250)%Q \/
  (500 < value <= 1000 /\ backward_loop 3 0 value = inject_Z 500)%Q \/
  (1000 < value /\ backward_loop 3 0 value = value)%Q.
Proof.
  cbn [backward_loop].
  change (steps_nth 0) with 125. change (steps_nth (0 + 1)) with 250.
  change (steps_nth (0 + 1 + 1)) with 500.
  change (steps_nth (0 + 1 + 1 + 1)) with 1000.
  pose proof (ge_gint_spec 250 value) as H1.
  pose proof (ge_gint_spec 500 value) as H2.
  pose proof (ge_gint_spec 1000 value) as H3.
  destruct (ge_gint 250 value); [left; split; [exact H1 | reflexivity]|].
  destruct (ge_gint 500 value);
    [right; left; split; [split; assumption | reflexivity]|].
  destruct (ge_gint 1000 value);
    [right; right; left; split; [split; assumption | reflexivity]|].
  right; right; right. split; [assumption | reflexivity].
Qed.

Section PollingScale.

Context {G : Type} {T : GtkWorld G}.
Variable range : string.

Lemma on_change_value_eq (scroll : GtkScrollType) (value : Q) (g : gui G) :
  on_change_value range scroll value g =
    let current := fst (w_adjustment_get_value range (gtk_world g)) in
    let set g' v :=
      (Ret true, gtk_after g' [Gtk_adjustment_set_value range v]) in
    match scroll with
    | GTK_SCROLL_NONE | GTK_SCROLL_JUMP => set g (jump_loop 4 0 value)
    | GTK_SCROLL_STEP_BACKWARD | GTK_SCROLL_PAGE_BACKWARD =>
        set (asked range g) (backward_loop 3 0 current)
    | GTK_SCROLL_STEP_FORWARD | GTK_SCROLL_PAGE_FORWARD =>
        set (asked range g) (forward_loop 4 0 current)
    | GTK_SCROLL_START => set g (inject_Z 125)
    | GTK_SCROLL_END => set g (inject_Z 1000)
    | _ => (Aborted, g)
    end.
Proof.
  unfold on_change_value, gtk_adjustment_get_value. cbv zeta.
  destruct scroll; try reflexivity;
    unfold gbind at 1; rewrite gtk_ask_then; reflexivity.
Qed.

End PollingScale.

Section PollingScaleRuns.

Context {G : Type} {T : GtkWorld G}.
Variable range : string.

(** X21: where a jump puts the polling scale.  For the scroll types
    [GTK_SCROLL_NONE] and [GTK_SCROLL_JUMP], [on_change_value] does not ask
    for the value of the adjustment: it sets it to 125 for a proposed value
    below 187, to 250 from 187 and below 375, to 500 from 375 and below
    750, and to 1000 from 750 on (the bounds are the halves of the sums of
    two neighbours, rounded down), so whatever value is proposed, one of
    the four frequencies is set.  [GTK_SCROLL_START] sets 125 and
    [GTK_SCROLL_END] sets 1000.  The eight scroll types without a case
    reach [g_assert_not_reached] before anything is set. *)
Theorem polling_scale_snaps (scroll : GtkScrollType) (value : Q) (g : gui G) :
  let run := on_change_value range scroll value g in
  let set v :=
    (Ret true, gtk_after g [Gtk_adjustment_set_value range (inject_Z v)]) in
  (scroll = GTK_SCROLL_NONE \/ scroll = GTK_SCROLL_JUMP ->
   (value < 187)%Q /\ run = set 125 \/
   (187 <= value < 375)%Q /\ run = set 250 \/
   (375 <= value < 750)%Q /\ run = set 500 \/
   (750 <= value)%Q /\ run = set 1000) /\
  (scroll = GTK_SCROLL_START -> run = set 125) /\
  (scroll = GTK_SCROLL_END -> run = set 1000) /\
  (scroll_handled scroll = false -> run = (Aborted, g)).
Proof.
  intros run set. subst run. rewrite on_change_value_eq. cbv zeta.
  split; [|split; [|split]].
  - intros Hs.
    assert (Hrun :
      match scroll with
      | GTK_SCROLL_NONE | GTK_SCROLL_JUMP =>
          (Ret true,
           gtk_after g [Gtk_adjustment_set_value range (jump_loop 4 0 value)])
      | GTK_SCROLL_STEP_BACKWARD | GTK_SCROLL_PAGE_BACKWARD =>
          (Ret true,
           gtk_after (asked range g)
             [Gtk_adjustment_set_value range
                (backward_loop 3 0
                   (fst (w_adjustment_get_value range (gtk_world g))))])
      | GTK_SCROLL_STEP_FORWARD | GTK_SCROLL_PAGE_FORWARD =>
          (Ret true,
           gtk_after (asked range g)
             [Gtk_adjustment_set_value range
                (forward_loop 4 0
                   (fst (w_adjustment_get_value range (gtk_world g))))])
      | GTK_SCROLL_START =>
          (Ret true,
           gtk_after g [Gtk_adjustment_set_value range (inject_Z 125)])
      | GTK_SCROLL_END =>
          (Ret true,
           gtk_after g [Gtk_adjustment_set_value range (inject_Z 1000)])
      | _ => (Aborted, g)
      end =
      (Ret true,
       gtk_after g [Gtk_adjustment_set_value range (jump_loop 4 0 value)]))
      by (destruct Hs as [-> | ->]; reflexivity).
    rewrite Hrun. subst set. cbv beta.
    destruct (jump_loop_cases value)
      as [[H ->] | [[H ->] | [[H ->] | [H ->]]]]; tauto.
  - now intros ->.
  - now intros ->.
  - destruct scroll; cbn [scroll_handled]; intros H;
      first [discriminate H | reflexivity].
Qed.

(** The frequency next to a value, for a value that is itself a frequency
    or lies between two. *)
Lemma forward_loop_next (current : Q) :
  ((current < 1000)%Q ->
   exists s, In s steps /\ forward_loop 4 0 current = inject_Z s /\
             (current < inject_Z s)%Q /\
             forall s', In s' steps -> (current < inject_Z s')%Q -> s <= s') /\
  ((1000 <= current)%Q -> forward_loop 4 0 current = current).
Proof.
  destruct (forward_loop_cases current)
    as [[H ->] | [[H ->] | [[H ->] | [[H ->] | [H ->]]]]].
  - split; [intros _|intros H'; lra].
    exists 125. split; [cbn; tauto|]. split; [reflexivity|].
    split; [exact H|]. intros s' Hs' _. cbn in Hs'. lia.
  - split; [intros _|intros H'; lra].
    exists 250. split; [cbn; tauto|]. split; [reflexivity|].
    split; [apply H|]. intros s' Hs' Hlt.
    destruct Hs' as [<- | [<- | [<- | [<- | []]]]]; try lia.
    unfold inject_Z in Hlt. lra.
  - split; [intros _|intros H'; lra].
    exists 500. split; [cbn; tauto|]. split; [reflexivity|].
    split; [apply H|]. intros s' Hs' Hlt.
    destruct Hs' as [<- | [<- | [<- | [<- | []]]]]; try lia;
      unfold inject_Z in Hlt; lra.
  - split; [intros _|intros H'; lra].
    exists 1000. split; [cbn; tauto|]. split; [reflexivity|].
    split; [apply H|]. intros s' Hs' Hlt.
    destruct Hs' as [<- | [<- | [<- | [<- | []]]]]; try lia;
      unfold inject_Z in Hlt; lra.
  - split; [intros H'; lra | reflexivity].
Qed.

Lemma backward_loop_next (current : Q) :
  ((current <= 125)%Q -> backward_loop 3 0 current = inject_Z 125) /\
  ((125 < current <= 1000)%Q ->
   exists s, In s steps /\ backward_loop 3 0 current = inject_Z s /\
             (inject_Z s < current)%Q /\
             forall s', In s' steps -> (inject_Z s' < current)%Q -> s' <= s) /\
  ((1000 < current)%Q -> backward_loop 3 0 current = current).
Proof.
  destruct (backward_loop_cases current)
    as [[H ->] | [[H ->] | [[H ->] | [H ->]]]].
  - split; [reflexivity|]. split; [intros H'|intros H'; lra].
    exists 125. split; [cbn; tauto|]. split; [reflexivity|].
    split; [apply H'|]. intros s' Hs' Hlt.
    destruct Hs' as [<- | [<- | [<- | [<- | []]]]]; try lia;
      unfold inject_Z in Hlt; lra.
  - split; [intros H'; lra|]. split; [intros H'|intros H'; lra].
    exists 250. split; [cbn; tauto|]. split; [reflexivity|].
    split; [apply H|]. intros s' Hs' Hlt.
    destruct Hs' as [<- | [<- | [<- | [<- | []]]]]; try lia;
      unfold inject_Z in Hlt; lra.
  - split; [intros H'; lra|]. split; [intros H'|intros H'; lra].
    exists 500. split; [cbn; tauto|]. split; [reflexivity|].
    split; [apply H|]. intros s' Hs' Hlt.
    destruct Hs' as [<- | [<- | [<- | [<- | []]]]]; try lia;
      unfold inject_Z in Hlt; lra.
  - split; [intros H'; lra|]. split; [intros H'; lra | reflexivity].
Qed.

(** X22: a step moves the polling scale to the next frequency.  For a
    step or a page forward or backward, [on_change_value] leaves the
    proposed value aside, asks for the value of the adjustment and sets
    it anew.  Forward: to the least frequency above the value it holds;
    at 1000 or above, to the value it holds.  Backward: to the greatest
    frequency below the value it holds when that is above 125 and at most
    1000; to 125 when it is 125 or less, also from below; above 1000, to
    the value it holds. *)
Theorem polling_scale_steps (scroll : GtkScrollType) (value : Q) (g : gui G) :
  let current := fst (w_adjustment_get_value range (gtk_world g)) in
  let run := on_change_value range scroll value g in
  let set v :=
    (Ret true,
     gtk_after (asked range g) [Gtk_adjustment_set_value range v]) in
  (scroll = GTK_SCROLL_STEP_FORWARD \/ scroll = GTK_SCROLL_PAGE_FORWARD ->
   exists v,
     run = set v /\
     ((current < 1000)%Q ->
      exists s, In s steps /\ v = inject_Z s /\ (current < inject_Z s)%Q /\
                forall s', In s' steps -> (current < inject_Z s')%Q ->
                           s <= s') /\
     ((1000 <= current)%Q -> v = current)) /\
  (scroll = GTK_SCROLL_STEP_BACKWARD \/ scroll = GTK_SCROLL_PAGE_BACKWARD ->
   exists v,
     run = set v /\
     ((current <= 125)%Q -> v = inject_Z 125) /\
     ((125 < current <= 1000)%Q ->
      exists s, In s steps /\ v = inject_Z s /\ (inject_Z s < current)%Q /\
                forall s', In s' steps -> (inject_Z s' < current)%Q ->
                           s' <= s) /\
     ((1000 < current)%Q -> v = current)).
Proof.
  intros current run set. subst run. rewrite on_change_value_eq. cbv zeta.
  fold current. split.
  - intros Hs. exists (forward_loop 4 0 current).
    split; [destruct Hs as [-> | ->]; reflexivity|].
    exact (forward_loop_next current).
  - intros Hs. exists (backward_loop 3 0 current).
    split; [destruct Hs as [-> | ->]; reflexivity|].
    exact (backward_loop_next current).
Qed.

(** A frequency stays one under the three loops. *)
Lemma loops_keep_frequency (value current : Q) :
  is_frequency (jump_loop 4 0 value) /\
  (is_frequency current ->
   is_frequency (forward_loop 4 0 current) /\
   is_frequency (backward_loop 3 0 current)).
Proof.
  split.
  - destruct (jump_loop_cases value)
      as [[_ ->] | [[_ ->] | [[_ ->] | [_ ->]]]];
      eexists; (split; [|reflexivity]); cbn; tauto.
  - intros (s & Hs & ->).
    destruct Hs as [<- | [<- | [<- | [<- | []]]]]; split;
      eexists; (split; [|reflexivity]); cbn; tauto.
Qed.

(** The adjustment takes a frequency as it is given: the four frequencies
    lie within its bounds. *)
Hypothesis adjustment_keeps : forall (s : Z) (w : G),
  In s steps ->
  fst (w_adjustment_get_value range
         (w_gtk (Gtk_adjustment_set_value range (inject_Z s)) w)) =
    inject_Z s.

Lemma on_change_value_keeps (scroll : GtkScrollType) (value : Q) (g : gui G) :
  is_frequency (fst (w_adjustment_get_value range (gtk_world g))) ->
  scroll_handled scroll = true ->
  exists g1 v,
    is_frequency v /\
    (g1 = g \/ g1 = asked range g) /\
    on_change_value range scroll value g =
      (Ret true, gtk_after g1 [Gtk_adjustment_set_value range v]).
Proof.
  intros Hf Hh. rewrite on_change_value_eq. cbv zeta.
  destruct (loops_keep_frequency value
              (fst (w_adjustment_get_value range (gtk_world g))))
    as (Hj & Hstep).
  destruct (Hstep Hf) as (Hfw & Hbw).
  assert (H125 : is_frequency (inject_Z 125))
    by (exists 125; split; [cbn; tauto | reflexivity]).
  assert (H1000 : is_frequency (inject_Z 1000))
    by (exists 1000; split; [cbn; tauto | reflexivity]).
  destruct scroll; try discriminate Hh;
    first
      [ exists g; eexists; split; [|split; [left; reflexivity | reflexivity]];
        assumption
      | exists (asked range g); eexists;
        split; [|split; [right; reflexivity | reflexivity]]; assumption ].
Qed.

(** X23: the polling scale keeps to the four frequencies.  If the
    adjustment takes a frequency as it is given and holds a frequency to
    begin with, then whatever the signals [change-value] delivers, as long
    as each has a scroll type with a case in [on_change_value], every
    handler returns, every value set is one of 125, 250, 500 and 1000, and
    the adjustment holds one of them at the end. *)
Theorem polling_scale_keeps_frequency (signals : list (GtkScrollType * Q)) :
  forall g : gui G,
  is_frequency (fst (w_adjustment_get_value range (gtk_world g))) ->
  Forall (fun signal => scroll_handled (fst signal) = true) signals ->
  let run := change_value_signals range signals g in
  fst run = Ret tt /\
  is_frequency (fst (w_adjustment_get_value range (gtk_world (snd run)))) /\
  exists new,
    gtk_calls (snd run) = (gtk_calls g ++ new)%list /\
    Forall sets_frequency new.
Proof.
  induction signals as [|[scroll value] rest IH]; intros g Hf Hh; cbv zeta.
  - cbn. split; [reflexivity|]. split; [assumption|].
    exists []. now rewrite app_nil_r.
  - inversion Hh as [|? ? Hh1 Hh2]; subst. cbn [fst] in Hh1.
    destruct (on_change_value_keeps scroll value g Hf Hh1)
      as (g1 & v & Hv & Hg1 & Hrun).
    assert (Hcons :
      change_value_signals range ((scroll, value) :: rest) g =
        change_value_signals range rest
          (gtk_after g1 [Gtk_adjustment_set_value range v])).
    { cbn [change_value_signals]. unfold gbind at 1. now rewrite Hrun. }
    rewrite Hcons.
    assert (Hf' : is_frequency
              (fst (w_adjustment_get_value range
                      (gtk_world
                         (gtk_after g1 [Gtk_adjustment_set_value range v]))))).
    { destruct Hv as (s & Hs & ->). cbn [gtk_after gtk_world fold_left].
      rewrite adjustment_keeps by assumption. now exists s. }
    destruct (IH _ Hf' Hh2) as (Hret & Hend & new & Hnew & Hall).
    split; [assumption|]. split; [assumption|].
    rewrite Hnew.
    destruct Hg1 as [-> | ->].
    + exists (Gtk_adjustment_set_value range v :: new).
      split.
      * cbn [gtk_after gtk_calls]. now rewrite <- app_assoc.
      * constructor; assumption.
    + exists (Gtk_adjustment_get_value range
                (fst (w_adjustment_get_value range (gtk_world g)))
              :: Gtk_adjustment_set_value range v :: new).
      split.
      * cbn [gtk_after gtk_calls asked]. now rewrite <- !app_assoc.
      * constructor; [exact I|]. constructor; assumption.
Qed.

End PollingScaleRuns.

(** * More concrete runs *)


Lemma encode_cpi_rejects_witness :
  0 <= 450 /\ isdigit "." = false /\
  encode_cpi "450.5" Static.start = cpi_rejected Static.start.
Proof.
  assert (H1 : 0 <= 450) by lia.
  assert (H2 : isdigit "." = false) by reflexivity.
  split; [exact H1|]. split; [exact H2|].
  apply (encode_cpi_rejects "450.5" Static.start).
  right. left. exists 450, "."%char, "5".
  split; [exact H1|]. split; [exact H2 | reflexivity].
Defined.

Lemma encode_cpi_leading_witness :
  all_space " " = true /\ 0 <= 900 /\
  encode_cpi " +900" Static.start = encode_cpi "900" Static.start.
Proof.
  assert (H1 : all_space " " = true) by reflexivity.
  assert (H2 : 0 <= 900) by lia.
  split; [exact H1|]. split; [exact H2|].
  exact (proj2 (encode_cpi_leading " " 900 Static.start H1 H2)).
Defined.

Lemma usage_without_argument_witness :
  fst (main (U := Static.usb Example.healthy) Getopt.getopt_long
         "sensei-raw-ctl" "0.1" [] (mk_config 0 0 0 0 0 0)
         ["sensei-raw-ctl"] Static.start) = Exited EXIT_FAILURE /\
  fst (main (U := Static.usb Example.healthy) Getopt.getopt_long
         "sensei-raw-ctl" "0.1" [] (mk_config 0 0 0 0 0 0)
         ["sensei-raw-ctl"; "--show"; "--help"] Static.start)
    = Exited EXIT_SUCCESS.
Proof.
  destruct (usage_without_argument (U := Static.usb Example.healthy)
              Getopt.getopt_long "sensei-raw-ctl" "0.1" []
              (mk_config 0 0 0 0 0 0) "sensei-raw-ctl"
              ["sensei-raw-ctl"; "--show"; "--help"]
              [("s"%char, "")] [] "" 3 Static.start Static.start
              Scenario.show_request (mk_config 0 0 0 0 0 0))
    as (H1 & H2 & _).
  - reflexivity.
  - simpl. lia.
  - reflexivity.
  - split; [now rewrite H1 | now rewrite H2].
Defined.

Lemma extra_parameters_rejected_witness :
  main (U := Static.usb Example.healthy) Getopt.getopt_long
    "sensei-raw-ctl" "0.1" [] (mk_config 0 0 0 0 0 0)
    ["sensei-raw-ctl"; "--save"; "now"] Static.start =
    (Exited EXIT_FAILURE,
     complained Static.start ("Error: extra parameters" ++ LF)).
Proof.
  destruct (extra_parameters_rejected (U := Static.usb Example.healthy)
              Getopt.getopt_long "sensei-raw-ctl" "0.1" []
              (mk_config 0 0 0 0 0 0)
              ["sensei-raw-ctl"; "--save"; "now"]
              [("S"%char, "")] 2 Static.start Static.start
              (mk_options false true false false false false false false)
              (mk_config 0 0 0 0 0 0))
    as (H & _).
  - reflexivity.
  - simpl. lia.
  - simpl. lia.
  - reflexivity.
  - exact H.
Defined.

Lemma enumerated_options_accept_witness :
  no_nul "1000Hz" = true /\
  parse_option (W := nat) "sensei-raw-ctl" "0.1" "sensei-raw-ctl" "p" "1000Hz"
    Scenario.show_request (mk_config 0 0 0 0 0 0) Static.start =
    (Exited EXIT_FAILURE,
     complained Static.start
       ("Error: invalid polling frequency: " ++ "1000Hz" ++ LF)).
Proof.
  assert (H : no_nul "1000Hz" = true) by reflexivity.
  split; [exact H|].
  destruct (enumerated_options_accept (W := nat) "sensei-raw-ctl" "0.1"
              "sensei-raw-ctl" "1000Hz" Scenario.show_request
              (mk_config 0 0 0 0 0 0) Static.start H)
    as ([(v & Hin & _) | (_ & Hrun)] & _).
  - exfalso. simpl in Hin.
    destruct Hin as [Hin | [Hin | [Hin | [Hin | []]]]]; discriminate Hin.
  - exact Hrun.
Defined.

Lemma shown_words_parse_back_witness :
  1 <= 3 <= 4 /\
  parse_option (W := nat) "sensei-raw-ctl" "0.1" "sensei-raw-ctl" "i"
    (intensity_text 3) Scenario.show_request (mk_config 0 0 0 0 0 0)
    Static.start =
    (Ret (with_set_intensity Scenario.show_request,
          with_intensity (mk_config 0 0 0 0 0 0) 3), Static.start).
Proof.
  assert (H : 1 <= 3 <= 4) by lia.
  split; [exact H|].
  exact (proj1 (shown_words_parse_back (W := nat) "sensei-raw-ctl" "0.1"
                  "sensei-raw-ctl" 3 Scenario.show_request
                  (mk_config 0 0 0 0 0 0) Static.start H)).
Defined.

Lemma claim_failure_unwinds_witness :
  -6 <> 0 /\
  exists ra,
    calls (snd (main_claim (U := Static.usb Scenario.busy) []
                  (mk_config 0 0 0 0 0 0) 2%nat true Example.full_request
                  Example.full_config 0 Static.start)) =
      [Call_claim_interface 2%nat SENSEI_CTL_IFACE (-6);
       Call_attach_kernel_driver 2%nat SENSEI_CTL_IFACE ra;
       Call_close 2%nat; Call_exit].
Proof.
  assert (H : -6 <> 0) by lia.
  split; [exact H|].
  destruct (claim_failure_unwinds (U := Static.usb Scenario.busy) []
              (mk_config 0 0 0 0 0 0) Static.start 2%nat true
              Example.full_request Example.full_config 0 (-6) 1%nat
              eq_refl H) as (ra & _ & Hcalls & _).
  exists ra. exact Hcalls.
Defined.

Lemma show_failure_reported_witness :
  -1 < 0 /\
  fst (main_claim (U := Static.usb Scenario.unreadable) []
         (mk_config 0 0 0 0 0 0) 2%nat false Scenario.show_request
         (mk_config 0 0 0 0 0 0) 0 Static.start) = Ret 1 /\
  stdout (snd (main_claim (U := Static.usb Scenario.unreadable) []
                 (mk_config 0 0 0 0 0 0) 2%nat false Scenario.show_request
                 (mk_config 0 0 0 0 0 0) 0 Static.start)) = "".
Proof.
  assert (H : -1 < 0) by lia.
  split; [exact H|].
  destruct (show_failure_reported (U := Static.usb Scenario.unreadable) []
              (mk_config 0 0 0 0 0 0) Static.start 2%nat false
              Scenario.show_request (mk_config 0 0 0 0 0 0) 0 (-1) []
              1%nat 2%nat eq_refl eq_refl eq_refl H)
    as (rr & ra & Hret & _ & Hout & _).
  exact (conj Hret Hout).
Defined.

Lemma load_configuration_verdict_witness :
  exists set,
    gtk_calls
      (snd (load_configuration (T := StaticGtk.gtk (Scenario.printing ""))
              "sensei-raw-ctl" field_values (fun m => m) StaticGtk.start)) =
      ([G_spawn_sync ["pkexec"; "sensei-raw-ctl"; "--show"]
          (Spawn_done "" "" (Some 0))]
       ++ set
       ++ [Gtk_notebook_set_current_page PAGE_SETTINGS]
       ++ [Gtk_dialog_run "Internal error"; Gtk_main_quit])%list.
Proof.
  destruct (load_configuration_verdict
              (T := StaticGtk.gtk (Scenario.printing ""))
              "sensei-raw-ctl" field_values (fun m => m) StaticGtk.start
              "" "" 1%nat eq_refl) as (set & _ & _ & Hcalls).
  exists set. exact Hcalls.
Defined.

Lemma load_configuration_round_trip_witness :
  field_values "(?<=: ).*$" (report_text Example.full_config) =
    report_values Example.full_config /\
  gtk_calls
    (snd (load_configuration
            (T := StaticGtk.gtk
                    (Scenario.printing (report_text Example.full_config)))
            "sensei-raw-ctl" field_values (fun m => m) StaticGtk.start)) =
    [G_spawn_sync ["pkexec"; "sensei-raw-ctl"; "--show"]
       (Spawn_done (report_text Example.full_config) "" (Some 0));
     Gtk_combo_box_set_active "intensity_combo" 3;
     Gtk_combo_box_set_active "pulsation_combo" 2;
     Gtk_range_set_value "cpi_off_scale" 450;
     Gtk_range_set_value "cpi_on_scale" 1800;
     Gtk_range_set_value "polling_scale" 500;
     Gtk_notebook_set_current_page PAGE_SETTINGS].
Proof.
  assert (H : field_values "(?<=: ).*$" (report_text Example.full_config) =
              report_values Example.full_config) by (vm_compute; reflexivity).
  split; [exact H|].
  refine (proj2 (load_configuration_round_trip
                   (T := StaticGtk.gtk
                           (Scenario.printing (report_text Example.full_config)))
                   "sensei-raw-ctl" field_values (fun m => m) StaticGtk.start
                   Example.full_config "" 1%nat eq_refl H _ _ _ _ _));
    simpl; lia.
Defined.

Lemma unknown_polling_is_silent_witness :
  ~ 1 <= polling Scenario.odd_polling <= 4 /\
  gtk_calls
    (snd (load_configuration
            (T := StaticGtk.gtk
                    (Scenario.printing (report_text Scenario.odd_polling)))
            "sensei-raw-ctl" field_values (fun m => m) StaticGtk.start)) =
    [G_spawn_sync ["pkexec"; "sensei-raw-ctl"; "--show"]
       (Spawn_done (report_text Scenario.odd_polling) "" (Some 0));
     Gtk_combo_box_set_active "intensity_combo" 3;
     Gtk_combo_box_set_active "pulsation_combo" 2;
     Gtk_range_set_value "cpi_off_scale" 450;
     Gtk_range_set_value "cpi_on_scale" 1800].
Proof.
  assert (H : field_values "(?<=: ).*$" (report_text Scenario.odd_polling) =
              report_values Scenario.odd_polling) by (vm_compute; reflexivity).
  assert (Hf : ~ 1 <= polling Scenario.odd_polling <= 4) by (simpl; lia).
  split; [exact Hf|].
  refine (proj2 (unknown_polling_is_silent
                   (T := StaticGtk.gtk
                           (Scenario.printing (report_text Scenario.odd_polling)))
                   "sensei-raw-ctl" field_values (fun m => m) StaticGtk.start
                   Scenario.odd_polling "" 1%nat eq_refl H _ _ Hf _ _));
    simpl; lia.
Defined.

Lemma no_device_shows_page_witness :
  gtk_calls
    (snd (spawn_ctl (T := StaticGtk.gtk Scenario.no_mouse)
            ("pkexec" :: Example.argv_mode_normal) StaticGtk.start)) =
    [G_spawn_sync ("pkexec" :: Example.argv_mode_normal)
       (Spawn_done "" ("Error: no suitable device found" ++ LF) (Some 1));
     Gtk_notebook_set_current_page PAGE_NO_DEVICE].
Proof.
  destruct (no_device_shows_page (U := Static.usb Scenario.empty)
              (T := StaticGtk.gtk Scenario.no_mouse)
              Getopt.getopt_long "sensei-raw-ctl" "0.1" []
              (mk_config 0 0 0 0 0 0) Example.argv_mode_normal
              Static.start Static.start
              (mk_state 5%nat
                 [Call_init 0; Call_get_device_list (Some []);
                  Call_free_device_list [] 1; Call_get_device_list (Some []);
                  Call_free_device_list [] 1] "" "")
              (mk_options false false false true false false false false)
              (mk_config 2 0 0 0 0 0) StaticGtk.start 1%nat)
    as (_ & _ & Hspawn).
  - reflexivity.
  - reflexivity.
  - reflexivity.
  - reflexivity.
  - rewrite Hspawn. reflexivity.
Defined.

Lemma save_configuration_request_witness :
  exists st',
    parse_options (W := nat) Getopt.getopt_long "sensei-raw-ctl" "0.1"
      ["sensei-raw-ctl"; "--polling"; "500"; "--cpi-on"; "1800";
       "--cpi-off"; "450"; "--pulsation"; "medium"; "--intensity"; "low";
       "--save"]
      (mk_options false false false false false false false false)
      (mk_config 0 0 0 0 0 0) Static.start =
      (Ret (mk_options false true true false true true true true,
            mk_config 0 5 20 3 2 2), st').
Proof.
  destruct (save_configuration_request (W := nat)
              (T := StaticGtk.gtk Scenario.settings)
              Getopt.getopt_long "sensei-raw-ctl" "0.1" "sensei-raw-ctl"
              2 1800 450 2 1
              (fun w => eq_refl) (fun w => eq_refl) (fun w => eq_refl)
              (fun w => eq_refl) (fun w => eq_refl)
              StaticGtk.start Static.start "")
    as (_ & st' & Hparse & _); try lia.
  - reflexivity.
  - exists st'. exact Hparse.
Defined.

Lemma legacy_button_is_fatal_witness :
  gtk_calls
    (snd (on_set_mode_legacy (T := StaticGtk.gtk Scenario.invalid_mode)
            "sensei-raw-ctl" StaticGtk.start)) =
    [G_spawn_sync ["pkexec"; "sensei-raw-ctl"; "--mode"; "compat"]
       (Spawn_done "" ("Error: invalid mode: compat" ++ LF) (Some 1));
     Gtk_dialog_run ("Error: invalid mode: compat" ++ LF);
     Gtk_main_quit].
Proof.
  destruct (legacy_button_is_fatal (U := Static.usb Scenario.empty)
              (T := StaticGtk.gtk Scenario.invalid_mode)
              Getopt.getopt_long "sensei-raw-ctl" "0.1" []
              (mk_config 0 0 0 0 0 0) "sensei-raw-ctl"
              Static.start StaticGtk.start 1%nat)
    as (_ & _ & Hbutton).
  - reflexivity.
  - reflexivity.
  - reflexivity.
  - rewrite Hbutton. reflexivity.
Defined.

Lemma polling_scale_snaps_witness :
  on_change_value (T := StaticGtk.gtk Scenario.settings) "polling_scale"
    GTK_SCROLL_JUMP (749 # 4) StaticGtk.start =
    (Ret true,
     gtk_after (T := StaticGtk.gtk Scenario.settings) StaticGtk.start
       [Gtk_adjustment_set_value "polling_scale" (inject_Z 250)]).
Proof.
  destruct (proj1 (polling_scale_snaps (T := StaticGtk.gtk Scenario.settings)
                     "polling_scale" GTK_SCROLL_JUMP (749 # 4)
                     StaticGtk.start) (or_intror eq_refl))
    as [[H _] | [[_ H] | [[[H _] _] | [H _]]]].
  - exfalso. unfold Qlt in H. simpl in H. lia.
  - exact H.
  - exfalso. unfold Qle in H. simpl in H. lia.
  - exfalso. unfold Qle in H. simpl in H. lia.
Defined.

Lemma polling_scale_steps_witness :
  exists s,
    In s steps /\ 500 < s /\
    on_change_value (T := StaticGtk.gtk Scenario.settings) "polling_scale"
      GTK_SCROLL_STEP_FORWARD 0%Q StaticGtk.start =
      (Ret true,
       gtk_after (T := StaticGtk.gtk Scenario.settings)
         (asked (T := StaticGtk.gtk Scenario.settings) "polling_scale"
            StaticGtk.start)
         [Gtk_adjustment_set_value "polling_scale" (inject_Z s)]).
Proof.
  destruct (proj1 (polling_scale_steps (T := StaticGtk.gtk Scenario.settings)
                     "polling_scale" GTK_SCROLL_STEP_FORWARD 0%Q
                     StaticGtk.start) (or_introl eq_refl))
    as (v & Hrun & Hnext & _).
  destruct Hnext as (s & Hs & -> & Hlt & _).
  - reflexivity.
  - exists s. split; [exact Hs|]. split; [|exact Hrun].
    unfold Qlt in Hlt. simpl in Hlt. lia.
Defined.

Lemma polling_scale_keeps_frequency_witness :
  let run := change_value_signals (T := LiveGtk.gtk Scenario.settings)
               "polling_scale" Scenario.scrolling (LiveGtk.start 500%Q) in
  fst run = Ret tt /\ is_frequency (gtk_world (snd run)).
Proof.
  destruct (polling_scale_keeps_frequency (T := LiveGtk.gtk Scenario.settings)
              "polling_scale" (fun s w _ => eq_refl) Scenario.scrolling
              (LiveGtk.start 500%Q))
    as (Hret & Hend & _).
  - exists 500. split; [simpl; tauto | reflexivity].
  - repeat constructor.
  - split; [exact Hret | exact Hend].
Defined.
